(** * Project-Manager: scanner, classifier, fingerprint cache and health scorer

    A shallow embedding of the core of [project_manager_gui.py] (class
    [ProjectManagerGUI]) and of the two scoring functions of
    [project_manager.py] (class [ProjectManager]), with the properties of
    the specification stated over it; then of the rest of the analysis of
    both files (configuration, scan and dependencies of the command line
    tool, clean-up of the backups, size formatting), with properties read
    off the code.

    Modelling conventions
    - The filesystem is a finite tree of files and directories.  The order of
      a directory's [children] is the order in which [Path.iterdir] returns
      them.  Probes do not raise: permission errors, symbolic links and
      races with other processes are outside the model.
    - A [Path] is a name, as in [pathlib]: the list of its components below
      the root [/].  Every probe ([exists], [is_dir], [stat], [iterdir],
      [glob], [rglob], [open]) resolves the name in the tree.
    - Names and file contents are byte strings; [str.lower] is modelled on
      ASCII letters, and [fnmatch] is case sensitive (POSIX).
    - Timestamps are whole seconds ([Z]); [st_mtime] and [time.time] are
      floats in the source.  [timedelta.days] is the floor of the difference
      divided by 86400.  [datetime.fromtimestamp] raises outside the years
      that [datetime] represents; the time zone is outside the model and the
      bounds are those of UTC.
    - The text of a file is what [read] returns for it in text mode, with
      every line ending translated to a line feed.
    - Python objects that are shared and mutated (the record stored in the
      cache and appended to [self.projects]) are written back to every
      place that holds them and that the code reads. *)

From Stdlib Require Import ZArith String Ascii Bool Lia.
From stdpp Require Import base option list gmap strings pretty sorting.

Set Warnings "-register-all".

Local Open Scope string_scope.
Local Open Scope list_scope.
Local Open Scope Z_scope.

(** ** Strings *)

Module Str.

(** [c.lower()] for one ASCII character. *)
Definition lower_ascii (c : ascii) : ascii :=
  let n := nat_of_ascii c in
  if ((65 <=? n) && (n <=? 90))%nat then ascii_of_nat (n + 32) else c.

(** [s.lower()] *)
Fixpoint lower (s : string) : string :=
  match s with
  | EmptyString => EmptyString
  | String c s' => String (lower_ascii c) (lower s')
  end.

(** [s.startswith(p)] *)
Definition startswith (p s : string) : bool := String.prefix p s.

(** [sub in s] for two strings. *)
Fixpoint contains (sub s : string) : bool :=
  String.prefix sub s ||
  match s with
  | EmptyString => false
  | String _ s' => contains sub s'
  end.

(** [s.endswith(p)] *)
Fixpoint endswith (p s : string) : bool :=
  String.eqb p s ||
  match s with
  | EmptyString => false
  | String _ s' => endswith p s'
  end.

(** [sep.join(l)] *)
Definition join (sep : string) (l : list string) : string := String.concat sep l.

(** [s.rfind('.')], as the number of characters before the last dot. *)
Fixpoint rfind_dot (s : string) : option nat :=
  match s with
  | EmptyString => None
  | String c s' =>
      match rfind_dot s' with
      | Some i => Some (S i)
      | None => if Ascii.eqb c "." then Some O else None
      end
  end.

(** [s[i:]] *)
Fixpoint drop (i : nat) (s : string) : string :=
  match i, s with
  | O, _ => s
  | S i', String _ s' => drop i' s'
  | S _, EmptyString => EmptyString
  end.

(** [x in l] for a list of strings. *)
Definition mem (x : string) (l : list string) : bool := existsb (String.eqb x) l.

(** [s.strip()] is only used to test for blank lines and leading [#]:
    [lstrip] on ASCII white space. *)
Definition is_space (c : ascii) : bool :=
  let n := nat_of_ascii c in
  ((n =? 32) || ((9 <=? n) && (n <=? 13)) || ((28 <=? n) && (n <=? 31)))%nat.

Fixpoint lstrip (s : string) : string :=
  match s with
  | String c s' => if is_space c then lstrip s' else s
  | EmptyString => EmptyString
  end.

(** [s.split('\n')] *)
Fixpoint split_lines_aux (cur : string -> string) (s : string) : list string :=
  match s with
  | EmptyString => [cur EmptyString]
  | String c s' =>
      if Ascii.eqb c "010" then cur EmptyString :: split_lines_aux (fun x => x) s'
      else split_lines_aux (fun x => cur (String c x)) s'
  end.
Definition split_lines (s : string) : list string := split_lines_aux (fun x => x) s.

End Str.

(** ** MD5 ([hashlib.md5(...).hexdigest()], RFC 1321) *)

Module MD5.

Definition mask32 : Z := 0xFFFFFFFF.
Definition w32 (x : Z) : Z := Z.land x mask32.
Definition rotl (x : Z) (c : Z) : Z :=
  w32 (Z.lor (Z.shiftl x c) (Z.shiftr (w32 x) (32 - c))).

Definition shifts : list Z :=
  [7; 12; 17; 22; 7; 12; 17; 22; 7; 12; 17; 22; 7; 12; 17; 22;
   5; 9; 14; 20; 5; 9; 14; 20; 5; 9; 14; 20; 5; 9; 14; 20;
   4; 11; 16; 23; 4; 11; 16; 23; 4; 11; 16; 23; 4; 11; 16; 23;
   6; 10; 15; 21; 6; 10; 15; 21; 6; 10; 15; 21; 6; 10; 15; 21].

Definition sines : list Z :=
  [0xd76aa478; 0xe8c7b756; 0x242070db; 0xc1bdceee;
   0xf57c0faf; 0x4787c62a; 0xa8304613; 0xfd469501;
   0x698098d8; 0x8b44f7af; 0xffff5bb1; 0x895cd7be;
   0x6b901122; 0xfd987193; 0xa679438e; 0x49b40821;
   0xf61e2562; 0xc040b340; 0x265e5a51; 0xe9b6c7aa;
   0xd62f105d; 0x02441453; 0xd8a1e681; 0xe7d3fbc8;
   0x21e1cde6; 0xc33707d6; 0xf4d50d87; 0x455a14ed;
   0xa9e3e905; 0xfcefa3f8; 0x676f02d9; 0x8d2a4c8a;
   0xfffa3942; 0x8771f681; 0x6d9d6122; 0xfde5380c;
   0xa4beea44; 0x4bdecfa9; 0xf6bb4b60; 0xbebfbc70;
   0x289b7ec6; 0xeaa127fa; 0xd4ef3085; 0x04881d05;
   0xd9d4d039; 0xe6db99e5; 0x1fa27cf8; 0xc4ac5665;
   0xf4292244; 0x432aff97; 0xab9423a7; 0xfc93a039;
   0x655b59c3; 0x8f0ccc92; 0xffeff47d; 0x85845dd1;
   0x6fa87e4f; 0xfe2ce6e0; 0xa3014314; 0x4e0811a1;
   0xf7537e82; 0xbd3af235; 0x2ad7d2bb; 0xeb86d391].

Definition nthZ (l : list Z) (i : nat) : Z := nth i l 0.

(** The message as bytes, then the padding: one [0x80], zeros up to 56
    modulo 64, and the bit length on eight little-endian bytes. *)
Definition bytes_of (s : string) : list Z :=
  map (fun c => Z.of_nat (nat_of_ascii c)) (list_ascii_of_string s).

Definition le_bytes (n : nat) (x : Z) : list Z :=
  map (fun i => Z.land (Z.shiftr x (8 * Z.of_nat i)) 0xFF) (seq 0 n).

Definition pad (msg : list Z) : list Z :=
  let len := Z.of_nat (length msg) in
  let zeros := Z.to_nat ((55 - len) mod 64) in
  msg ++ [0x80] ++ repeat 0 zeros ++ le_bytes 8 (Z.land (8 * len) 0xFFFFFFFFFFFFFFFF).

Fixpoint words (bs : list Z) : list Z :=
  match bs with
  | b0 :: b1 :: b2 :: b3 :: rest =>
      (b0 + Z.shiftl b1 8 + Z.shiftl b2 16 + Z.shiftl b3 24) :: words rest
  | _ => []
  end.

Fixpoint chunks (n : nat) (ws : list Z) : list (list Z) :=
  match n with
  | O => []
  | S n' =>
      match ws with
      | [] => []
      | _ => take 16 ws :: chunks n' (drop 16 ws)
      end
  end.

Definition round (M : list Z) (st : Z * Z * Z * Z) (i : nat) : Z * Z * Z * Z :=
  let '(A, B, C, D) := st in
  let notB := Z.lxor B mask32 in
  let notD := Z.lxor D mask32 in
  let '(F, g) :=
    if (i <? 16)%nat then (Z.lor (Z.land B C) (Z.land notB D), i)
    else if (i <? 32)%nat then (Z.lor (Z.land D B) (Z.land notD C), ((5 * i + 1) mod 16)%nat)
    else if (i <? 48)%nat then (Z.lxor (Z.lxor B C) D, ((3 * i + 5) mod 16)%nat)
    else (Z.lxor C (Z.lor B notD), ((7 * i) mod 16)%nat) in
  let F' := w32 (F + A + nthZ sines i + nthZ M g) in
  (D, w32 (B + rotl F' (nthZ shifts i)), B, C).

Definition process (h : Z * Z * Z * Z) (M : list Z) : Z * Z * Z * Z :=
  let '(a0, b0, c0, d0) := h in
  let '(A, B, C, D) := fold_left (round M) (seq 0 64) h in
  (w32 (a0 + A), w32 (b0 + B), w32 (c0 + C), w32 (d0 + D)).

Definition hex_digit (x : Z) : ascii :=
  ascii_of_nat (Z.to_nat (if x <? 10 then 48 + x else 87 + x)).

Definition hex_byte (b : Z) : string :=
  String (hex_digit (Z.shiftr b 4)) (String (hex_digit (Z.land b 0xF)) EmptyString).

Definition hexdigest (s : string) : string :=
  let ws := words (pad (bytes_of s)) in
  let '(a, b, c, d) :=
    fold_left process (chunks (length ws) ws)
              (0x67452301, 0xefcdab89, 0x98badcfe, 0x10325476) in
  String.concat "" (map hex_byte (le_bytes 4 a ++ le_bytes 4 b ++ le_bytes 4 c ++ le_bytes 4 d)).

End MD5.

(** ** The filesystem *)

(** What [json.load] returns.  Numbers are kept as integers: the code only
    tests the kind of a value, membership and length. *)
Inductive json : Type :=
| JNull
| JBool (b : bool)
| JNum (z : Z)
| JStr (s : string)
| JArr (xs : list json)
| JObj (kvs : list (string * json)).

(** A regular file: its size, its text (what [read] returns in text mode:
    decoded with [errors='ignore'], every line ending translated to a line
    feed), whether decoding it strictly succeeds, and the value [json.load]
    yields for it ([None] when it raises). *)
Record file_data : Type := mk_file {
  st_size : Z;
  text : string;
  decodes : bool;
  json_value : option json
}.

Inductive node : Type :=
| File (name : string) (st_mtime : Z) (data : file_data)
| Dir (name : string) (st_mtime : Z) (children : list node).

Definition node_name (n : node) : string :=
  match n with File s _ _ | Dir s _ _ => s end.

Definition node_mtime (n : node) : Z :=
  match n with File _ t _ | Dir _ t _ => t end.

Definition Path : Type := list string.

Module Fs.

Fixpoint find_child (c : string) (cs : list node) : option node :=
  match cs with
  | [] => None
  | n :: cs' => if String.eqb (node_name n) c then Some n else find_child c cs'
  end.

(** The node a path names, from the root directory [fs]. *)
Fixpoint resolve (fs : node) (p : Path) : option node :=
  match p with
  | [] => Some fs
  | c :: p' =>
      match fs with
      | Dir _ _ cs =>
          match find_child c cs with
          | Some n => resolve n p'
          | None => None
          end
      | File _ _ _ => None
      end
  end.

(** [p.name], [p.parent], [p / c], [str(p)] *)
Definition name (p : Path) : string := List.last p "".
Definition parent (p : Path) : Path := removelast p.
Definition div (p : Path) (c : string) : Path := p ++ [c].
Definition str (p : Path) : string := "/" +:+ Str.join "/" p.

Definition path_eqb (p q : Path) : bool := bool_decide (p = q).

(** [p.suffix] *)
Definition suffix (p : Path) : string :=
  let nm := name p in
  match Str.rfind_dot nm with
  | Some i => if ((0 <? i) && (i <? String.length nm - 1))%nat then Str.drop i nm else ""
  | None => ""
  end.

(** [p.relative_to(base)]: [None] stands for [ValueError]. *)
Fixpoint relative_to (p base : Path) : option Path :=
  match base, p with
  | [], _ => Some p
  | b :: base', c :: p' => if String.eqb b c then relative_to p' base' else None
  | _ :: _, [] => None
  end.

Definition str_relative (p : Path) : string :=
  match p with [] => "." | _ => Str.join "/" p end.

Definition exists_ (fs : node) (p : Path) : bool :=
  match resolve fs p with Some _ => true | None => false end.

Definition is_dir (fs : node) (p : Path) : bool :=
  match resolve fs p with Some (Dir _ _ _) => true | _ => false end.

Definition is_file (fs : node) (p : Path) : bool :=
  match resolve fs p with Some (File _ _ _) => true | _ => false end.

(** [p.stat().st_mtime]; [None] when the path does not exist. *)
Definition stat_mtime (fs : node) (p : Path) : option Z :=
  node_mtime <$> resolve fs p.

Definition stat_size (fs : node) (p : Path) : Z :=
  match resolve fs p with Some (File _ _ d) => st_size d | _ => 0 end.

(** [p.iterdir()], in the order of the filesystem; [None] when [p] is not
    a directory (the call raises). *)
Definition iterdir (fs : node) (p : Path) : option (list Path) :=
  match resolve fs p with
  | Some (Dir _ _ cs) => Some (map (fun c => div p (node_name c)) cs)
  | _ => None
  end.

(** Everything below a directory node, parents before their contents. *)
Fixpoint below (p : Path) (n : node) : list Path :=
  match n with
  | File _ _ _ => []
  | Dir _ _ cs => flat_map (fun c => div p (node_name c) :: below (div p (node_name c)) c) cs
  end.

(** [p.rglob('*')] *)
Definition rglob_all (fs : node) (p : Path) : list Path :=
  match resolve fs p with Some n => below p n | None => [] end.

(** [p.rglob(pattern)] and [p.glob(pattern)], for a pattern given as a
    test on the entry's name. *)
Definition rglob (fs : node) (p : Path) (pat : string -> bool) : list Path :=
  List.filter (fun q => pat (name q)) (rglob_all fs p).

Definition glob (fs : node) (p : Path) (pat : string -> bool) : list Path :=
  List.filter (fun q => pat (name q)) (default [] (iterdir fs p)).

(** [open(p, 'r', ...).read()]: [None] when it raises.  Opening a
    directory or a missing path raises; so does strict decoding of
    bytes that are not valid in the default encoding. *)
Definition read (fs : node) (p : Path) (ignore_errors : bool) : option string :=
  match resolve fs p with
  | Some (File _ _ d) => if ignore_errors || decodes d then Some (text d) else None
  | _ => None
  end.

(** [json.load(open(p, 'r'))] *)
Definition json_load (fs : node) (p : Path) : option json :=
  match resolve fs p with
  | Some (File _ _ d) => json_value d
  | _ => None
  end.

(** The tree after [os.utime] sets the modification time of the entry at
    [p] to [t]; nothing else changes. *)
Fixpoint update_child (c : string) (f : node -> node) (cs : list node) : list node :=
  match cs with
  | [] => []
  | n :: cs' =>
      if String.eqb (node_name n) c then f n :: cs' else n :: update_child c f cs'
  end.

Fixpoint set_mtime (p : Path) (t : Z) (n : node) : node :=
  match p with
  | [] =>
      match n with
      | File nm _ d => File nm t d
      | Dir nm _ cs => Dir nm t cs
      end
  | c :: p' =>
      match n with
      | Dir nm m cs => Dir nm m (update_child c (set_mtime p' t) cs)
      | File _ _ _ => n
      end
  end.

(** [any((p / n).exists() for n in names)] *)
Definition any_exists (fs : node) (p : Path) (names : list string) : bool :=
  existsb (fun n => exists_ fs (div p n)) names.

End Fs.

Notation "p // c" := (Fs.div p c) (at level 40, left associativity).

(** fnmatch patterns used by the code. *)
Definition pat_suffix (ext : string) : string -> bool := Str.endswith ext.
Definition pat_exact (s : string) : string -> bool := String.eqb s.
Definition pat_any : string -> bool := fun _ => true.

(** ** Times *)

(** [datetime.datetime.fromtimestamp(t)]: [None] when it raises, as it does
    for a time outside the years 1 to 9999 that [datetime] represents. *)
Definition min_timestamp : Z := -62135596800.
Definition max_timestamp : Z := 253402300799.

Definition fromtimestamp (t : Z) : option Z :=
  if (min_timestamp <=? t) && (t <=? max_timestamp) then Some t else None.

(** ** Project records

    The dictionaries built by [_quick_analyze_project] and [analyze_project].
    [p_frameworks], [p_parent], [p_depth] and [p_relative_path] are [None]
    while the key is absent (for [p_parent], also when its value is [None]).
    [modified] keeps the timestamp whose local date the code prints. *)
Inductive modified_t : Type :=
| ModUnknown
| ModDate (mtime : Z).

Record project_info : Type := mk_info {
  p_name : string;
  p_path : string;
  p_type : string;
  p_language : string;
  p_framework : string;
  p_frameworks : option (list string);
  p_status : string;
  p_health : Z;
  p_size : string;
  p_modified : modified_t;
  p_parent : option string;
  p_depth : option nat;
  p_relative_path : option string
}.

(** [old.update(new)]: every key of [new] overwrites. *)
Definition dict_update (old new : project_info) : project_info :=
  {| p_name := p_name new;
     p_path := p_path new;
     p_type := p_type new;
     p_language := p_language new;
     p_framework := p_framework new;
     p_frameworks := match p_frameworks new with Some f => Some f | None => p_frameworks old end;
     p_status := p_status new;
     p_health := p_health new;
     p_size := p_size new;
     p_modified := p_modified new;
     p_parent := match p_parent new with Some f => Some f | None => p_parent old end;
     p_depth := match p_depth new with Some f => Some f | None => p_depth old end;
     p_relative_path :=
       match p_relative_path new with Some f => Some f | None => p_relative_path old end |}.

(** ** [project_manager_gui.py]: classifier, cache and scanner *)

Module GUI.

(** *** [get_directory_size] *)

(** [f"{x:.1f}"] for [x = num / den], [0 <= num], [0 < den]: the nearest
    tenth, ties to the even digit.  The floats of the source are exact
    quotients by powers of 1024 for sizes below [2^53] bytes. *)
Definition format_1f (num den : Z) : string :=
  let q := (10 * num) / den in
  let r := (10 * num) mod den in
  let tenths :=
    if 2 * r <? den then q
    else if den <? 2 * r then q + 1
    else if Z.even q then q else q + 1 in
  pretty (tenths / 10) +:+ "." +:+ pretty (tenths mod 10).

Fixpoint size_units (units : list string) (total_size den : Z) : string :=
  match units with
  | [] => format_1f total_size den +:+ " TB"
  | unit :: units' =>
      if total_size <? 1024 * den then format_1f total_size den +:+ " " +:+ unit
      else size_units units' total_size (1024 * den)
  end.

Definition get_directory_size (fs : node) (path : Path) : string :=
  let total_size :=
    foldr Z.add 0 (map (Fs.stat_size fs) (List.filter (Fs.is_file fs) (Fs.rglob_all fs path))) in
  size_units ["B"; "KB"; "MB"; "GB"] total_size 1.

(** *** Classifier *)

Definition obvious_non_projects : list string :=
  ["node_modules"; "venv"; "env"; ".venv"; ".env"; "__pycache__";
   "target"; "build"; "dist"; "out"; "bin"; "obj"; "classes";
   ".git"; ".svn"; ".hg"; ".bzr"; ".vscode"; ".idea"; ".vs";
   "tmp"; "temp"; "cache"; ".cache"; "logs"; ".logs";
   ".next"; ".nuxt"; ".gatsby"; ".svelte-kit"; ".astro";
   "public"; "static"; "assets"; "media"; "docs"; "documentation"].

Definition _is_obvious_non_project (project_path : Path) : bool :=
  Str.mem (Str.lower (Fs.name project_path)) obvious_non_projects.

Definition project_indicators : list string :=
  ["package.json"; "requirements.txt"; "Cargo.toml"; "go.mod"; "pom.xml";
   "composer.json"; "Gemfile"; "setup.py"; "README.md"; "src"; "lib"; "app"].

Definition _has_project_indicators (fs : node) (path : Path) : bool :=
  Fs.any_exists fs path project_indicators.

Definition hidden (p : Path) : bool := Str.startswith "." (Fs.name p).

(** [[d for d in p.iterdir() if d.is_dir() and not d.name.startswith('.')]];
    [None] when [iterdir] raises. *)
Definition visible_subdirs (fs : node) (p : Path) : option (list Path) :=
  List.filter (fun d => Fs.is_dir fs d && negb (hidden d)) <$> Fs.iterdir fs p.

(** [project_like_count >= len(subdirs) * 0.5] compares an integer with
    half an integer, exactly: it is [len(subdirs) <= 2 * project_like_count]. *)
Definition _is_collection_folder (fs : node) (project_path : Path) : bool :=
  match visible_subdirs fs project_path with
  | None => false
  | Some subdirs =>
      if (length subdirs <? 3)%nat then false
      else
        let project_like_count := length (List.filter (_has_project_indicators fs) subdirs) in
        (length subdirs <=? 2 * project_like_count)%nat
  end.

Definition quick_indicators : list string :=
  ["package.json"; "requirements.txt"; "Cargo.toml"; "go.mod"; "pom.xml";
   "composer.json"; "Gemfile"; "setup.py"; "README.md"].

Definition nonempty {A} (l : list A) : bool :=
  match l with [] => false | _ => true end.

Definition _is_likely_project_directory (fs : node) (project_path : Path) : bool :=
  if Fs.any_exists fs project_path quick_indicators then true
  else if Fs.any_exists fs project_path ["src"; "lib"; "app"] then true
  else if existsb (fun ext => nonempty (Fs.glob fs project_path (pat_suffix ext)))
                  [".py"; ".js"; ".ts"; ".java"; ".cpp"; ".c"] then true
  else if _is_collection_folder fs project_path then true
  else false.

Definition _quick_detect_project_type (fs : node) (project_path : Path)
  : string * string * string :=
  if Fs.exists_ fs (project_path // "package.json") then ("nodejs", "javascript", "node")
  else if Fs.exists_ fs (project_path // "requirements.txt")
          || Fs.exists_ fs (project_path // "setup.py") then ("python", "python", "flask")
  else if Fs.exists_ fs (project_path // "Cargo.toml") then ("rust", "rust", "cargo")
  else if Fs.exists_ fs (project_path // "go.mod") then ("go", "go", "go")
  else if Fs.exists_ fs (project_path // "pom.xml") then ("java", "java", "maven")
  else if Fs.exists_ fs (project_path // "composer.json") then ("php", "php", "composer")
  else if Fs.exists_ fs (project_path // "Gemfile") then ("ruby", "ruby", "bundler")
  else ("generic", "unknown", "unknown").

(** The [except] branch of the source, returning [None], is not reached in
    this model, where probing the filesystem does not raise. *)
Definition _quick_analyze_project (fs : node) (project_path : Path) : project_info :=
  let name := Fs.name project_path in
  let size := get_directory_size fs project_path in
  if _is_collection_folder fs project_path then
    let subdirs := default [] (visible_subdirs fs project_path) in
    let project_count := length (List.filter (_has_project_indicators fs) subdirs) in
    {| p_name := name;
       p_path := Fs.str project_path;
       p_type := "Collection (" +:+ pretty project_count +:+ " projects)";
       p_language := "multi-language";
       p_framework := "Collection";
       p_frameworks := None;
       p_status := "Collection";
       p_health := 75;
       p_size := pretty (length subdirs) +:+ " items";
       p_modified := ModUnknown;
       p_parent := None; p_depth := None; p_relative_path := None |}
  else
    let '(project_type, language, framework) := _quick_detect_project_type fs project_path in
    let health_score := 50 in
    {| p_name := name;
       p_path := Fs.str project_path;
       p_type := project_type;
       p_language := language;
       p_framework := framework;
       p_frameworks := None;
       p_status := "Unknown";
       p_health := health_score;
       p_size := size;
       p_modified := ModUnknown;
       p_parent := None; p_depth := None; p_relative_path := None |}.

(** The [while] loop of [_detect_parent_project].  [Path('/').parent] is
    [Path('/')], so the loop never leaves the root once it is there: with
    more fuel than [current_path] has components, running out of fuel
    means that the source does not terminate ([None]). *)
Fixpoint walk_up (fs : node) (fuel : nat) (current_path base_path : Path)
  : option (option string) :=
  match fuel with
  | O => None
  | S fuel' =>
      if negb (Fs.path_eqb current_path base_path)
         && negb (Fs.path_eqb current_path (Fs.parent base_path)) then
        if _is_likely_project_directory fs current_path then Some (Some (Fs.str current_path))
        else walk_up fs fuel' (Fs.parent current_path) base_path
      else Some None
  end.

Definition _detect_parent_project (fs : node) (project_path base_path : Path)
           (explicit_parent : option Path) : option (option string) :=
  match explicit_parent with
  | Some parent => Some (Some (Fs.str parent))
  | None =>
      let current_path := Fs.parent project_path in
      walk_up fs (S (S (length current_path))) current_path base_path
  end.

Definition subproject_indicators : list string :=
  ["packages"; "apps"; "libs"; "services"; "modules"; "components";
   "src"; "lib"; "app"; "client"; "server"; "frontend"; "backend"].

Definition workspace_files : list string :=
  ["package.json"; "lerna.json"; "nx.json"; "rush.json"].

Definition _might_contain_subprojects (fs : node) (project_path : Path) : bool :=
  if _is_collection_folder fs project_path then true
  else if existsb
            (fun indicator =>
               let subdir := project_path // indicator in
               Fs.exists_ fs subdir && Fs.is_dir fs subdir &&
               existsb (fun item => Fs.is_dir fs item && negb (hidden item)
                                    && _has_project_indicators fs item)
                       (default [] (Fs.iterdir fs subdir)))
            subproject_indicators then true
  else if Fs.any_exists fs project_path workspace_files then true
  else false.

(** *** Fingerprint cache *)

Definition key_files : list string :=
  ["package.json"; "requirements.txt"; "Cargo.toml"; "go.mod"; "pom.xml";
   "composer.json"; "Gemfile"; "setup.py"; "pyproject.toml"; "README.md"].

(** [max(a, b)] of Python returns [a] unless [b] is greater. *)
Definition py_max (a b : Z) : Z := if a <? b then b else a.

(** The loop over [key_files]. *)
Definition max_key_mtime (fs : node) (project_path : Path) : Z :=
  fold_left
    (fun max_mtime key_file =>
       match Fs.stat_mtime fs (project_path // key_file) with
       | Some t => py_max max_mtime t
       | None => max_mtime
       end)
    key_files 0.

(** [str(x)] of a float holding a whole number of seconds below [10^16]. *)
Definition float_str (x : Z) : string := pretty x +:+ ".0".

(** [max_mtime] after [if max_mtime == 0: max_mtime =
    project_path.stat().st_mtime]; [None] when [stat] raises. *)
Definition fingerprint_mtime (fs : node) (project_path : Path) : option Z :=
  let max_mtime := max_key_mtime fs project_path in
  if max_mtime =? 0 then Fs.stat_mtime fs project_path else Some max_mtime.

(** The string that is hashed. *)
Definition cache_string (fs : node) (project_path : Path) : option string :=
  (fun max_mtime => Fs.str project_path +:+ "_" +:+ float_str max_mtime)
    <$> fingerprint_mtime fs project_path.

Definition _get_cache_key (fs : node) (project_path : Path) : string :=
  match cache_string fs project_path with
  | Some s => MD5.hexdigest s
  | None => MD5.hexdigest (Fs.str project_path)
  end.

Definition _get_cached_project (fs : node) (project_path : Path)
           (cache : gmap string project_info) : option project_info :=
  let cache_key := _get_cache_key fs project_path in
  match cache !! cache_key with
  | Some cached_data =>
      if Fs.exists_ fs project_path then
        let current_key := _get_cache_key fs project_path in
        if String.eqb current_key cache_key then Some cached_data else None
      else None
  | None => None
  end.

Definition _cache_project (fs : node) (project_path : Path) (project_data : project_info)
           (cache : gmap string project_info) : gmap string project_info :=
  <[ _get_cache_key fs project_path := project_data ]> cache.

(** *** State of the application

    The attributes of [self] that the scanner and the background queue
    read and write, and the cache file on disk.  [calls] and [examined]
    are ghost fields: [calls] records every invocation of
    [_load_hierarchical_projects] with its [base_path] and [depth], and
    [examined] every directory for which the loop passed its limit test
    ([dirs_scanned += 1]), with the depth of the call. *)
Record state : Type := mk_state {
  projects : list project_info;
  hierarchical_projects : gmap string (list project_info);
  background_queue : list Path;
  processing_in_background : bool;
  background_processing_var : option bool;
  projects_dir : Path;
  cache_file : option (gmap string project_info);
  calls : list (Path * nat);
  examined : list (Path * nat)
}.

Definition set_projects (l : list project_info) (st : state) : state :=
  {| projects := l;
     hierarchical_projects := hierarchical_projects st;
     background_queue := background_queue st;
     processing_in_background := processing_in_background st;
     background_processing_var := background_processing_var st;
     projects_dir := projects_dir st;
     cache_file := cache_file st;
     calls := calls st; examined := examined st |}.

Definition set_hierarchical (h : gmap string (list project_info)) (st : state) : state :=
  {| projects := projects st;
     hierarchical_projects := h;
     background_queue := background_queue st;
     processing_in_background := processing_in_background st;
     background_processing_var := background_processing_var st;
     projects_dir := projects_dir st;
     cache_file := cache_file st;
     calls := calls st; examined := examined st |}.

Definition set_queue (q : list Path) (st : state) : state :=
  {| projects := projects st;
     hierarchical_projects := hierarchical_projects st;
     background_queue := q;
     processing_in_background := processing_in_background st;
     background_processing_var := background_processing_var st;
     projects_dir := projects_dir st;
     cache_file := cache_file st;
     calls := calls st; examined := examined st |}.

Definition set_processing (b : bool) (st : state) : state :=
  {| projects := projects st;
     hierarchical_projects := hierarchical_projects st;
     background_queue := background_queue st;
     processing_in_background := b;
     background_processing_var := background_processing_var st;
     projects_dir := projects_dir st;
     cache_file := cache_file st;
     calls := calls st; examined := examined st |}.

Definition set_cache_file (c : option (gmap string project_info)) (st : state) : state :=
  {| projects := projects st;
     hierarchical_projects := hierarchical_projects st;
     background_queue := background_queue st;
     processing_in_background := processing_in_background st;
     background_processing_var := background_processing_var st;
     projects_dir := projects_dir st;
     cache_file := c;
     calls := calls st; examined := examined st |}.

Definition note_call (base_path : Path) (depth : nat) (st : state) : state :=
  {| projects := projects st;
     hierarchical_projects := hierarchical_projects st;
     background_queue := background_queue st;
     processing_in_background := processing_in_background st;
     background_processing_var := background_processing_var st;
     projects_dir := projects_dir st;
     cache_file := cache_file st;
     calls := calls st ++ [(base_path, depth)]; examined := examined st |}.

Definition note_examined (project_path : Path) (depth : nat) (st : state) : state :=
  {| projects := projects st;
     hierarchical_projects := hierarchical_projects st;
     background_queue := background_queue st;
     processing_in_background := processing_in_background st;
     background_processing_var := background_processing_var st;
     projects_dir := projects_dir st;
     cache_file := cache_file st;
     calls := calls st; examined := examined st ++ [(project_path, depth)] |}.

(** *** Scanner *)

(** [dirs.sort(key=lambda x: x.name.lower())]: a stable sort; an element
    is placed before the first later element whose key is greater or
    equal, so equal keys keep the order of the input. *)
Definition sort_key (p : Path) : string := Str.lower (Fs.name p).

Fixpoint insert_sorted (x : Path) (l : list Path) : list Path :=
  match l with
  | [] => [x]
  | y :: l' =>
      if String.ltb (sort_key y) (sort_key x) then y :: insert_sorted x l'
      else x :: l
  end.

Definition sort_dirs (l : list Path) : list Path := foldr insert_sorted [] l.

Definition max_dirs_per_level (depth : nat) : nat :=
  if (depth =? 0)%nat then 15%nat else if (depth =? 1)%nat then 8%nat else 5%nat.

(** The scan threads the application state and the [cache] dictionary,
    which the caller passes by reference ([None] for the default
    argument). *)
Definition scan_state : Type := state * option (gmap string project_info).

(** [for project_path in dirs: ...] with the limit test and [break]. *)
Fixpoint for_dirs (body : Path -> scan_state -> option scan_state)
         (limit depth : nat) (dirs : list Path) (dirs_scanned : nat) (s : scan_state)
  : option scan_state :=
  match dirs with
  | [] => Some s
  | project_path :: rest =>
      if (limit <=? dirs_scanned)%nat then Some s
      else
        let dirs_scanned := S dirs_scanned in
        let s := (note_examined project_path depth (fst s), snd s) in
        s' ← body project_path s;
        for_dirs body limit depth rest dirs_scanned s'
  end.

Definition enabled (v : option bool) : bool :=
  match v with Some b => b | None => false end.

(** The body of the loop for one directory, after the limit test.
    [recurse] is the recursive call.  The result is [None] when the source
    does not terminate.  The record is a shared dictionary: the entry of
    the cache is the object that receives [parent], [depth], [path] and
    [relative_path] afterwards, so the entry is written again after each
    group of assignments.  [relative_to] raises [ValueError] when
    [project_path] is not below [projects_dir]; the [except] clause of the
    loop then goes on with the next directory.  The calls of [print] and of
    [self.root.update_idletasks] have no effect on the state and are left
    out. *)
Definition visit (fs : node)
           (recurse : Path -> option Path -> nat -> scan_state -> option scan_state)
           (base_path : Path) (parent_path : option Path) (depth : nat)
           (project_path : Path) (s : scan_state) : option scan_state :=
  let '(st, cache) := s in
  if _is_obvious_non_project project_path then Some s
  else if _is_likely_project_directory fs project_path then
    let cached :=
      match cache with
      | Some c => _get_cached_project fs project_path c
      | None => None
      end in
    let '(project_info, st, cache) :=
      match cached with
      | Some project_info => (project_info, st, cache)
      | None =>
          let project_info := _quick_analyze_project fs project_path in
          let st :=
            if enabled (background_processing_var st)
            then set_queue (background_queue st ++ [project_path]) st
            else st in
          (project_info, st, _cache_project fs project_path project_info <$> cache)
      end in
    detected_parent ← _detect_parent_project fs project_path base_path parent_path;
    let project_info :=
      {| p_name := p_name project_info;
         p_path := Fs.str project_path;
         p_type := p_type project_info;
         p_language := p_language project_info;
         p_framework := p_framework project_info;
         p_frameworks := p_frameworks project_info;
         p_status := p_status project_info;
         p_health := p_health project_info;
         p_size := p_size project_info;
         p_modified := p_modified project_info;
         p_parent := detected_parent;
         p_depth := Some depth;
         p_relative_path := p_relative_path project_info |} in
    match Fs.relative_to project_path (projects_dir st) with
    | None => Some (st, _cache_project fs project_path project_info <$> cache)
    | Some rel =>
        let project_info :=
          {| p_name := p_name project_info;
             p_path := p_path project_info;
             p_type := p_type project_info;
             p_language := p_language project_info;
             p_framework := p_framework project_info;
             p_frameworks := p_frameworks project_info;
             p_status := p_status project_info;
             p_health := p_health project_info;
             p_size := p_size project_info;
             p_modified := p_modified project_info;
             p_parent := p_parent project_info;
             p_depth := p_depth project_info;
             p_relative_path := Some (Fs.str_relative rel) |} in
        let cache := _cache_project fs project_path project_info <$> cache in
        let st := set_projects (projects st ++ [project_info]) st in
        let st :=
          match detected_parent with
          | Some parent_key =>
              set_hierarchical
                (<[ parent_key :=
                      default [] (hierarchical_projects st !! parent_key) ++ [project_info] ]>
                   (hierarchical_projects st)) st
          | None => st
          end in
        if _might_contain_subprojects fs project_path
        then recurse project_path (Some project_path) (S depth) (st, cache)
        else Some (st, cache)
    end
  else Some s.

(** [_load_hierarchical_projects].  The recursion of the source is on
    [depth], which grows by one with each call and stops above 2; here it
    is structural on [fuel], and running out of fuel is reported as
    [None].  [cache_hits] and [cache_misses] are integers passed by value
    that the function only increments; they are left out. *)
Fixpoint _load_hierarchical_projects (fs : node) (fuel : nat)
         (base_path : Path) (parent_path : option Path) (depth : nat)
         (s : scan_state) : option scan_state :=
  match fuel with
  | O => None
  | S fuel' =>
      let s := (note_call base_path depth (fst s), snd s) in
      if (2 <? depth)%nat then Some s
      else
        match visible_subdirs fs base_path with
        | None => Some s
        | Some dirs =>
            let dirs := sort_dirs dirs in
            for_dirs (visit fs (_load_hierarchical_projects fs fuel') base_path parent_path depth)
                     (max_dirs_per_level depth) depth dirs 0 s
        end
  end.

(** The call made by [load_projects]: four levels of calls are enough for
    the depths 0 to 3. *)
Definition scan (fs : node) (root : Path) (s : scan_state) : option scan_state :=
  _load_hierarchical_projects fs 4 root None 0 s.

End GUI.

(** ** Python dictionaries written as literals

    A later binding of a key replaces the value of the earlier one and
    keeps its position. *)
Fixpoint dict_set {V} (k : string) (v : V) (d : list (string * V)) : list (string * V) :=
  match d with
  | [] => [(k, v)]
  | (k', v') :: d' =>
      if String.eqb k' k then (k', v) :: d' else (k', v') :: dict_set k v d'
  end.

Definition py_dict {V} (items : list (string * V)) : list (string * V) :=
  fold_left (fun d kv => dict_set (fst kv) (snd kv) d) items [].

Fixpoint dict_get {V} (k : string) (d : list (string * V)) : option V :=
  match d with
  | [] => None
  | (k', v) :: d' => if String.eqb k' k then Some v else dict_get k d'
  end.

(** [if x not in l: l.append(x)] *)
Definition add_new (x : string) (l : list string) : list string :=
  if Str.mem x l then l else l ++ [x].

(** [sorted(l)] for strings. *)
Fixpoint insert_string (x : string) (l : list string) : list string :=
  match l with
  | [] => [x]
  | y :: l' => if String.ltb y x then y :: insert_string x l' else x :: l
  end.
Definition sorted (l : list string) : list string := foldr insert_string [] l.

(** ** [project_manager_gui.py]: full analysis and health score *)

Module Analysis.

Import GUI.

(** *** [_detect_languages] *)

Definition lang_extensions :=
  py_dict
    [(".py", "python"); (".pyi", "python"); (".pyc", "python"); (".pyo", "python");
     (".js", "javascript"); (".jsx", "javascript"); (".mjs", "javascript");
     (".ts", "typescript"); (".tsx", "typescript"); (".d.ts", "typescript");
     (".java", "java"); (".kt", "kotlin"); (".scala", "scala"); (".groovy", "groovy");
     (".jsp", "jsp"); (".jspx", "jsp"); (".c", "c"); (".h", "c"); (".cpp", "cpp");
     (".cxx", "cpp"); (".cc", "cpp"); (".hpp", "cpp"); (".hxx", "cpp"); (".h++", "cpp");
     (".c++", "cpp"); (".cs", "csharp"); (".csx", "csharp"); (".go", "go");
     (".rs", "rust"); (".php", "php"); (".phtml", "php"); (".php3", "php");
     (".php4", "php"); (".php5", "php"); (".rb", "ruby"); (".rbw", "ruby");
     (".rake", "ruby"); (".sh", "bash"); (".bash", "bash"); (".zsh", "zsh");
     (".fish", "fish"); (".ps1", "powershell"); (".psm1", "powershell");
     (".psd1", "powershell"); (".bat", "batch"); (".cmd", "batch"); (".html", "html");
     (".htm", "html"); (".xhtml", "html"); (".css", "css"); (".scss", "scss");
     (".sass", "sass"); (".less", "less"); (".xml", "xml"); (".svg", "svg");
     (".json", "json"); (".yaml", "yaml"); (".yml", "yaml"); (".toml", "toml");
     (".ini", "ini"); (".cfg", "config"); (".conf", "config"); (".sql", "sql");
     (".sqlite", "sqlite"); (".db", "database"); (".md", "markdown");
     (".rst", "restructuredtext"); (".tex", "latex"); (".txt", "text"); (".log", "log");
     (".swift", "swift"); (".m", "objective-c"); (".mm", "objective-c++");
     (".dart", "dart"); (".java", "java"); (".hs", "haskell"); (".elm", "elm");
     (".fs", "fsharp"); (".fsx", "fsharp"); (".clj", "clojure");
     (".cljs", "clojurescript"); (".lua", "lua"); (".pl", "perl"); (".pm", "perl");
     (".r", "r"); (".R", "r"); (".jl", "julia"); (".asm", "assembly"); (".s", "assembly");
     (".nim", "nim"); (".zig", "zig"); (".v", "v"); (".vue", "vue"); (".svelte", "svelte");
     (".jsx", "react"); (".tsx", "react"); (".angular", "angular");
     (".dockerfile", "dockerfile"); (".makefile", "makefile"); (".cmake", "cmake");
     (".gradle", "gradle"); (".maven", "maven"); (".ant", "ant"); (".shader", "shader");
     (".glsl", "glsl"); (".hlsl", "hlsl"); (".proto", "protobuf"); (".thrift", "thrift");
     (".graphql", "graphql"); (".gql", "graphql")].

Definition config_files :=
  py_dict
    [("package.json", "javascript"); ("yarn.lock", "javascript");
     ("package-lock.json", "javascript"); ("webpack.config.js", "javascript");
     ("rollup.config.js", "javascript"); ("vite.config.js", "javascript");
     ("next.config.js", "nextjs"); ("nuxt.config.js", "nuxt"); ("nuxt.config.ts", "nuxt");
     ("vue.config.js", "vue"); ("vue.config.ts", "vue"); ("angular.json", "angular");
     ("angular-cli.json", "angular"); ("svelte.config.js", "svelte");
     ("svelte.config.cjs", "svelte"); ("svelte.config.ts", "svelte");
     ("remix.config.js", "remix"); ("remix.config.ts", "remix");
     ("astro.config.js", "astro"); ("astro.config.mjs", "astro");
     ("astro.config.ts", "astro"); ("gatsby-config.js", "gatsby");
     ("gatsby-config.ts", "gatsby"); ("sanity.config.js", "sanity");
     ("sanity.config.ts", "sanity"); ("tailwind.config.js", "tailwind");
     ("tailwind.config.ts", "tailwind"); ("postcss.config.js", "postcss");
     ("postcss.config.ts", "postcss"); ("babel.config.js", "babel");
     ("babel.config.json", "babel"); ("jest.config.js", "jest");
     ("jest.config.ts", "jest"); ("cypress.config.js", "cypress");
     ("cypress.config.ts", "cypress"); ("playwright.config.js", "playwright");
     ("playwright.config.ts", "playwright"); ("vitest.config.js", "vitest");
     ("vitest.config.ts", "vitest"); ("eslint.config.js", "eslint");
     ("eslint.config.mjs", "eslint"); ("prettier.config.js", "prettier");
     ("prettier.config.json", "prettier"); ("tsconfig.json", "typescript");
     ("jsconfig.json", "javascript"); ("turborepo.json", "turborepo"); ("nx.json", "nx");
     ("lerna.json", "lerna"); ("rush.json", "rush"); ("requirements.txt", "python");
     ("pyproject.toml", "python"); ("setup.py", "python"); ("Pipfile", "python");
     ("poetry.lock", "python"); ("conda.yml", "python"); ("Django", "django");
     ("Flask", "flask"); ("FastAPI", "fastapi"); ("pom.xml", "java");
     ("build.gradle", "java"); ("build.gradle.kts", "java"); ("gradle.properties", "java");
     ("settings.gradle", "java"); ("spring-boot", "spring"); ("maven", "maven");
     ("*.csproj", "csharp"); ("*.sln", "csharp"); ("*.vbproj", "vbnet");
     ("project.json", "csharp"); ("global.json", "csharp"); ("go.mod", "go");
     ("go.sum", "go"); ("Gopkg.toml", "go"); ("Cargo.toml", "rust");
     ("Cargo.lock", "rust"); ("composer.json", "php"); ("composer.lock", "php");
     ("laravel", "laravel"); ("symfony", "symfony"); ("Gemfile", "ruby");
     ("Gemfile.lock", "ruby"); ("Rakefile", "ruby"); ("rails", "rails");
     ("sinatra", "sinatra"); ("next.js", "nextjs"); ("nuxt.js", "nuxt");
     ("gatsby", "gatsby"); ("svelte", "svelte"); ("vue", "vue"); ("react", "react");
     ("angular", "angular"); ("ember", "ember"); ("react-native", "react-native");
     ("flutter", "flutter"); ("ionic", "ionic"); ("cordova", "cordova");
     ("Makefile", "make"); ("CMakeLists.txt", "cmake"); ("Dockerfile", "docker");
     ("docker-compose.yml", "docker"); ("Jenkinsfile", "jenkins");
     (".github/workflows", "github-actions"); ("webpack", "webpack"); ("babel", "babel");
     ("eslint", "eslint"); ("prettier", "prettier"); ("typescript", "typescript");
     ("tailwind", "tailwind"); ("bootstrap", "bootstrap"); ("prisma", "prisma");
     ("sequelize", "sequelize"); ("mongoose", "mongoose"); ("typeorm", "typeorm");
     ("sqlalchemy", "sqlalchemy"); ("jest", "jest"); ("mocha", "mocha");
     ("cypress", "cypress"); ("pytest", "pytest"); ("unittest", "unittest");
     ("docusaurus", "docusaurus"); ("gitbook", "gitbook"); ("mkdocs", "mkdocs");
     ("sphinx", "sphinx")].

Definition documentation_langs : list string :=
  ["markdown"; "text"; "log"; "json"; "yaml"; "xml"; "ini"; "config"; "sqlite"; "database"].

Definition detect_file (languages : list string) (file_path : Path) : list string :=
  let languages :=
    match dict_get (Str.lower (Fs.suffix file_path)) lang_extensions with
    | Some lang => add_new lang languages
    | None => languages
    end in
  fold_left
    (fun languages '(config_file, language) =>
       if String.eqb (Fs.name file_path) config_file
          || Str.contains config_file (Fs.name file_path)
       then add_new language languages else languages)
    config_files languages.

Definition _detect_languages (fs : node) (project_path : Path) : list string :=
  let languages :=
    fold_left (fun languages file_path =>
                 if Fs.is_file fs file_path then detect_file languages file_path
                 else languages)
              (Fs.rglob_all fs project_path) [] in
  let main_languages := List.filter (fun lang => negb (Str.mem lang documentation_langs)) languages in
  if nonempty main_languages then sorted main_languages else sorted languages.

(** *** [_detect_js_frameworks] *)

Definition framework_deps :=
  py_dict
    [("react", "react"); ("react-dom", "react"); ("next", "nextjs"); ("gatsby", "gatsby");
     ("remix", "remix"); ("vue", "vue"); ("nuxt", "nuxt"); ("vue-router", "vue");
     ("vuex", "vue"); ("pinia", "vue"); ("@angular/core", "angular");
     ("@angular/common", "angular"); ("@angular/platform-browser", "angular");
     ("svelte", "svelte"); ("sveltekit", "svelte"); ("astro", "astro"); ("vite", "vite");
     ("webpack", "webpack"); ("rollup", "rollup"); ("parcel", "parcel");
     ("esbuild", "esbuild"); ("tailwindcss", "tailwind"); ("bootstrap", "bootstrap");
     ("bulma", "bulma"); ("materialize-css", "materialize"); ("antd", "antd");
     ("chakra-ui", "chakra"); ("mantine", "mantine"); ("jest", "jest");
     ("vitest", "vitest"); ("cypress", "cypress"); ("playwright", "playwright");
     ("puppeteer", "puppeteer"); ("testing-library", "testing-library");
     ("redux", "redux"); ("mobx", "mobx"); ("zustand", "zustand"); ("jotai", "jotai");
     ("recoil", "recoil"); ("material-ui", "mui"); ("@mui/material", "mui");
     ("ant-design", "antd"); ("semantic-ui-react", "semantic");
     ("react-bootstrap", "react-bootstrap"); ("express", "express");
     ("fastify", "fastify"); ("koa", "koa"); ("nest", "nestjs"); ("adonisjs", "adonisjs");
     ("prisma", "prisma"); ("sequelize", "sequelize"); ("mongoose", "mongoose");
     ("typeorm", "typeorm"); ("drizzle", "drizzle"); ("t3", "t3"); ("blitz", "blitz");
     ("redwood", "redwood"); ("sails", "sails"); ("strapi", "strapi");
     ("keystone", "keystone")].

Definition framework_configs :=
  py_dict
    [("next.config.js", "nextjs"); ("next.config.ts", "nextjs");
     ("nuxt.config.js", "nuxt"); ("nuxt.config.ts", "nuxt"); ("vue.config.js", "vue");
     ("vue.config.ts", "vue"); ("angular.json", "angular");
     ("angular-cli.json", "angular"); ("svelte.config.js", "svelte");
     ("svelte.config.ts", "svelte"); ("remix.config.js", "remix");
     ("remix.config.ts", "remix"); ("astro.config.js", "astro");
     ("astro.config.ts", "astro"); ("gatsby-config.js", "gatsby");
     ("gatsby-config.ts", "gatsby"); ("tailwind.config.js", "tailwind");
     ("tailwind.config.ts", "tailwind"); ("vite.config.js", "vite");
     ("vite.config.ts", "vite"); ("webpack.config.js", "webpack");
     ("webpack.config.ts", "webpack"); ("rollup.config.js", "rollup");
     ("rollup.config.ts", "rollup"); ("jest.config.js", "jest");
     ("jest.config.ts", "jest"); ("cypress.config.js", "cypress");
     ("cypress.config.ts", "cypress"); ("playwright.config.js", "playwright");
     ("playwright.config.ts", "playwright"); ("vitest.config.js", "vitest");
     ("vitest.config.ts", "vitest")].

(** [d.get(key, {})] on the value read from [package.json]; [None] when
    the value is not a dictionary ([AttributeError]). *)
Definition json_get (key : string) (d : json) : option json :=
  match d with
  | JObj kvs => Some (default (JObj []) (dict_get key kvs))
  | _ => None
  end.

Definition hashable (k : json) : bool :=
  match k with JArr _ | JObj _ => false | _ => true end.

(** The key that one element of a sequence gives to [dict.update]: the
    element must itself have two elements.  Lengths of strings are counted
    in bytes. *)
Definition pair_key (e : json) : option json :=
  match e with
  | JArr [k; _] => if hashable k then Some k else None
  | JStr (String c (String _ EmptyString)) => Some (JStr (String c EmptyString))
  | JObj [(k, _); _] => Some (JStr k)
  | _ => None
  end.

(** The keys that [all_deps.update(x)] adds; [None] when it raises. *)
Definition update_keys (x : json) : option (list json) :=
  match x with
  | JObj kvs => Some (map (fun kv => JStr (fst kv)) kvs)
  | JArr xs => mapM pair_key xs
  | JStr EmptyString => Some []
  | _ => None
  end.

Definition is_key (dep : string) (k : json) : bool :=
  match k with JStr s => String.eqb s dep | _ => false end.

Definition framework_priority_scripts : list (string * string) :=
  [("next", "nextjs"); ("nuxt", "nuxt"); ("gatsby", "gatsby");
   ("remix", "remix"); ("astro", "astro"); ("svelte", "svelte")].

(** The [if]/[elif] chain on one script. *)
Definition script_framework (script_content : string) (frameworks : list string)
  : list string :=
  match find (fun '(word, framework) =>
                Str.contains word script_content && negb (Str.mem framework frameworks))
             framework_priority_scripts with
  | Some (_, framework) => frameworks ++ [framework]
  | None => frameworks
  end.

(** The [try] block on [package.json]: the frameworks found before an
    exception are kept. *)
Definition package_json_frameworks (package_data : json) : list string :=
  match
    deps ← json_get "dependencies" package_data;
    dev ← json_get "devDependencies" package_data;
    peer ← json_get "peerDependencies" package_data;
    k1 ← update_keys deps; k2 ← update_keys dev; k3 ← update_keys peer;
    Some (k1 ++ k2 ++ k3)
  with
  | None => []
  | Some all_deps =>
      let frameworks :=
        fold_left (fun frameworks '(dep, framework) =>
                     if existsb (is_key dep) all_deps then add_new framework frameworks
                     else frameworks)
                  framework_deps [] in
      match json_get "scripts" package_data with
      | Some (JObj scripts) =>
          fold_left (fun frameworks '(_, script_content) =>
                       match script_content with
                       | JStr content => script_framework content frameworks
                       | _ => frameworks
                       end)
                    scripts frameworks
      | _ => frameworks
      end
  end.

Definition _detect_js_frameworks (fs : node) (project_path : Path) : list string :=
  let package_json_path := project_path // "package.json" in
  let frameworks :=
    if Fs.exists_ fs package_json_path then
      match Fs.json_load fs package_json_path with
      | Some package_data => package_json_frameworks package_data
      | None => []
      end
    else [] in
  fold_left (fun frameworks '(config_file, framework) =>
               if Fs.exists_ fs (project_path // config_file)
               then add_new framework frameworks else frameworks)
            framework_configs frameworks.

(** *** [_determine_primary_language] and [detect_project_type] *)

Definition language_priority :=
  py_dict
    [("javascript", 10); ("typescript", 10); ("html", 8); ("css", 7); ("vue", 9);
     ("react", 9); ("angular", 9); ("svelte", 9); ("nextjs", 9); ("nuxt", 9);
     ("gatsby", 9); ("python", 8); ("java", 8); ("csharp", 8); ("go", 8); ("rust", 8);
     ("php", 7); ("ruby", 7); ("nodejs", 7); ("swift", 8); ("dart", 8); ("kotlin", 8);
     ("react-native", 8); ("c", 6); ("cpp", 6); ("assembly", 5); ("bash", 5);
     ("powershell", 5); ("lua", 4); ("perl", 4); ("sql", 4); ("markdown", 3); ("json", 3);
     ("yaml", 3)].

Definition framework_indicators :=
  py_dict
    [("package.json", "javascript"); ("requirements.txt", "python");
     ("Cargo.toml", "rust"); ("go.mod", "go"); ("pom.xml", "java");
     ("composer.json", "php"); ("Gemfile", "ruby")].

Definition files_to_check :=
  py_dict
    [("package.json", ("nodejs", "javascript", "node"));
     ("requirements.txt", ("python", "python", "flask"));
     ("Cargo.toml", ("rust", "rust", "cargo")); ("go.mod", ("go", "go", "go"));
     ("pom.xml", ("java", "java", "maven")); ("composer.json", ("php", "php", "composer"));
     ("Gemfile", ("ruby", "ruby", "bundler"));
     ("Dockerfile", ("docker", "docker", "docker"));
     ("docker-compose.yml", ("docker", "docker", "docker-compose"));
     ("Makefile", ("c", "c", "make")); ("CMakeLists.txt", ("cpp", "cpp", "cmake"))].

(** Tuples [(score, lang)] in the order of Python. *)
Definition tuple_ltb (a b : Z * string) : bool :=
  (fst a <? fst b) || ((fst a =? fst b) && String.ltb (snd a) (snd b)).

(** The first element of [scored_languages] sorted in reverse: its
    greatest element. *)
Definition greatest (l : list (Z * string)) : option (Z * string) :=
  fold_left (fun best x =>
               match best with
               | Some b => if tuple_ltb b x then Some x else Some b
               | None => Some x
               end) l None.

Definition _determine_primary_language (fs : node) (languages : list string)
           (project_path : Path) : string :=
  match find (fun '(file_name, lang) =>
                Fs.exists_ fs (project_path // file_name) && Str.mem lang languages)
             framework_indicators with
  | Some (_, lang) => lang
  | None =>
      let scored_languages :=
        map (fun lang => (default 1 (dict_get lang language_priority), lang)) languages in
      match greatest scored_languages with
      | Some (_, lang) => lang
      | None => List.hd "" languages
      end
  end.

Definition pat_sh : string -> bool := pat_suffix ".sh".

Definition detect_project_type (fs : node) (project_path : Path)
  : string * string * string :=
  let languages := _detect_languages fs project_path in
  if (1 <? length languages)%nat then
    let primary_lang := _determine_primary_language fs languages project_path in
    ("multi-language", Str.join ", " languages, "mixed (" +:+ primary_lang +:+ ")")
  else
    let bash_files := Fs.glob fs project_path pat_sh in
    if nonempty bash_files then
      if (1 <? length bash_files)%nat
         || existsb (fun f => let n := Str.lower (Fs.name f) in
                              Str.contains "install" n || Str.contains "setup" n
                              || Str.contains "deploy" n) bash_files
      then ("bash-automation", "bash", "shell")
      else ("bash-script", "bash", "shell")
    else if existsb (fun shell_dir =>
                       Fs.exists_ fs (project_path // shell_dir)
                       && nonempty (Fs.glob fs (project_path // shell_dir) pat_sh))
                    ["scripts"; "bin"; "tools"; "automation"]
    then ("bash-automation", "bash", "shell")
    else
      match find (fun '(file_name, _) => Fs.exists_ fs (project_path // file_name))
                 files_to_check with
      | Some (_, result) => result
      | None =>
          if Fs.exists_ fs (project_path // "src") then ("generic", "unknown", "unknown")
          else ("unknown", "unknown", "unknown")
      end.

End Analysis.

(** ** [project_manager_gui.py]: health score, status and full analysis *)

Module Health.

Import GUI Analysis.

(** [timedelta.days] of [now - mtime]: the floor of the quotient. *)
Definition days_between (now mtime : Z) : Z := (now - mtime) / 86400.

(** The loop that counts the files modified in the last 30 days.  An
    exception of [stat] or [fromtimestamp] ends it, and the [except] clause
    passes with the files counted so far.  The [break] at the third file is
    left out: it does not change the test [recent_files >= 3] that the
    bonus stands for. *)
Fixpoint count_recent (fs : node) (now : Z) (files : list Path) (recent_files : nat) : nat :=
  match files with
  | [] => recent_files
  | file_path :: files' =>
      if Fs.is_file fs file_path && negb (Str.startswith "." (Fs.name file_path)) then
        match Fs.stat_mtime fs file_path ≫= fromtimestamp with
        | Some last_modified =>
            count_recent fs now files'
              (if days_between now last_modified <? 30 then S recent_files else recent_files)
        | None => recent_files
        end
      else count_recent fs now files' recent_files
  end.

(** A generator object is true whatever it yields: [any(g for ...)] over
    generators is true as soon as there is one generator. *)
Definition generator_truth {A} (g : list A) : bool := true.

(** [fnmatch] with one star between a prefix and a suffix. *)
Definition pat_affix (pre suf : string) (name : string) : bool :=
  Str.startswith pre name && Str.endswith suf name
  && (String.length pre + String.length suf <=? String.length name)%nat.

Definition contains_any (words : list string) (content : string) : bool :=
  existsb (fun w => Str.contains w content) words.

Definition _check_python_health (fs : node) (project_path : Path) : Z :=
  let score := 0 in
  let score :=
    if Fs.any_exists fs project_path ["venv"; "env"; ".venv"; ".env"] then score + 2 else score in
  let req_file := project_path // "requirements.txt" in
  let score :=
    if Fs.exists_ fs req_file then
      match Fs.read fs req_file false with
      | Some content =>
          if Str.contains "==" content || Str.contains ">=" content then score + 2 else score
      | None => score
      end
    else score in
  let init_files := Fs.rglob fs project_path (pat_exact "__init__.py") in
  if (0 <? length init_files)%nat then score + 1 else score.

(** [x in pkg_data] and [len(x)] raise [TypeError] on values that are not
    containers ([None]). *)
Definition json_in (key : string) (v : json) : option bool :=
  match v with
  | JObj kvs => Some (existsb (fun kv => String.eqb (fst kv) key) kvs)
  | JArr xs => Some (existsb (fun x => match x with JStr s => String.eqb s key | _ => false end) xs)
  | JStr s => Some (Str.contains key s)
  | _ => None
  end.

Definition json_len (v : json) : option nat :=
  match v with
  | JObj kvs => Some (length kvs)
  | JArr xs => Some (length xs)
  | JStr s => Some (String.length s)
  | _ => None
  end.

(** [pkg_data['scripts']] raises on a list or a string. *)
Definition json_item (key : string) (v : json) : option json :=
  match v with
  | JObj kvs => dict_get key kvs
  | _ => None
  end.

(** The [try] block of [_check_javascript_health]: the points it adds.
    An exception ([TypeError] of [in], of the subscript or of [len]) can
    only leave the block before the first addition, and then nothing is
    added. *)
Definition package_json_points (pkg_data : json) : Z :=
  match json_in "scripts" pkg_data with
  | None => 0
  | Some has_scripts =>
      let first :=
        if has_scripts then
          scripts ← json_item "scripts" pkg_data;
          n ← json_len scripts;
          Some (if (0 <? n)%nat then 2 else 0)
        else Some 0 in
      match first with
      | None => 0
      | Some score =>
          match json_in "devDependencies" pkg_data with
          | Some true => score + 1
          | _ => score
          end
      end
  end.

Definition _check_javascript_health (fs : node) (project_path : Path) : Z :=
  let score := 0 in
  let pkg_file := project_path // "package.json" in
  let score :=
    if Fs.exists_ fs pkg_file then
      match Fs.json_load fs pkg_file with
      | Some pkg_data => score + package_json_points pkg_data
      | None => score
      end
    else score in
  if Fs.exists_ fs (project_path // "node_modules") then score + 1 else score.

Definition _check_rust_health (fs : node) (project_path : Path) : Z :=
  let score := 0 in
  let cargo_file := project_path // "Cargo.toml" in
  let score :=
    if Fs.exists_ fs cargo_file then
      match Fs.read fs cargo_file false with
      | Some content =>
          let score :=
            if Str.contains "version" content && Str.contains "authors" content
            then score + 2 else score in
          if Str.contains "dependencies" content then score + 1 else score
      | None => score
      end
    else score in
  if Fs.exists_ fs (project_path // "Cargo.lock") then score + 1 else score.

Definition _check_go_health (fs : node) (project_path : Path) : Z :=
  let score := 0 in
  let go_mod := project_path // "go.mod" in
  let score :=
    if Fs.exists_ fs go_mod then
      match Fs.read fs go_mod false with
      | Some content => if Str.contains "module" content then score + 2 else score
      | None => score
      end
    else score in
  if Fs.exists_ fs (project_path // "go.sum") then score + 1 else score.

Definition _check_java_health (fs : node) (project_path : Path) : Z :=
  let score := 0 in
  let score :=
    if Fs.exists_ fs (project_path // "pom.xml") || Fs.exists_ fs (project_path // "build.gradle")
    then score + 2 else score in
  let java_files := Fs.rglob fs project_path (pat_suffix ".java") in
  if (0 <? length java_files)%nat then score + 1 else score.

(** [f.readline()]: the text up to the first newline. *)
Definition first_line (content : string) : string := List.hd "" (Str.split_lines content).

(** Whether some script, among those that can be read, passes [test]. *)
Definition some_script (fs : node) (bash_files : list Path) (test : string -> bool) : bool :=
  existsb (fun bash_file =>
             match Fs.read fs bash_file true with
             | Some content => test content
             | None => false
             end) bash_files.

(** [comment_lines / total_lines > 0.1] is decided as
    [total_lines < 10 * comment_lines]; the quotient is a float in the
    source. *)
Definition well_documented (content : string) : bool :=
  let lines := Str.split_lines content in
  let comment_lines := length (List.filter (fun line => Str.startswith "#" (Str.lstrip line)) lines) in
  let total_lines :=
    length (List.filter (fun line => negb (String.eqb (Str.lstrip line) "")) lines) in
  ((0 <? total_lines) && (total_lines <? 10 * comment_lines))%nat.

Definition _check_bash_health (fs : node) (project_path : Path) : Z :=
  let score := 0 in
  let bash_files := Fs.glob fs project_path pat_sh in
  let score := if nonempty bash_files then score + 2 else score in
  let proper_shebang :=
    some_script fs bash_files
      (fun content =>
         let line := Str.lstrip (first_line content) in
         Str.startswith "#!/bin/bash" line || Str.startswith "#!/usr/bin/env bash" line) in
  let score := if proper_shebang then score + 2 else score in
  let error_handling :=
    some_script fs bash_files
      (fun content => Str.contains "set -e" content || Str.contains "set -o errexit" content
                      || Str.contains "trap" content) in
  let score := if error_handling then score + 2 else score in
  let logging :=
    some_script fs bash_files
      (fun content => Str.contains "echo" content
                      && (Str.contains "log" content || Str.contains "Log" content)) in
  let score := if logging then score + 1 else score in
  let has_config :=
    Fs.any_exists fs project_path ["config.sh"; "settings.sh"; ".env"; "config.json"] in
  let score := if has_config then score + 1 else score in
  let documented_scripts :=
    length (List.filter (fun bash_file =>
                      match Fs.read fs bash_file true with
                      | Some content => well_documented content
                      | None => false
                      end) bash_files) in
  let score := if (0 <? documented_scripts)%nat then score + 1 else score in
  let has_automation :=
    Fs.any_exists fs project_path
      ["install.sh"; "setup.sh"; "deploy.sh"; "build.sh"; "test.sh"] in
  if has_automation then score + 2 else score.

Definition b2z (b : bool) : Z := if b then 1 else 0.

Definition _check_cross_language_integration (fs : node) (project_path : Path)
           (languages : list string) : bool :=
  let has_build_script :=
    Fs.any_exists fs project_path
      ["Makefile"; "build.sh"; "build.py"; "build.js"; "build.ps1"] in
  let has_docker :=
    Fs.any_exists fs project_path ["Dockerfile"; "docker-compose.yml"; ".dockerignore"] in
  let has_ci :=
    Fs.exists_ fs (project_path // ".github" // "workflows")
    || Fs.any_exists fs project_path [".gitlab-ci.yml"; "azure-pipelines.yml"; "Jenkinsfile"] in
  let readme_content :=
    if Fs.exists_ fs (project_path // "README.md") then
      match Fs.read fs (project_path // "README.md") true with
      | Some content => Str.lower content
      | None => ""
      end
    else "" in
  let has_multi_lang_docs :=
    contains_any ["multi-language"; "polyglot"; "mixed"; "integration"; "cross-language"]
                 readme_content in
  let has_organized_dirs :=
    Fs.any_exists fs project_path
      ["src"; "lib"; "app"; "frontend"; "backend"; "api"; "scripts"] in
  let has_config :=
    Fs.any_exists fs project_path
      ["config.json"; "config.yaml"; "config.yml"; "settings.json"] in
  let integration_score :=
    b2z has_build_script + b2z has_docker + b2z has_ci + b2z has_multi_lang_docs
    + b2z has_organized_dirs + b2z has_config in
  3 <=? integration_score.

(** [//] of Python on integers: the floor. *)
Definition language_health (fs : node) (project_path : Path) (lang : string) : Z :=
  if String.eqb lang "python" then _check_python_health fs project_path
  else if String.eqb lang "javascript" then _check_javascript_health fs project_path
  else if String.eqb lang "rust" then _check_rust_health fs project_path
  else if String.eqb lang "go" then _check_go_health fs project_path
  else if String.eqb lang "java" then _check_java_health fs project_path
  else if String.eqb lang "bash" then _check_bash_health fs project_path
  else 0.

Definition dep_files :=
  py_dict
    [("python", ["requirements.txt"; "pyproject.toml"; "setup.py"; "Pipfile"]);
     ("javascript", ["package.json"; "yarn.lock"; "package-lock.json"]);
     ("rust", ["Cargo.toml"]); ("go", ["go.mod"; "go.sum"]);
     ("java", ["pom.xml"; "build.gradle"; "gradle.properties"]);
     ("bash", ["requirements.txt"; "dependencies.txt"; "packages.txt"; "install.sh"])].

Definition has_dep_file (fs : node) (project_path : Path) (lang : string) : option bool :=
  Fs.any_exists fs project_path <$> dict_get lang dep_files.

(** The score before it is clamped. *)
Definition raw_health_score (fs : node) (now : Z) (project_path : Path) (language : string) : Z :=
  let score := 100 in
  let languages := _detect_languages fs project_path in
  let is_multi_language := (1 <? length languages)%nat in
  let score := if negb (Fs.exists_ fs (project_path // "README.md")) then score - 10 else score in
  let score := if negb (Fs.exists_ fs (project_path // ".gitignore")) then score - 5 else score in
  let has_tests :=
    Fs.any_exists fs project_path ["tests"; "test"; "__tests__"; "spec"; "test_"; "tests_"] in
  let has_test_files :=
    existsb (fun pattern => generator_truth (Fs.glob fs project_path pattern))
            [pat_affix "test_" ".py"; pat_suffix "_test.py"; pat_suffix ".test.js";
             pat_suffix ".spec.js"; pat_suffix ".test.ts"] in
  let score := if negb has_tests && negb has_test_files then score - 15 else score in
  let has_docs := Fs.any_exists fs project_path ["docs"; "documentation"; "doc"; "wiki"] in
  let has_doc_files :=
    Fs.any_exists fs project_path
      ["CHANGELOG.md"; "CONTRIBUTING.md"; "LICENSE"; "LICENSE.txt"; "LICENSE.md"] in
  let score := if negb has_docs && negb has_doc_files then score - 5 else score in
  let score :=
    if negb (Fs.exists_ fs (project_path // ".git")) then score - 10
    else
      let git_hooks := project_path // ".git" // "hooks" in
      if Fs.exists_ fs git_hooks && nonempty (Fs.glob fs git_hooks pat_any)
      then score + 2 else score in
  let has_security :=
    Fs.any_exists fs project_path [".env.example"; "security.md"; "SECURITY.md"] in
  let score := if negb has_security then score - 3 else score in
  let has_secrets :=
    existsb (fun file_path =>
               Fs.is_file fs file_path &&
               match Fs.read fs file_path true with
               | Some content =>
                   contains_any ["password"; "secret"; "key"; "token"; "api_key"]
                                (Str.lower content)
               | None => false
               end)
            (Fs.rglob fs project_path (pat_suffix ".py")) in
  let score := if has_secrets then score - 5 else score in
  let score :=
    if is_multi_language then
      let score := score + 5 in
      if _check_cross_language_integration fs project_path languages then score + 3 else score
    else score in
  let score :=
    if is_multi_language then
      fold_left (fun score lang => score + language_health fs project_path lang / 2)
                languages score
    else score + language_health fs project_path language in
  let score :=
    if is_multi_language then
      let missing_deps :=
        length (List.filter (fun lang =>
                          match has_dep_file fs project_path lang with
                          | Some false => true
                          | _ => false
                          end) languages) in
      if (0 <? missing_deps)%nat then score - Z.of_nat missing_deps * 4 else score
    else
      match has_dep_file fs project_path language with
      | Some false => score - 8
      | _ => score
      end in
  let has_config :=
    Fs.any_exists fs project_path
      [".editorconfig"; ".gitattributes"; "docker-compose.yml"; "Dockerfile"] in
  let score := if has_config then score + 3 else score in
  let has_linting :=
    Fs.any_exists fs project_path
      [".eslintrc"; ".eslintrc.js"; ".eslintrc.json"; ".pylintrc"; "pyproject.toml"] in
  let score := if has_linting then score + 2 else score in
  let has_ci :=
    Fs.any_exists fs project_path
      [".github"; ".gitlab-ci"; ".circleci"; ".travis"; ".jenkins"] in
  let score := if has_ci then score + 5 else score in
  let has_src := Fs.any_exists fs project_path ["src"; "lib"; "app"; "source"] in
  let score := if has_src then score + 2 else score in
  let has_build :=
    Fs.any_exists fs project_path ["Makefile"; "CMakeLists.txt"; "build.sh"; "compile.sh"] in
  let score := if has_build then score + 2 else score in
  let recent_files := count_recent fs now (Fs.rglob_all fs project_path) 0 in
  let score := if (3 <=? recent_files)%nat then score + 2 else score in
  let total_files := length (Fs.rglob_all fs project_path) in
  if (total_files <? 3)%nat then score - 5
  else if (1000 <? total_files)%nat then score - 2
  else score.

(** [return max(0, min(100, score))] *)
Definition calculate_health_score (fs : node) (now : Z) (project_path : Path)
           (language : string) : Z :=
  Z.max 0 (Z.min 100 (raw_health_score fs now project_path language)).

Definition status_of_days (days_since_modified : Z) : string :=
  if days_since_modified <? 7 then "Active"
  else if days_since_modified <? 30 then "Recent"
  else if days_since_modified <? 90 then "Inactive"
  else "Stale".

(** [None] when [project_path.stat()] or [fromtimestamp] raises. *)
Definition get_project_status (fs : node) (now : Z) (project_path : Path) : option string :=
  last_modified ← Fs.stat_mtime fs project_path ≫= fromtimestamp;
  Some (status_of_days (days_between now last_modified)).

Definition framework_priority : list string :=
  ["nextjs"; "nuxt"; "gatsby"; "remix"; "astro"; "svelte"; "angular"; "react"; "vue"].

(** [analyze_project]: [None] when an exception is caught, which in this
    model is the failure of [project_path.stat()] or of [fromtimestamp]. *)
Definition analyze_project (fs : node) (now : Z) (project_path : Path) : option project_info :=
  let name := Fs.name project_path in
  let path := Fs.str project_path in
  let '(project_type, language, framework) := detect_project_type fs project_path in
  let js_frameworks := _detect_js_frameworks fs project_path in
  let '(project_type, framework) :=
    if nonempty js_frameworks && Str.mem language ["javascript"; "typescript"] then
      let framework :=
        default framework (find (fun f => Str.mem f js_frameworks) framework_priority) in
      let project_type :=
        if Str.mem framework ["nextjs"; "nuxt"; "gatsby"; "remix"; "astro"] then "fullstack"
        else if Str.mem framework ["react"; "vue"; "angular"; "svelte"] then "frontend"
        else if Str.mem framework ["express"; "nestjs"; "fastify"; "koa"] then "backend"
        else project_type in
      (project_type, framework)
    else (project_type, framework) in
  last_modified ← Fs.stat_mtime fs project_path ≫= fromtimestamp;
  let size := get_directory_size fs project_path in
  let health_score := calculate_health_score fs now project_path language in
  status ← get_project_status fs now project_path;
  Some {| p_name := name;
          p_path := path;
          p_type := project_type;
          p_language := language;
          p_framework := framework;
          p_frameworks := Some js_frameworks;
          p_status := status;
          p_health := health_score;
          p_size := size;
          p_modified := ModDate last_modified;
          p_parent := None; p_depth := None; p_relative_path := None |}.

End Health.

(** ** [project_manager.py]: the scoring functions of the command line tool *)

Module CLI.

Definition calculate_health_score (fs : node) (project_path : Path) (language : string) : Z :=
  let score := 100 in
  let score := if negb (Fs.exists_ fs (project_path // "README.md")) then score - 10 else score in
  let score := if negb (Fs.exists_ fs (project_path // ".gitignore")) then score - 5 else score in
  let has_tests := Fs.any_exists fs project_path ["tests"; "test"; "__tests__"; "spec"] in
  let score := if negb has_tests then score - 15 else score in
  let has_docs := Fs.any_exists fs project_path ["docs"; "documentation"; "doc"] in
  let score := if negb has_docs then score - 5 else score in
  let large_files :=
    List.filter (fun file_path =>
              Fs.is_file fs file_path && (10 * 1024 * 1024 <? Fs.stat_size fs file_path))
           (Fs.rglob_all fs project_path) in
  let score := if GUI.nonempty large_files then score - 10 else score in
  Z.max 0 score.

Definition get_project_status (fs : node) (now : Z) (project_path : Path) : option string :=
  last_modified ← Fs.stat_mtime fs project_path ≫= fromtimestamp;
  let days_since_modified := (now - last_modified) / 86400 in
  Some (if days_since_modified <? 7 then "Active"
        else if days_since_modified <? 30 then "Recent"
        else if days_since_modified <? 90 then "Inactive"
        else "Stale").

End CLI.

(** ** [project_manager_gui.py]: background queue and [load_projects] *)

Module Background.

Import GUI Health.

Definition batch_size : nat := 2.

(** [for i, project in enumerate(self.projects): if project.get('path') ==
    str(project_path): self.projects[i].update(project_info); break] *)
Fixpoint update_first (path : string) (new_info : project_info)
         (l : list project_info) : list project_info :=
  match l with
  | [] => []
  | project :: l' =>
      if String.eqb (p_path project) path then dict_update project new_info :: l'
      else project :: update_first path new_info l'
  end.

(** [_load_cache]: the empty dictionary when the file is missing or cannot
    be read. *)
Definition _load_cache (st : state) : gmap string project_info :=
  default ∅ (cache_file st).

(** The body of the loop over the batch.  When [analyze_project] returns
    [None], [update(None)] raises if a record of the path exists and the
    [except] clause skips the rest; otherwise [None] is stored in the
    cache, which every reader treats as a missing entry. *)
Definition process_one (fs : node) (now : Z) (st : state) (project_path : Path) : state :=
  match analyze_project fs now project_path with
  | Some project_info =>
      let st := set_projects (update_first (Fs.str project_path) project_info (projects st)) st in
      let cache := _load_cache st in
      set_cache_file (Some (_cache_project fs project_path project_info cache)) st
  | None =>
      if existsb (fun project => String.eqb (p_path project) (Fs.str project_path)) (projects st)
      then st
      else set_cache_file (Some (delete (_get_cache_key fs project_path) (_load_cache st))) st
  end.

(** [process_background_batch]; the boolean tells whether the next batch
    was scheduled with [self.root.after]. *)
Definition process_background_batch (fs : node) (now : Z) (st : state) : state * bool :=
  if negb (nonempty (background_queue st)) || negb (processing_in_background st) then
    (set_processing false st, false)
  else
    let batch := take batch_size (background_queue st) in
    let st := set_queue (drop batch_size (background_queue st)) st in
    let st := fold_left (process_one fs now) batch st in
    if nonempty (background_queue st) then (st, true)
    else (set_processing false st, false).

Definition start_background_processing (fs : node) (now : Z) (st : state) : state * bool :=
  if negb (processing_in_background st) && nonempty (background_queue st) then
    process_background_batch fs now (set_processing true st)
  else (st, false).

(** The event loop running the scheduled batches until none is left. *)
Fixpoint run_scheduled (fs : node) (now : Z) (fuel : nat) (r : state * bool) : state :=
  match fuel with
  | O => fst r
  | S fuel' =>
      if snd r then run_scheduled fs now fuel' (process_background_batch fs now (fst r))
      else fst r
  end.

(** [load_projects]; [None] when the scan does not terminate. *)
Definition load_projects (fs : node) (now : Z) (st : state) : option (state * bool) :=
  if negb (Fs.exists_ fs (projects_dir st)) then Some (set_projects [] st, false)
  else
    let cache := _load_cache st in
    let st := set_hierarchical ∅ (set_projects [] st) in
    '(st, cache) ← scan fs (projects_dir st) (st, Some cache);
    let st := set_cache_file cache st in
    if nonempty (background_queue st) then Some (start_background_processing fs now st)
    else Some (st, false).

(** The state of a fresh [ProjectManagerGUI] before [load_projects]. *)
Definition init (projects_dir : Path) (cache_file : option (gmap string project_info)) : state :=
  {| projects := [];
     hierarchical_projects := ∅;
     background_queue := [];
     processing_in_background := false;
     background_processing_var := Some true;
     projects_dir := projects_dir;
     cache_file := cache_file;
     calls := []; examined := [] |}.

End Background.

(** ** The specification's wording of the classifier rules

    Definitions that follow the sentences of the specification, to be
    compared with the functions of the code. *)

Module Spec.

Import GUI.

Definition manifests : list string :=
  ["package.json"; "requirements.txt"; "setup.py"; "Cargo.toml"; "go.mod"; "pom.xml";
   "composer.json"; "Gemfile"].

(** "containing a manifest/README/.git/src-dir" *)
Definition project_like (fs : node) (d : Path) : bool :=
  Fs.any_exists fs d manifests
  || Fs.exists_ fs (d // "README.md")
  || Fs.exists_ fs (d // ".git")
  || Fs.any_exists fs d ["src"; "lib"; "app"].

(** "no manifest, at least 3 subdirectories, and at least 50% of them
    containing a manifest/README/.git/src-dir" *)
Definition collection_rule (fs : node) (p : Path) : bool :=
  negb (Fs.any_exists fs p manifests)
  && match visible_subdirs fs p with
     | Some subdirs =>
         (3 <=? length subdirs)%nat
         && (length subdirs <=? 2 * length (List.filter (project_like fs) subdirs))%nat
     | None => false
     end.

(** "exactly one manifest and no multi-package indicators": no workspace
    file, no packages/apps/libs/services directory (nor any of the other
    directory names the code looks into) with project-like children, and
    not more than one manifest anywhere beneath it. *)
Definition count_manifests (fs : node) (l : list Path) : nat :=
  length (List.filter (fun q => Str.mem (Fs.name q) manifests) l).

Definition plain_single_manifest (fs : node) (p : Path) : bool :=
  (count_manifests fs (default [] (Fs.iterdir fs p)) =? 1)%nat
  && negb (Fs.any_exists fs p workspace_files)
  && negb (existsb
             (fun indicator =>
                existsb (fun item => Fs.is_dir fs item && project_like fs item)
                        (default [] (Fs.iterdir fs (p // indicator))))
             subproject_indicators)
  && (count_manifests fs (Fs.rglob_all fs p) <=? 1)%nat.

End Spec.

(** ** Sample trees *)

Module Sample.

Import GUI Background.

Definition file (name : string) (mtime : Z) : node :=
  File name mtime {| st_size := 0; text := ""; decodes := true; json_value := None |}.

(** [/home/projects] holding a plain project, a hidden directory and a
    folder of three projects. *)
Definition tree1 : node :=
  Dir "" 1000
    [Dir "home" 1000
       [Dir "projects" 2000
          [Dir "zeta" 3000 [file "requirements.txt" 3100; file "main.py" 3200];
           Dir ".hidden" 3000 [file "README.md" 3000];
           Dir "Alpha" 3000
             [Dir "one" 3000 [file "README.md" 3000];
              Dir "two" 3000 [file "package.json" 3000];
              Dir "three" 3000 [Dir "src" 3000 []]]]]].

Definition root1 : Path := ["home"; "projects"].

(** A folder of three bare git repositories. *)
Definition tree_git : node :=
  Dir "" 1000
    [Dir "box" 1000
       [Dir "a" 1000 [Dir ".git" 1000 []];
        Dir "b" 1000 [Dir ".git" 1000 []];
        Dir "c" 1000 [Dir ".git" 1000 []]]].

(** A Node.js project with three documented packages beside its manifest. *)
Definition tree_mono : node :=
  Dir "" 1000
    [Dir "mono" 1000
       [file "package.json" 1000;
        Dir "a" 1000 [file "README.md" 1000];
        Dir "b" 1000 [file "README.md" 1000];
        Dir "c" 1000 [file "README.md" 1000]]].

(** A Python project with one manifest and three documented folders. *)
Definition tree_py : node :=
  Dir "" 1000
    [Dir "work" 1000
       [Dir "proj" 1000
          [file "requirements.txt" 1000;
           Dir "a" 1000 [file "README.md" 1000];
           Dir "b" 1000 [file "README.md" 1000];
           Dir "c" 1000 [file "README.md" 1000]]]].

(** A plain Python project: one manifest and one source file. *)
Definition tree_plain : node :=
  Dir "" 1000
    [Dir "work" 1000
       [Dir "proj" 1000 [file "requirements.txt" 1000; file "main.py" 1000]]].

(** A project with two marker files, the manifest older than the README. *)
Definition tree_markers : node :=
  Dir "" 1000
    [Dir "app" 50 [file "package.json" 100; file "README.md" 200];
     Dir "lib" 60 [file "setup.py" 70]].

(** A workspace with one hidden and one visible project. *)
Definition tree_hidden : node :=
  Dir "" 1000
    [Dir "ws" 1000
       [Dir ".secret" 1000 [file "README.md" 1000];
        Dir "app" 1000 [file "README.md" 1000]]].

(** Two listings of one directory whose children [Foo] and [foo] differ
    only in case. *)
Definition tree_case (first second : string) : node :=
  Dir "" 1000
    [Dir "ws" 1000
       [Dir first 1000 [file "README.md" 1000];
        Dir second 1000 [file "README.md" 1000]]].

(** The cache that a first scan of [tree_plain] leaves behind. *)
Definition cache_after_first_scan : gmap string project_info :=
default ∅ (scan tree_plain ["work"] (init ["work"] None, Some ∅) ≫= snd).

End Sample.

(** Entries of the ghost trace recorded at one depth. *)
Definition direct (depth : nat) (l : list (Path * nat)) : list (Path * nat) :=
  List.filter (fun e => (snd e =? depth)%nat) l.

Definition paths_of (l : list project_info) : list string := map p_path l.

(** ** Predicates on the trace of a scan *)

Import GUI Analysis Health Background.

(** What the scanner knows of a directory it takes from a listing. *)
Definition listed (fs : node) (base p : Path) : Prop :=
  exists c, p = base // c /\ Fs.is_dir fs p = true /\ hidden p = false.

Definition cache_le (c c' : option (gmap string project_info)) : Prop :=
  match c, c' with
  | Some m, Some m' => forall k, is_Some (m !! k) -> is_Some (m' !! k)
  | None, None => True
  | _, _ => False
  end.

(** The lookup at the head of the loop body. *)
Definition cached (fs : node) (c : option (gmap string project_info)) (p : Path)
  : option project_info :=
  match c with
  | Some m => _get_cached_project fs p m
  | None => None
  end.

Definition ok_call (fs : node) (e : Path * nat) : Prop :=
  hidden (fst e) = false /\ Fs.is_dir fs (fst e) = true
  /\ _might_contain_subprojects fs (fst e) = true /\ (1 <= snd e <= 3)%nat.

Definition ok_exam (fs : node) (e : Path * nat) : Prop :=
  hidden (fst e) = false /\ Fs.is_dir fs (fst e) = true /\ (snd e <= 2)%nat.

Definition ok_record (fs : node) (r : project_info) : Prop :=
  exists p, p_path r = Fs.str p /\ hidden p = false /\ Fs.is_dir fs p = true
            /\ _is_likely_project_directory fs p = true
            /\ _is_obvious_non_project p = false.

Definition ok_queued (fs : node) (c : option (gmap string project_info)) (q : Path) : Prop :=
  hidden q = false /\ _is_likely_project_directory fs q = true /\ cached fs c q = None.

Record grows (fs : node) (s s' : scan_state) : Prop := mk_grows {
  g_calls : exists n, calls (fst s') = calls (fst s) ++ n /\ Forall (ok_call fs) n;
  g_exam : exists n, examined (fst s') = examined (fst s) ++ n /\ Forall (ok_exam fs) n;
  g_proj : exists n, projects (fst s') = projects (fst s) ++ n /\ Forall (ok_record fs) n;
  g_queue : exists n, background_queue (fst s') = background_queue (fst s) ++ n
                      /\ Forall (ok_queued fs (snd s)) n
                      /\ (enabled (background_processing_var (fst s)) = false -> n = []);
  g_cache : cache_le (snd s) (snd s');
  g_frame : processing_in_background (fst s') = processing_in_background (fst s)
            /\ background_processing_var (fst s') = background_processing_var (fst s)
            /\ projects_dir (fst s') = projects_dir (fst s)
            /\ cache_file (fst s') = cache_file (fst s)
}.

Definition bound (depth : nat) : nat :=
  match depth with
  | 0 => 735
  | 1 => 48
  | 2 => 5
  | _ => 0
  end%nat.

(** The directories a call examines itself are the first ones of the
    sorted listing, up to the limit of its depth. *)
Definition scanned (fs : node) (base : Path) (depth : nat) : list Path :=
  if (2 <? depth)%nat then []
  else take (max_dirs_per_level depth) (sort_dirs (default [] (visible_subdirs fs base))).

(** The order of the sort: the keys compared as Python compares strings,
    character by character. *)
Definition key_le (a b : Path) : Prop := String.le (sort_key a) (sort_key b).

(** The node at [q] after the entry at [p] was touched: the same node, touched
    at what remains of [p] below [q] when [q] is a prefix of [p]. *)
Definition touched_below (p q : Path) (t : Z) (n : node) : node :=
  match Fs.relative_to p q with
  | Some rest => Fs.set_mtime rest t n
  | None => n
  end.

(** ** Names in the path of a record

    The path of a record is a string.  The last component of the string is
    the name of the directory as soon as the name holds no slash, which is
    so for every name of a filesystem; the tree of the model can hold any
    string as a name, and [slash_free] says that it holds none with a
    slash. *)
Fixpoint has_slash (s : string) : bool :=
  match s with
  | EmptyString => false
  | String c s' => Ascii.eqb c "/" || has_slash s'
  end.

(** What follows the last slash of a string; the string itself when it has
    no slash. *)
Fixpoint basename (s : string) : string :=
  match s with
  | EmptyString => EmptyString
  | String c s' =>
      if has_slash s' then basename s'
      else if Ascii.eqb c "/" then s' else s
  end.

Fixpoint count_slash (s : string) : nat :=
  match s with
  | EmptyString => O
  | String c s' => if Ascii.eqb c "/" then S (count_slash s') else count_slash s'
  end.

Fixpoint slash_free (n : node) : bool :=
  match n with
  | File _ _ _ => true
  | Dir _ _ cs => forallb (fun c => negb (has_slash (node_name c)) && slash_free c) cs
  end.

(** * The rest of the code: definitions *)

(** ** Records of a scan *)

(** Whether a record has the parent key [k]. *)
Definition has_parent (k : string) (r : project_info) : bool :=
  match p_parent r with Some k' => String.eqb k' k | None => false end.

(** The hierarchy fields of a record appended by the call whose
    [base_path] is [root ++ brel] and whose [parent_path] is [top], or by a
    call nested in it: the record of the directory [c] inside
    [root ++ brel ++ tail].  The components are names of the tree: the path
    they make is a directory of [fs]. *)
Definition placed_from (fs : node) (root brel : Path) (top : option Path) (r : project_info)
  : Prop :=
  exists tail c,
    Fs.is_dir fs (root ++ brel ++ tail ++ [c]) = true
    /\ p_path r = Fs.str (root ++ brel ++ tail ++ [c])
    /\ p_depth r = Some (length brel + length tail)%nat
    /\ (length brel + length tail <= 2)%nat
    /\ p_relative_path r = Some (Str.join "/" (brel ++ tail ++ [c]))
    /\ p_parent r = match tail with
                    | [] => Fs.str <$> top
                    | _ => Some (Fs.str (root ++ brel ++ tail))
                    end.

(** The same for a scan from [root]: the record of the directory [c]
    inside [root ++ rel]. *)
Definition placed (fs : node) (root : Path) (r : project_info) : Prop :=
  exists rel c,
    Fs.is_dir fs (root ++ rel ++ [c]) = true
    /\ p_path r = Fs.str (root ++ rel ++ [c])
    /\ p_depth r = Some (length rel)
    /\ (length rel <= 2)%nat
    /\ p_relative_path r = Some (Str.join "/" (rel ++ [c]))
    /\ p_parent r = match rel with
                    | [] => None
                    | _ => Some (Fs.str (root ++ rel))
                    end.

(** The same place read off the strings of the record alone: the depth is
    the number of slashes of [relative_path], which ends with the last
    component of [path]; a record at depth 0 has no parent, and the parent
    of a deeper one is [path] without its last component. *)
Definition placed_by_its_strings (r : project_info) : Prop :=
  exists relative_path,
    p_relative_path r = Some relative_path
    /\ p_depth r = Some (count_slash relative_path)
    /\ basename relative_path = basename (p_path r)
    /\ match p_parent r with
       | None => count_slash relative_path = 0%nat
       | Some parent =>
           (0 < count_slash relative_path)%nat
           /\ p_path r = parent +:+ "/" +:+ basename (p_path r)
       end.

(** What a call adds to [self.projects] and to
    [self.hierarchical_projects]. *)
Definition adds (fs : node) (root brel : Path) (top : option Path) (s s' : scan_state)
  : Prop :=
  projects_dir (fst s) = root ->
  projects_dir (fst s') = root
  /\ exists new,
       projects (fst s') = projects (fst s) ++ new
       /\ Forall (placed_from fs root brel top) new
       /\ forall k, default [] (hierarchical_projects (fst s') !! k)
                    = default [] (hierarchical_projects (fst s) !! k)
                      ++ List.filter (has_parent k) new.

(** The calls a scan makes, from the call on [b] at depth [d]: a nested call
    is made on every directory that the call examines, that passes the
    project test and that may contain sub-projects. *)
Inductive reach (fs : node) : Path -> nat -> Path -> nat -> Prop :=
| reach_here b d : reach fs b d b d
| reach_step b d p b' d' :
    In p (scanned fs b d) ->
    _is_obvious_non_project p = false ->
    _is_likely_project_directory fs p = true ->
    _might_contain_subprojects fs p = true ->
    reach fs p (S d) b' d' ->
    reach fs b d b' d'.

(** ** Records during background processing *)

(** The fields of a record that place it in the tree view. *)
Definition hier_fields (r : project_info) : string * option string * option nat * option string :=
  (p_path r, p_parent r, p_depth r, p_relative_path r).

(** A path that full analysis can date: it exists and [fromtimestamp]
    accepts its modification time. *)
Definition dated (fs : node) (p : Path) : bool :=
  match Fs.stat_mtime fs p ≫= fromtimestamp with
  | Some _ => true
  | None => false
  end.

(** A record that full analysis has filled in. *)
Definition fully_analysed (r : project_info) : Prop :=
  In (p_status r) ["Active"; "Recent"; "Inactive"; "Stale"]
  /\ 0 <= p_health r <= 100
  /\ is_Some (p_frameworks r)
  /\ p_modified r <> ModUnknown.

(** The manager after the first scan of [Sample.tree_plain], with its one
    project in the queue. *)
Definition after_scan_plain : state :=
  fst (default (init ["work"] None, None)
               (scan Sample.tree_plain ["work"] (init ["work"] None, None))).

(** ** Detected languages *)

(** The priority [_determine_primary_language] gives to a language. *)
Definition priority_of (lang : string) : Z := default 1 (dict_get lang language_priority).

(** ** [project_manager_gui.py]: utility methods *)

Module Tools.

Import GUI.

(** [_get_directory_size]: the size in bytes.  The [except] clause that
    returns 0 is not reached in this model. *)
Definition _get_directory_size (fs : node) (path : Path) : Z :=
  foldr Z.add 0 (map (Fs.stat_size fs) (List.filter (Fs.is_file fs) (Fs.rglob_all fs path))).

Definition size_names : list string := ["B"; "KB"; "MB"; "GB"; "TB"].

(** [while size_bytes >= 1024 and i < len(size_names) - 1: size_bytes /=
    1024.0; i += 1], for the size [num / den]; the loop runs at most four
    times. *)
Fixpoint format_loop (fuel : nat) (num den : Z) (i : nat) : Z * nat :=
  match fuel with
  | O => (den, i)
  | S fuel' =>
      if (1024 * den <=? num) && (i <? length size_names - 1)%nat
      then format_loop fuel' num (1024 * den) (S i)
      else (den, i)
  end.

Definition _format_size (size_bytes : Z) : string :=
  if size_bytes =? 0 then "0 B"
  else
    let '(den, i) := format_loop 4 size_bytes 1 0 in
    format_1f size_bytes den +:+ " " +:+ nth i size_names "".

End Tools.

(** A directory holding one file of 1536 bytes. *)
Definition tree_sized : node :=
  Dir "" 1000
    [Dir "d" 1000
       [File "a.bin" 1000 {| st_size := 1536; text := ""; decodes := false; json_value := None |}]].

(** ** [project_manager.py]: the command line tool *)

(** [s.strip()] on ASCII white space. *)
Definition string_rev (s : string) : string :=
  string_of_list_ascii (rev (list_ascii_of_string s)).

Definition strip (s : string) : string :=
  Str.lstrip (string_rev (Str.lstrip (string_rev s))).

(** What [git remote get-url origin] prints in a directory, and [None] when
    the command fails: the one answer of the environment that the tool
    reads. *)
Definition git_oracle : Type := Path -> option string.

Module Manager.

(** The dataclass [Project].  [last_modified] keeps the timestamp whose ISO
    form the code stores. *)
Record Project : Type := mk_project {
  name : string;
  path : string;
  type : string;
  language : string;
  framework : string;
  status : string;
  last_modified : Z;
  size : string;
  dependencies : list string;
  git_remote : option string;
  health_score : Z;
  issues : list string;
  notes : string
}.

(** *** [load_config] *)

(** [default_config]; [home] is what [os.path.expanduser] puts for [~]. *)
Definition default_config (home : string) : list (string * json) :=
  [("projects_dir", JStr (home +:+ "/Projects"));
   ("templates_dir", JStr (home +:+ "/ProjectTemplates"));
   ("backup_dir", JStr (home +:+ "/ProjectBackups"));
   ("monitoring", JObj [("enabled", JBool true); ("check_interval", JNum 300);
                        ("health_threshold", JNum 70)]);
   ("git", JObj [("auto_commit", JBool true);
                 ("commit_message", JStr "Auto-commit: {timestamp}");
                 ("push_on_save", JBool false)]);
   ("backup", JObj [("enabled", JBool true); ("frequency", JStr "daily");
                    ("retention_days", JNum 30)])].

Definition has_key (key : string) (kvs : list (string * json)) : bool :=
  existsb (fun kv => String.eqb (fst kv) key) kvs.

(** [for key, value in default_config.items(): if key not in config:
    config[key] = value], on the value read from the file; [None] when it
    raises.  A list or a string supports [in] but not the assignment: it
    passes only if no key is missing. *)
Definition merge_defaults (defaults : list (string * json)) (config : json) : option json :=
  match config with
  | JObj kvs =>
      Some (JObj (fold_left (fun kvs '(key, value) =>
                               if has_key key kvs then kvs else kvs ++ [(key, value)])
                            defaults kvs))
  | JArr xs =>
      if forallb (fun '(key, _) =>
                    existsb (fun x => match x with JStr s => String.eqb s key | _ => false end) xs)
                 defaults
      then Some config else None
  | JStr s =>
      if forallb (fun '(key, _) => Str.contains key s) defaults then Some config else None
  | _ => None
  end.

(** [load_config]: the configuration, and whether it was written to the
    file.  [file] is [None] when [config_path] does not exist, [Some None]
    when reading or parsing it raises. *)
Definition load_config (home : string) (file : option (option json)) : json * bool :=
  match file with
  | Some (Some config) =>
      match merge_defaults (default_config home) config with
      | Some config => (config, false)
      | None => (JObj (default_config home), false)
      end
  | Some None => (JObj (default_config home), false)
  | None => (JObj (default_config home), true)
  end.

(** *** Analysis *)

Definition files_to_check :=
  py_dict
    [("package.json", ("nodejs", "javascript", "node"));
     ("requirements.txt", ("python", "python", "flask"));
     ("Cargo.toml", ("rust", "rust", "cargo")); ("go.mod", ("go", "go", "go"));
     ("pom.xml", ("java", "java", "maven")); ("composer.json", ("php", "php", "composer"));
     ("Gemfile", ("ruby", "ruby", "bundler"));
     ("Dockerfile", ("docker", "docker", "docker"));
     ("docker-compose.yml", ("docker", "docker", "docker-compose"));
     ("Makefile", ("c", "c", "make")); ("CMakeLists.txt", ("cpp", "cpp", "cmake"))].

Definition detect_project_type (fs : node) (project_path : Path) : string * string * string :=
  match find (fun '(file_name, _) => Fs.exists_ fs (project_path // file_name))
             files_to_check with
  | Some (_, result) => result
  | None =>
      if Fs.exists_ fs (project_path // "src") then ("generic", "unknown", "unknown")
      else ("unknown", "unknown", "unknown")
  end.

Definition get_directory_size (fs : node) (path : Path) : string :=
  let total_size :=
    foldr Z.add 0 (map (Fs.stat_size fs) (List.filter (Fs.is_file fs) (Fs.rglob_all fs path))) in
  GUI.size_units ["B"; "KB"; "MB"; "GB"] total_size 1.

(** [list(d.keys())]; [None] when the value has no [keys]. *)
Definition json_keys (v : json) : option (list string) :=
  match v with
  | JObj kvs => Some (map fst kvs)
  | _ => None
  end.

(** [[line.strip() for line in f if line.strip() and not
    line.startswith('#')]].  The lines of the text are taken without their
    line feed (and with an empty last piece after a final line feed): the
    code strips the lines it keeps and tests the others only for being blank
    and for a leading [#]. *)
Definition requirement_lines (content : string) : list string :=
  map strip
      (List.filter (fun line => GUI.nonempty (list_ascii_of_string (strip line))
                                && negb (Str.startswith "#" line))
                   (Str.split_lines content)).

Definition get_dependencies (fs : node) (project_path : Path) (language : string)
  : list string :=
  let dependencies :=
    if String.eqb language "javascript" then
      let package_json := project_path // "package.json" in
      if Fs.exists_ fs package_json then
        default [] (data ← Fs.json_load fs package_json;
                    deps ← Analysis.json_get "dependencies" data;
                    json_keys deps)
      else []
    else if String.eqb language "python" then
      let requirements_txt := project_path // "requirements.txt" in
      if Fs.exists_ fs requirements_txt then
        match Fs.read fs requirements_txt false with
        | Some content => requirement_lines content
        | None => []
        end
      else []
    else [] in
  take 10 dependencies.

Definition check_project_issues (fs : node) (project_path : Path) (language : string)
  : list string :=
  let issues := [] in
  let issues :=
    if negb (Fs.exists_ fs (project_path // "README.md"))
    then issues ++ ["Missing README.md"] else issues in
  let issues :=
    if negb (Fs.exists_ fs (project_path // ".gitignore"))
    then issues ++ ["Missing .gitignore"] else issues in
  let issues :=
    if Fs.exists_ fs (project_path // "node_modules") && Fs.exists_ fs (project_path // ".git")
    then issues ++ ["node_modules should be in .gitignore"] else issues in
  if String.eqb language "python" then
    fold_left (fun issues cache_dir =>
                 if Fs.exists_ fs (project_path // cache_dir)
                 then issues ++ ["Python cache directory found: " +:+ cache_dir]
                 else issues)
              ["__pycache__"; ".pytest_cache"] issues
  else issues.

(** [analyze_project]: [None] when [project_path.stat()] or [fromtimestamp]
    raises. *)
Definition analyze_project (fs : node) (git : git_oracle) (now : Z) (project_path : Path)
  : option Project :=
  let '(project_type, language, framework) := detect_project_type fs project_path in
  last_modified ← Fs.stat_mtime fs project_path ≫= fromtimestamp;
  status ← CLI.get_project_status fs now project_path;
  Some {| name := Fs.name project_path;
          path := Fs.str project_path;
          type := project_type;
          language := language;
          framework := framework;
          status := status;
          last_modified := last_modified;
          size := get_directory_size fs project_path;
          dependencies := get_dependencies fs project_path language;
          git_remote := git project_path;
          health_score := CLI.calculate_health_score fs project_path language;
          issues := check_project_issues fs project_path language;
          notes := "" |}.

(** [scan_projects]: the list it returns and stores in [self.projects];
    [None] when [iterdir] raises, which no clause catches. *)
Definition scan_projects (fs : node) (git : git_oracle) (now : Z) (projects_dir : Path)
  : option (list Project) :=
  if negb (Fs.exists_ fs projects_dir) then Some []
  else
    entries ← Fs.iterdir fs projects_dir;
    Some (fold_left (fun projects project_path =>
                       if Fs.is_dir fs project_path then
                         match analyze_project fs git now project_path with
                         | Some project => projects ++ [project]
                         | None => projects
                         end
                       else projects)
                    entries []).

End Manager.

(** ** Names that the model sorts as the code does *)

(** A string of ASCII characters.  On such strings [Str.lower] is
    [str.lower], and the order of [String.ltb] is the order in which Python
    compares strings. *)
Definition ascii_only (s : string) : bool :=
  forallb (fun c => (nat_of_ascii c <? 128)%nat) (list_ascii_of_string s).

(** ** [project_manager.py]: [cleanup_old_backups] *)

Module Backups.

Fixpoint remove_child (c : string) (cs : list node) : list node :=
  match cs with
  | [] => []
  | n :: cs' => if String.eqb (node_name n) c then cs' else n :: remove_child c cs'
  end.

(** The tree after [shutil.rmtree(p)]: the directory at [p] is removed with
    all it holds, and the directory that held it is modified at [now].
    [None] when the call raises: [p] is missing or is not a directory. *)
Fixpoint rmtree (now : Z) (p : Path) (n : node) : option node :=
  match p, n with
  | c :: p', Dir nm m cs =>
      match p' with
      | [] =>
          match Fs.find_child c cs with
          | Some (Dir _ _ _) => Some (Dir nm now (remove_child c cs))
          | _ => None
          end
      | _ :: _ =>
          child ← Fs.find_child c cs;
          child' ← rmtree now p' child;
          Some (Dir nm m (Fs.update_child c (fun _ => child') cs))
      end
  | _, _ => None
  end.

(** [days_old > retention_days] for the value of the configuration: an
    integer or a boolean compares, anything else raises. *)
Definition retention_of (retention_days : json) : option Z :=
  match retention_days with
  | JNum z => Some z
  | JBool b => Some (if b then 1 else 0)
  | _ => None
  end.

(** The loop over the entries of [backup_dir].  One [try] holds the whole
    loop: an exception ([stat] or [fromtimestamp] on an entry, the
    comparison with a retention that is not a number, [rmtree]) ends it,
    with what was removed before. *)
Fixpoint cleanup_loop (fs : node) (now : Z) (retention_days : option Z)
         (entries : list Path) : node :=
  match entries with
  | [] => fs
  | backup_path :: entries' =>
      if Fs.is_dir fs backup_path then
        match Fs.stat_mtime fs backup_path ≫= fromtimestamp, retention_days with
        | Some last_modified, Some retention_days' =>
            let days_old := (now - last_modified) / 86400 in
            if retention_days' <? days_old then
              match rmtree now backup_path fs with
              | Some fs' => cleanup_loop fs' now retention_days entries'
              | None => fs
              end
            else cleanup_loop fs now retention_days entries'
        | _, _ => fs
        end
      else cleanup_loop fs now retention_days entries'
  end.

(** [cleanup_old_backups], for the directory and the retention that the
    configuration names: the tree it leaves. *)
Definition cleanup_old_backups (fs : node) (now : Z) (backup_dir : Path)
           (retention_days : json) : node :=
  match Fs.iterdir fs backup_dir with
  | Some entries => cleanup_loop fs now (retention_of retention_days) entries
  | None => fs
  end.

(** A backup that the retention of [r] days lets go at [now]. *)
Definition expired (now r : Z) (n : node) : bool :=
  match n with
  | Dir _ t _ => r <? (now - t) / 86400
  | File _ _ _ => false
  end.

(** A directory whose modification time [fromtimestamp] rejects: the loop
    ends at it. *)
Definition undated (n : node) : bool :=
  match n with
  | Dir _ t _ => match fromtimestamp t with Some _ => false | None => true end
  | File _ _ _ => false
  end.

End Backups.

Definition tree_backups : node :=
  Dir "" 0
    [Dir "backups" 100
       [Dir "old" 0 [File "f" 0 (mk_file 3 "abc" true None)];
        File "note.txt" 0 (mk_file 0 "" true None);
        Dir "new" (40 * 86400) []]].

(** * Properties *)

(** ** Test vectors of RFC 1321 *)

Example md5_empty : MD5.hexdigest "" = "d41d8cd98f00b204e9800998ecf8427e".
Proof. vm_compute. reflexivity. Qed.

Example md5_abc : MD5.hexdigest "abc" = "900150983cd24fb0d6963f7d28e17f72".
Proof. vm_compute. reflexivity. Qed.

Example md5_two_blocks :
  MD5.hexdigest "12345678901234567890123456789012345678901234567890123456789012345678901234567890"
  = "57edf4a22be3c955ac49da2e2107b67a".
Proof. vm_compute. reflexivity. Qed.

Example scan_tree1 :
  (fun r => (paths_of (projects (fst r)), background_queue (fst r), map fst (calls (fst r))))
    <$> scan Sample.tree1 Sample.root1 (init Sample.root1 None, Some ∅)
  = Some (["/home/projects/Alpha"; "/home/projects/Alpha/one"; "/home/projects/Alpha/three";
           "/home/projects/Alpha/two"; "/home/projects/zeta"],
          [Sample.root1 // "Alpha"; Sample.root1 // "Alpha" // "one";
           Sample.root1 // "Alpha" // "three"; Sample.root1 // "Alpha" // "two";
           Sample.root1 // "zeta"],
          [Sample.root1; Sample.root1 // "Alpha"; Sample.root1 // "Alpha" // "two"]).
Proof. vm_compute. reflexivity. Qed.

(** ** Paths and listings *)

Lemma parent_div (p : Path) (c : string) : Fs.parent (p // c) = p.
Proof. unfold Fs.parent, Fs.div. apply removelast_last. Qed.

Lemma name_div (p : Path) (c : string) : Fs.name (p // c) = c.
Proof. unfold Fs.name, Fs.div. apply last_last. Qed.

Lemma path_eqb_refl (p : Path) : Fs.path_eqb p p = true.
Proof. unfold Fs.path_eqb. apply bool_decide_eq_true. reflexivity. Qed.

Lemma insert_sorted_In (x y : Path) (l : list Path) :
  In y (insert_sorted x l) <-> y = x \/ In y l.
Proof.
  induction l as [|z l IH]; simpl.
  - intuition.
  - destruct (String.ltb (sort_key z) (sort_key x)); simpl; rewrite ?IH; intuition.
Qed.

Lemma sort_dirs_In (y : Path) (l : list Path) : In y (sort_dirs l) <-> In y l.
Proof.
  induction l as [|x l IH]; simpl; [reflexivity|].
  rewrite insert_sorted_In, IH. intuition.
Qed.

Lemma visible_subdirs_listed fs base dirs p :
  visible_subdirs fs base = Some dirs -> In p dirs -> listed fs base p.
Proof.
  unfold visible_subdirs, Fs.iterdir. intros H Hin.
  destruct (Fs.resolve fs base) as [[|nm m cs]|]; simpl in H; try discriminate.
  injection H as <-.
  apply filter_In in Hin as [Hin Hf].
  apply in_map_iff in Hin as [c [<- _]].
  apply andb_true_iff in Hf as [Hd Hh].
  exists (node_name c). split; [reflexivity|]. split; [exact Hd|].
  now apply negb_true_iff in Hh.
Qed.

Lemma detect_parent_listed fs base p explicit :
  listed fs base p ->
  _detect_parent_project fs p base explicit = Some (Fs.str <$> explicit).
Proof.
  intros [c [-> _]]. unfold _detect_parent_project.
  destruct explicit as [par|]; [reflexivity|].
  rewrite parent_div. simpl. rewrite path_eqb_refl. reflexivity.
Qed.

(** ** What a scan adds to the state *)

Lemma cache_le_refl c : cache_le c c.
Proof. destruct c; simpl; auto. Qed.

Lemma cache_le_trans a b c : cache_le a b -> cache_le b c -> cache_le a c.
Proof. destruct a, b, c; simpl; intros; try tauto. auto. Qed.

Lemma cache_le_insert fs p info c : cache_le c (_cache_project fs p info <$> c).
Proof.
  destruct c as [m|]; simpl; [|exact I].
  intros k Hk. unfold _cache_project.
  destruct (decide (_get_cache_key fs p = k)) as [->|Hne].
  - rewrite lookup_insert_eq. eauto.
  - rewrite lookup_insert_ne by exact Hne. exact Hk.
Qed.

Lemma cached_mono fs c c' p : cache_le c c' -> cached fs c' p = None -> cached fs c p = None.
Proof.
  destruct c as [m|], c' as [m'|]; simpl; try tauto.
  unfold _get_cached_project. intros Hle H.
  destruct (m !! _get_cache_key fs p) as [v|] eqn:Hm; [|reflexivity].
  destruct (Hle _ (ex_intro _ v Hm)) as [v' Hv']. rewrite Hv' in H.
  destruct (Fs.exists_ fs p); [|reflexivity].
  destruct (String.eqb _ _); [discriminate|reflexivity].
Qed.

Ltac same_field := solve [exists []; rewrite app_nil_r; simpl; auto].

Lemma grows_refl fs s : grows fs s s.
Proof. split; try same_field; auto using cache_le_refl. Qed.

Lemma grows_trans fs a b c : grows fs a b -> grows fs b c -> grows fs a c.
Proof.
  intros [[n1 [E1 F1]] [n2 [E2 F2]] [n3 [E3 F3]] [n4 [E4 [F4 G4]]] C1 [P1 [V1 [D1 K1]]]]
         [[m1 [A1 B1]] [m2 [A2 B2]] [m3 [A3 B3]] [m4 [A4 [B4 H4]]] C2 [P2 [V2 [D2 K2]]]].
  split.
  - exists (n1 ++ m1). rewrite A1, E1, app_assoc. split; [reflexivity|]. apply Forall_app; auto.
  - exists (n2 ++ m2). rewrite A2, E2, app_assoc. split; [reflexivity|]. apply Forall_app; auto.
  - exists (n3 ++ m3). rewrite A3, E3, app_assoc. split; [reflexivity|]. apply Forall_app; auto.
  - exists (n4 ++ m4). rewrite A4, E4, app_assoc. split; [reflexivity|]. split.
    + apply Forall_app. split; [exact F4|].
      eapply Forall_impl; [exact B4|].
      intros q [Hh [Hl Hc]]. repeat split; auto. eapply cached_mono; eauto.
    + intros Hoff. rewrite G4 by exact Hoff. rewrite H4; [reflexivity|]. now rewrite V1.
  - eapply cache_le_trans; eauto.
  - repeat split; congruence.
Qed.

Lemma grows_examined fs p depth st c :
  ok_exam fs (p, depth) -> grows fs (st, c) (note_examined p depth st, c).
Proof.
  intros H. split; try same_field; auto using cache_le_refl.
  exists [(p, depth)]. simpl. auto.
Qed.

Lemma grows_call fs p depth st c :
  ok_call fs (p, depth) -> grows fs (st, c) (note_call p depth st, c).
Proof.
  intros H. split; try same_field; auto using cache_le_refl.
  exists [(p, depth)]. simpl. auto.
Qed.

Lemma grows_queue fs p st c :
  ok_queued fs c p -> enabled (background_processing_var st) = true ->
  grows fs (st, c) (set_queue (background_queue st ++ [p]) st, c).
Proof.
  intros H Hen. split; try same_field; auto using cache_le_refl.
  exists [p]. simpl. repeat split; auto. congruence.
Qed.

Lemma grows_cache fs p info st c :
  grows fs (st, c) (st, _cache_project fs p info <$> c).
Proof. split; try same_field; simpl; auto. apply cache_le_insert. Qed.

Lemma grows_record fs info st c :
  ok_record fs info -> grows fs (st, c) (set_projects (projects st ++ [info]) st, c).
Proof.
  intros H. split; try same_field; auto using cache_le_refl.
  exists [info]. simpl. auto.
Qed.

Lemma grows_hier fs h st c : grows fs (st, c) (set_hierarchical h st, c).
Proof. split; try same_field; auto using cache_le_refl. Qed.

Lemma for_dirs_grows fs body limit depth dirs :
  (depth <= 2)%nat ->
  Forall (fun p => hidden p = false /\ Fs.is_dir fs p = true) dirs ->
  (forall p s s', In p dirs -> body p s = Some s' -> grows fs s s') ->
  forall n s s', for_dirs body limit depth dirs n s = Some s' -> grows fs s s'.
Proof.
  intros Hd Hdirs. induction dirs as [|p dirs IH]; intros Hbody n [st c] s' H; simpl in H.
  - injection H as <-. apply grows_refl.
  - destruct (limit <=? n)%nat.
    + injection H as <-. apply grows_refl.
    + apply Forall_cons in Hdirs as [[Hh Hdir] Hrest].
      destruct (body p (note_examined p depth st, c)) as [s1|] eqn:Hb;
        simpl in H; [|discriminate].
      apply (grows_trans fs _ (note_examined p depth st, c)).
      * apply grows_examined. repeat split; auto.
      * apply (grows_trans fs _ s1).
        -- eapply Hbody; [left; reflexivity|exact Hb].
        -- eapply IH; eauto. intros; eapply Hbody; eauto. right; assumption.
Qed.

Ltac grown_field :=
  eexists; split; [simpl; first [reflexivity | symmetry; apply app_nil_r] | simpl].

(** The loop body: the state grows, given that the recursive call makes it
    grow. *)
Lemma visit_grows fs recurse base parent depth p s s' :
  listed fs base p -> (depth <= 2)%nat ->
  (forall s1 s2, _might_contain_subprojects fs p = true ->
                 recurse p (Some p) (S depth) s1 = Some s2 ->
                 grows fs s1 s2) ->
  visit fs recurse base parent depth p s = Some s' -> grows fs s s'.
Proof.
  intros Hl Hd Hrec H. destruct s as [st c]. unfold visit in H.
  destruct (_is_obvious_non_project p) eqn:Hobv.
  { injection H as <-. apply grows_refl. }
  destruct (_is_likely_project_directory fs p) eqn:Hlik.
  2:{ injection H as <-. apply grows_refl. }
  rewrite (detect_parent_listed _ _ _ _ Hl) in H.
  fold (cached fs c p) in H.
  pose proof Hl as [nm [_ [Hdir Hhid]]].
  assert (Hrecord : forall info, p_path info = Fs.str p -> ok_record fs info).
  { intros info Hp. exists p. auto. }
  destruct parent as [par|];
  (destruct (cached fs c p) as [info|] eqn:Hc;
    [|destruct (enabled (background_processing_var st)) eqn:Hen];
    cbv beta iota zeta in H; simpl in H;
    (destruct (Fs.relative_to p _) as [rel|]; simpl in H;
     [ destruct (_might_contain_subprojects fs p) eqn:Hm;
       [ eapply grows_trans; [|eapply (Hrec _ _ eq_refl H)] | injection H as <- ]
     | injection H as <- ]);
    (split;
     [ grown_field; auto
     | grown_field; auto
     | grown_field; auto
     | grown_field
     | simpl
     | simpl; auto ])).
  all: try (repeat constructor; apply Hrecord; reflexivity).
  all: try (repeat split; auto; repeat constructor; auto; congruence).
  all: try (eapply cache_le_trans; apply cache_le_insert).
  all: try apply cache_le_insert.
Qed.

Lemma sorted_listed fs base dirs :
  visible_subdirs fs base = Some dirs ->
  Forall (listed fs base) (sort_dirs dirs).
Proof.
  intros H. apply List.Forall_forall. intros p Hin.
  apply (proj1 (sort_dirs_In _ _)) in Hin. eapply visible_subdirs_listed; eauto.
Qed.

(** Every call of the scanner makes the state grow. *)
Lemma load_grows fs fuel :
  forall base parent depth s s',
    _load_hierarchical_projects fs fuel base parent depth s = Some s' ->
    grows fs (note_call base depth (fst s), snd s) s'.
Proof.
  induction fuel as [|fuel IH]; intros base parent depth s s' H; simpl in H; [discriminate|].
  destruct (2 <? depth)%nat eqn:Hd.
  { injection H as <-. apply grows_refl. }
  apply Nat.ltb_ge in Hd.
  destruct (visible_subdirs fs base) as [dirs|] eqn:Hv.
  2:{ injection H as <-. apply grows_refl. }
  pose proof (sorted_listed _ _ _ Hv) as Hl.
  eapply for_dirs_grows; [exact Hd| | |exact H].
  - eapply Forall_impl; [exact Hl|]. intros p [c [_ [? ?]]]. auto.
  - intros p [st c] s2 Hin Hvis.
    rewrite List.Forall_forall in Hl. specialize (Hl p Hin).
    eapply visit_grows; [exact Hl|exact Hd| |exact Hvis].
    intros [st1 c1] s3 Hm Hrec.
    apply (grows_trans fs _ (note_call p (S depth) st1, c1)).
    + apply grows_call. destruct Hl as [nm [_ [Hdir Hhid]]].
      repeat split; simpl; auto; lia.
    + apply (IH _ _ _ _ _ Hrec).
Qed.

(** *** Termination *)

Lemma for_dirs_total body limit depth dirs :
  (forall p s, In p dirs -> is_Some (body p s)) ->
  forall n s, is_Some (for_dirs body limit depth dirs n s).
Proof.
  induction dirs as [|p dirs IH]; intros Hbody n s; simpl; [eauto|].
  destruct (limit <=? n)%nat; [eauto|].
  destruct (Hbody p (note_examined p depth (fst s), snd s)) as [s1 Hs1]; [now left|].
  rewrite Hs1. simpl. apply IH. intros; apply Hbody; now right.
Qed.

Lemma visit_total fs recurse base parent depth p s :
  listed fs base p ->
  (forall s1, is_Some (recurse p (Some p) (S depth) s1)) ->
  is_Some (visit fs recurse base parent depth p s).
Proof.
  intros Hl Hrec. destruct s as [st c]. unfold visit.
  destruct (_is_obvious_non_project p); [eauto|].
  destruct (_is_likely_project_directory fs p); [|eauto].
  rewrite (detect_parent_listed _ _ _ _ Hl).
  destruct (match c with Some c0 => _get_cached_project fs p c0 | None => None end);
    cbv beta iota zeta; simpl;
    destruct (Fs.relative_to p _); simpl; eauto;
    destruct (_might_contain_subprojects fs p); eauto.
Qed.

Lemma load_total fs fuel :
  forall base parent depth s,
    (1 <= fuel)%nat -> (4 <= fuel + depth)%nat ->
    is_Some (_load_hierarchical_projects fs fuel base parent depth s).
Proof.
  induction fuel as [|fuel IH]; intros base parent depth s H1 H4; [lia|]. simpl.
  destruct (2 <? depth)%nat eqn:Hd; [eauto|].
  apply Nat.ltb_ge in Hd.
  destruct (visible_subdirs fs base) as [dirs|] eqn:Hv; [|eauto].
  apply for_dirs_total. intros p s1 Hin.
  apply visit_total.
  - apply (proj1 (sort_dirs_In _ _)) in Hin. eapply visible_subdirs_listed; eauto.
  - intros s2. apply IH; lia.
Qed.

(** *** The directories examined *)

(** The loop body leaves the ghost trace alone, except through the
    recursive call. *)
Lemma visit_frame fs recurse base parent depth p s s' :
  visit fs recurse base parent depth p s = Some s' ->
  (examined (fst s') = examined (fst s) /\ calls (fst s') = calls (fst s))
  \/ exists s1, examined (fst s1) = examined (fst s) /\ calls (fst s1) = calls (fst s)
                /\ _might_contain_subprojects fs p = true
                /\ recurse p (Some p) (S depth) s1 = Some s'.
Proof.
  intros H. destruct s as [st c]. unfold visit in H.
  destruct (_is_obvious_non_project p).
  { injection H as <-. now left. }
  destruct (_is_likely_project_directory fs p).
  2:{ injection H as <-. now left. }
  destruct (match c with Some c0 => _get_cached_project fs p c0 | None => None end);
    [|destruct (enabled (background_processing_var st))];
    cbv beta iota zeta in H;
    (destruct (_detect_parent_project fs p base parent) as [[dp|]|]; simpl in H;
     [| |discriminate]);
    (destruct (Fs.relative_to p _); simpl in H;
     [ destruct (_might_contain_subprojects fs p) eqn:Hm;
       [ right; refine (ex_intro _ _ (conj _ (conj _ (conj eq_refl H)))); reflexivity
       | injection H as <-; now left ]
     | injection H as <-; now left ]).
Qed.

Lemma direct_app depth l1 l2 : direct depth (l1 ++ l2) = direct depth l1 ++ direct depth l2.
Proof. unfold direct. apply List.filter_app. Qed.

Lemma direct_deeper depth l :
  Forall (fun e => (S depth <= snd e)%nat) l -> direct depth l = [].
Proof.
  induction 1 as [|e l He _ IH]; simpl; [reflexivity|].
  destruct (Nat.eqb_spec (snd e) depth); [lia|exact IH].
Qed.

Lemma for_dirs_examined body limit depth B dirs :
  (forall p s s', body p s = Some s' ->
     exists n, examined (fst s') = examined (fst s) ++ n
               /\ Forall (fun e => (S depth <= snd e)%nat) n /\ (length n <= B)%nat) ->
  forall k s s',
    for_dirs body limit depth dirs k s = Some s' ->
    exists n, examined (fst s') = examined (fst s) ++ n
              /\ map fst (direct depth n) = take (limit - k) dirs
              /\ Forall (fun e => (depth <= snd e)%nat) n
              /\ (length n <= (limit - k) * (1 + B))%nat.
Proof.
  intros Hbody. induction dirs as [|p dirs IH]; intros k [st c] s' H; simpl in H.
  - injection H as <-. exists []. rewrite app_nil_r, take_nil. simpl. repeat split; auto; try apply Nat.le_0_l; constructor.
  - destruct (Nat.leb_spec limit k) as [Hle|Hlt].
    + injection H as <-. exists []. rewrite app_nil_r.
      replace (limit - k)%nat with 0%nat by lia. simpl. repeat split; auto; constructor.
    + destruct (body p (note_examined p depth st, c)) as [s1|] eqn:Hb; simpl in H; [|discriminate].
      destruct (Hbody _ _ _ Hb) as [n1 [E1 [F1 L1]]].
      destruct (IH _ _ _ H) as [n2 [E2 [D2 [F2 L2]]]].
      exists ((p, depth) :: n1 ++ n2). simpl in E1. simpl.
      rewrite E2, E1, <- !app_assoc. simpl. split; [reflexivity|].
      rewrite Nat.eqb_refl. simpl. rewrite direct_app, (direct_deeper _ _ F1). simpl.
      replace (limit - k)%nat with (S (limit - S k)) by lia. simpl. rewrite D2.
      split; [reflexivity|]. split.
      * constructor; [simpl; lia|]. apply Forall_app. split; [|exact F2].
        eapply Forall_impl; [exact F1|]. simpl. intros; lia.
      * rewrite length_app. nia.
Qed.

Lemma load_examined fs fuel :
  forall base parent depth s s',
    _load_hierarchical_projects fs fuel base parent depth s = Some s' ->
    exists n, examined (fst s') = examined (fst s) ++ n
              /\ map fst (direct depth n) = scanned fs base depth
              /\ Forall (fun e => (depth <= snd e)%nat) n
              /\ (length n <= bound depth)%nat.
Proof.
  induction fuel as [|fuel IH]; intros base parent depth s s' H; simpl in H; [discriminate|].
  unfold scanned.
  destruct (2 <? depth)%nat eqn:Hd.
  { injection H as <-. exists []. rewrite app_nil_r. simpl. repeat split; auto; try apply Nat.le_0_l; constructor. }
  apply Nat.ltb_ge in Hd.
  destruct (visible_subdirs fs base) as [dirs|] eqn:Hv.
  2:{ injection H as <-. exists []. rewrite app_nil_r. simpl. rewrite take_nil.
      repeat split; auto; try apply Nat.le_0_l; constructor. }
  eapply (for_dirs_examined _ _ _ (bound (S depth))) in H.
  - destruct H as [n [E [D [F L]]]]. exists n. simpl in E. rewrite Nat.sub_0_r in D, L.
    repeat split; auto.
    destruct depth as [|[|[|?]]]; simpl in *; lia.
  - intros p s1 s2 Hvis. apply visit_frame in Hvis as [[E _]|[s3 [E [_ [_ Hrec]]]]].
    + exists []. rewrite app_nil_r. simpl. repeat split; auto; try apply Nat.le_0_l; constructor.
    + apply IH in Hrec as [n [E' [_ [F L]]]]. exists n. rewrite E', E. auto.
Qed.

(** ** Health score *)

Lemma bind_Some {A B} (f : A -> option B) (x : A) : (Some x ≫= f) = f x.
Proof. reflexivity. Qed.

Lemma Some_health (a b : project_info) : Some a = Some b -> p_health b = p_health a.
Proof. intros H. injection H as ->. reflexivity. Qed.

Lemma fromtimestamp_Some t t' : fromtimestamp t = Some t' -> t' = t.
Proof.
  unfold fromtimestamp. destruct ((min_timestamp <=? t) && (t <=? max_timestamp)); [|discriminate].
  intros H. injection H as <-. reflexivity.
Qed.

(** The time of a path that [stat] and [fromtimestamp] both accept is its
    modification time. *)
Lemma stat_time_cases fs p :
  Fs.stat_mtime fs p ≫= fromtimestamp = None
  \/ exists mtime, Fs.stat_mtime fs p = Some mtime /\ fromtimestamp mtime = Some mtime
                   /\ Fs.stat_mtime fs p ≫= fromtimestamp = Some mtime.
Proof.
  destruct (Fs.stat_mtime fs p) as [mtime|]; [|left; reflexivity]. simpl.
  destruct (fromtimestamp mtime) as [t|] eqn:E; [|left; reflexivity].
  right. exists mtime. pose proof (fromtimestamp_Some _ _ E) as ->. auto.
Qed.

Lemma analyze_health fs now p info :
  Health.analyze_project fs now p = Some info ->
  exists language, p_health info = Health.calculate_health_score fs now p language.
Proof.
  intros H. unfold Health.analyze_project in H.
  destruct (detect_project_type fs p) as [[ty la] fr].
  exists la.
  unfold Health.get_project_status in H.
  destruct (stat_time_cases fs p) as [E|[mtime [_ [_ E]]]]; rewrite !E in H.
  { destruct (nonempty (_detect_js_frameworks fs p) && Str.mem la ["javascript"; "typescript"]);
      discriminate H. }
  destruct (nonempty (_detect_js_frameworks fs p) && Str.mem la ["javascript"; "typescript"]);
    rewrite !bind_Some in H; apply Some_health in H; rewrite H; reflexivity.
Qed.

(** C1. The health score is an integer between 0 and 100 for every
    directory, every language tag and every clock reading: the scorer of the
    GUI clamps its result on both sides, and the scorer of the command line
    tool only subtracts from 100 and clamps at 0.  The records of quick
    analysis carry the fixed scores 50 and 75, and the records of full
    analysis the computed score. *)
Theorem C1_health_score_in_range :
  forall (fs : node) (now : Z) (project_path : Path) (language : string),
    0 <= Health.calculate_health_score fs now project_path language <= 100
    /\ 0 <= CLI.calculate_health_score fs project_path language <= 100
    /\ 0 <= p_health (_quick_analyze_project fs project_path) <= 100
    /\ match Health.analyze_project fs now project_path with
       | Some info => 0 <= p_health info <= 100
       | None => True
       end.
Proof.
  intros fs now project_path language.
  assert (Hgui : forall l, 0 <= Health.calculate_health_score fs now project_path l <= 100)
    by (intros l; unfold Health.calculate_health_score; lia).
  split; [apply Hgui|]. split; [|split].
  - unfold CLI.calculate_health_score.
    repeat match goal with |- context [if ?b then _ else _] => destruct b end; lia.
  - unfold _quick_analyze_project.
    destruct (_is_collection_folder fs project_path); [simpl; lia|].
    destruct (_quick_detect_project_type fs project_path) as [[ty la] fr]. simpl. lia.
  - destruct (Health.analyze_project fs now project_path) as [info|] eqn:H; [|exact I].
    destruct (analyze_health _ _ _ _ H) as [l ->]. apply Hgui.
Qed.

(** A directory with no entry at all is scored, too. *)
Example health_of_empty_directory :
  Health.calculate_health_score (Dir "" 0 []) 0 [] "unknown" = 62
  /\ CLI.calculate_health_score (Dir "" 0 []) [] "unknown" = 65.
Proof. vm_compute. split; reflexivity. Qed.

(** ** Classifier *)

Lemma quick_framework_not_collection fs p :
  snd (_quick_detect_project_type fs p) <> "Collection".
Proof.
  unfold _quick_detect_project_type.
  repeat match goal with |- context [if ?b then _ else _] => destruct b end;
    simpl; discriminate.
Qed.

Lemma quick_analysis_single fs p :
  _is_collection_folder fs p = false ->
  (p_type (_quick_analyze_project fs p), p_language (_quick_analyze_project fs p),
   p_framework (_quick_analyze_project fs p)) = _quick_detect_project_type fs p
  /\ p_status (_quick_analyze_project fs p) = "Unknown".
Proof.
  intros H. unfold _quick_analyze_project. rewrite H.
  destruct (_quick_detect_project_type fs p) as [[ty la] fr]. split; reflexivity.
Qed.

Lemma quick_analysis_collection fs p :
  _is_collection_folder fs p = true ->
  p_framework (_quick_analyze_project fs p) = "Collection"
  /\ p_status (_quick_analyze_project fs p) = "Collection"
  /\ p_language (_quick_analyze_project fs p) = "multi-language".
Proof. intros H. unfold _quick_analyze_project. rewrite H. repeat split. Qed.

(** C3 (amended).  For a directory with visible subdirectories [subdirs],
    the classifier answers "collection" exactly when there are at least
    three of them and at least half of them have a project indicator; the
    indicators are the twelve names of [project_indicators], which hold the
    manifests, [README.md] and the source directories, and not [.git]. *)
Theorem C3_collection_rule :
  forall (fs : node) (p : Path) (subdirs : list Path),
    visible_subdirs fs p = Some subdirs ->
    ((3 <= length subdirs)%nat ->
     (length subdirs <= 2 * length (List.filter (_has_project_indicators fs) subdirs))%nat ->
     _is_collection_folder fs p = true
     /\ p_framework (_quick_analyze_project fs p) = "Collection")
    /\ ((length subdirs < 3)%nat
        \/ (2 * length (List.filter (_has_project_indicators fs) subdirs) < length subdirs)%nat ->
        _is_collection_folder fs p = false
        /\ p_framework (_quick_analyze_project fs p) <> "Collection")
    /\ (forall d, _has_project_indicators fs d = true
                  <-> exists i, In i project_indicators /\ Fs.exists_ fs (d // i) = true)
    /\ ~ In ".git" project_indicators.
Proof.
  intros fs p subdirs Hv.
  assert (Hc : _is_collection_folder fs p
               = negb (length subdirs <? 3)%nat
                 && (length subdirs
                     <=? 2 * length (List.filter (_has_project_indicators fs) subdirs))%nat).
  { unfold _is_collection_folder. rewrite Hv. destruct (length subdirs <? 3)%nat; reflexivity. }
  split; [|split; [|split]].
  - intros H3 Hhalf.
    assert (Ht : _is_collection_folder fs p = true).
    { rewrite Hc. apply andb_true_iff. split.
      - apply negb_true_iff, Nat.ltb_ge. exact H3.
      - apply Nat.leb_le. exact Hhalf. }
    split; [exact Ht|]. apply quick_analysis_collection. exact Ht.
  - intros H.
    assert (Hf : _is_collection_folder fs p = false).
    { rewrite Hc. apply andb_false_iff. destruct H as [H|H].
      - left. apply negb_false_iff, Nat.ltb_lt. exact H.
      - right. apply Nat.leb_gt. exact H. }
    split; [exact Hf|].
    destruct (quick_analysis_single fs p Hf) as [Heq _].
    pose proof (quick_framework_not_collection fs p) as Hn.
    rewrite <- Heq in Hn. exact Hn.
  - intros d. unfold _has_project_indicators, Fs.any_exists. apply existsb_exists.
  - simpl. intros H. repeat (destruct H as [H|H]; [discriminate|]). exact H.
Qed.

Lemma C3_collection_rule_witness :
  _is_collection_folder Sample.tree1 ["home"; "projects"; "Alpha"] = true
  /\ p_framework (_quick_analyze_project Sample.tree1 ["home"; "projects"; "Alpha"]) = "Collection".
Proof.
  refine (proj1 (C3_collection_rule Sample.tree1 ["home"; "projects"; "Alpha"]
                   [["home"; "projects"; "Alpha"; "one"]; ["home"; "projects"; "Alpha"; "two"];
                    ["home"; "projects"; "Alpha"; "three"]] _) _ _).
  - vm_compute. reflexivity.
  - simpl. lia.
  - vm_compute. lia.
Defined.

(** The claim as the specification words it counts [.git]: three bare
    repositories make a collection by the wording and none by the code. *)
Lemma C3_counterexample :
  Spec.collection_rule Sample.tree_git ["box"] = true
  /\ _is_collection_folder Sample.tree_git ["box"] = false
  /\ p_type (_quick_analyze_project Sample.tree_git ["box"]) = "generic".
Proof. vm_compute. repeat split. Qed.

(** C4 (amended).  Quick classification tests the collection rule first: a
    directory that satisfies it is a collection whether or not it holds a
    manifest; only a directory that does not satisfy it is classified by the
    first manifest found, in the order of [_quick_detect_project_type]. *)
Theorem C4_collection_checked_before_manifest :
  forall (fs : node) (p : Path),
    (_is_collection_folder fs p = true ->
     p_framework (_quick_analyze_project fs p) = "Collection"
     /\ p_status (_quick_analyze_project fs p) = "Collection"
     /\ p_language (_quick_analyze_project fs p) = "multi-language")
    /\ (_is_collection_folder fs p = false ->
        (p_type (_quick_analyze_project fs p), p_language (_quick_analyze_project fs p),
         p_framework (_quick_analyze_project fs p)) = _quick_detect_project_type fs p
        /\ p_framework (_quick_analyze_project fs p) <> "Collection"
        /\ (Fs.any_exists fs p Spec.manifests = true ->
            In (p_type (_quick_analyze_project fs p))
               ["nodejs"; "python"; "rust"; "go"; "java"; "php"; "ruby"])
        /\ (Fs.exists_ fs (p // "package.json") = true ->
            p_type (_quick_analyze_project fs p) = "nodejs")).
Proof.
  intros fs p. split; [apply quick_analysis_collection|].
  intros Hf. destruct (quick_analysis_single fs p Hf) as [Heq _].
  split; [exact Heq|]. split; [|split].
  - pose proof (quick_framework_not_collection fs p) as Hn. rewrite <- Heq in Hn. exact Hn.
  - intros Hm.
    assert (Ht : p_type (_quick_analyze_project fs p) = fst (fst (_quick_detect_project_type fs p)))
      by (rewrite <- Heq; reflexivity).
    rewrite Ht. clear Heq Ht. unfold _quick_detect_project_type.
    unfold Fs.any_exists, Spec.manifests in Hm. simpl in Hm.
    repeat match goal with |- context [if ?b then _ else _] => destruct b eqn:? end;
      simpl; auto 10.
    repeat match goal with
           | H : _ || _ = false |- _ => apply orb_false_iff in H as [? ?]
           end.
    repeat match goal with H : Fs.exists_ _ _ = false |- _ => rewrite H in Hm end.
    discriminate.
  - intros Hp.
    assert (Ht : p_type (_quick_analyze_project fs p) = fst (fst (_quick_detect_project_type fs p)))
      by (rewrite <- Heq; reflexivity).
    rewrite Ht. unfold _quick_detect_project_type. rewrite Hp. reflexivity.
Qed.

Lemma C4_collection_checked_before_manifest_witness :
  p_type (_quick_analyze_project Sample.tree_plain ["work"; "proj"]) = "python"
  /\ p_framework (_quick_analyze_project Sample.tree_mono ["mono"]) = "Collection".
Proof.
  split.
  - pose proof (proj2 (C4_collection_checked_before_manifest Sample.tree_plain ["work"; "proj"])
                  eq_refl) as [Heq _].
    exact (f_equal (fun x => fst (fst x)) Heq).
  - exact (proj1 (proj1 (C4_collection_checked_before_manifest Sample.tree_mono ["mono"])
                    eq_refl)).
Defined.

(** A directory with its own manifest and three documented subdirectories
    is classified as a collection, not by its manifest. *)
Lemma C4_counterexample :
  Fs.exists_ Sample.tree_mono (["mono"] // "package.json") = true
  /\ _quick_detect_project_type Sample.tree_mono ["mono"] = ("nodejs", "javascript", "node")
  /\ p_type (_quick_analyze_project Sample.tree_mono ["mono"]) = "Collection (3 projects)"
  /\ p_framework (_quick_analyze_project Sample.tree_mono ["mono"]) = "Collection".
Proof. vm_compute. repeat split. Qed.

(** ** Status *)

Lemma status_of_days_values d :
  In (status_of_days d) ["Active"; "Recent"; "Inactive"; "Stale"].
Proof.
  unfold status_of_days.
  destruct (d <? 7); [simpl; auto|].
  destruct (d <? 30); [simpl; auto|].
  destruct (d <? 90); simpl; auto.
Qed.

Lemma status_of_days_spec d :
  (d < 7 -> status_of_days d = "Active")
  /\ (7 <= d < 30 -> status_of_days d = "Recent")
  /\ (30 <= d < 90 -> status_of_days d = "Inactive")
  /\ (90 <= d -> status_of_days d = "Stale").
Proof.
  unfold status_of_days.
  destruct (Z.ltb_spec d 7), (Z.ltb_spec d 30), (Z.ltb_spec d 90);
    repeat split; intros; try reflexivity; lia.
Qed.

Lemma analyze_status fs now p info :
  Health.analyze_project fs now p = Some info ->
  exists mtime, Fs.stat_mtime fs p = Some mtime
                /\ p_status info = status_of_days (days_between now mtime).
Proof.
  intros H. unfold Health.analyze_project in H.
  destruct (detect_project_type fs p) as [[ty la] fr].
  unfold Health.get_project_status in H.
  destruct (stat_time_cases fs p) as [E|[mtime [Hm [_ E]]]]; rewrite !E in H.
  { destruct (nonempty (_detect_js_frameworks fs p) && Str.mem la ["javascript"; "typescript"]).
    - discriminate H.
    - discriminate H. }
  exists mtime. split; [exact Hm|].
  destruct (nonempty (_detect_js_frameworks fs p) && Str.mem la ["javascript"; "typescript"]).
  - cbv beta iota delta [mbind option_bind] in H.
    apply (f_equal (fun o => match o with Some i => p_status i | None => "" end)) in H.
    cbv beta iota delta [p_status] in H. symmetry. exact H.
  - cbv beta iota delta [mbind option_bind] in H.
    apply (f_equal (fun o => match o with Some i => p_status i | None => "" end)) in H.
    cbv beta iota delta [p_status] in H. symmetry. exact H.
Qed.

(** C9 (amended).  A record built by full analysis, in the GUI or in the
    command line tool, has one of the four statuses, chosen by the whole
    days since the directory was modified: Active under 7, Recent under 30,
    Inactive under 90, Stale otherwise.  A record built by quick analysis
    has the status [Unknown], or [Collection] for a collection folder. *)
Theorem C9_status_of_records :
  forall (fs : node) (now : Z) (p : Path),
    (forall info, Health.analyze_project fs now p = Some info ->
       exists mtime, Fs.stat_mtime fs p = Some mtime
                     /\ p_status info = status_of_days (days_between now mtime)
                     /\ In (p_status info) ["Active"; "Recent"; "Inactive"; "Stale"])
    /\ (forall s, CLI.get_project_status fs now p = Some s ->
          exists mtime, Fs.stat_mtime fs p = Some mtime
                        /\ s = status_of_days (days_between now mtime)
                        /\ In s ["Active"; "Recent"; "Inactive"; "Stale"])
    /\ (forall d, (d < 7 -> status_of_days d = "Active")
                  /\ (7 <= d < 30 -> status_of_days d = "Recent")
                  /\ (30 <= d < 90 -> status_of_days d = "Inactive")
                  /\ (90 <= d -> status_of_days d = "Stale"))
    /\ In (p_status (_quick_analyze_project fs p)) ["Unknown"; "Collection"].
Proof.
  intros fs now p. split; [|split; [|split]].
  - intros info H. destruct (analyze_status _ _ _ _ H) as [mtime [Hm Hs]].
    exists mtime. split; [exact Hm|]. split; [exact Hs|].
    rewrite Hs. apply status_of_days_values.
  - intros s H. unfold CLI.get_project_status in H.
    destruct (stat_time_cases fs p) as [E|[mtime [Hm [_ E]]]]; rewrite E in H;
      simpl in H; [discriminate|].
    injection H as <-. exists mtime. split; [exact Hm|].
    split; [reflexivity|]. apply status_of_days_values.
  - apply status_of_days_spec.
  - unfold _quick_analyze_project.
    destruct (_is_collection_folder fs p); [simpl; auto|].
    destruct (_quick_detect_project_type fs p) as [[ty la] fr]. simpl. auto.
Qed.

Lemma C9_status_of_records_witness :
  exists mtime, Fs.stat_mtime Sample.tree1 ["home"; "projects"; "zeta"] = Some mtime
                /\ "Active" = status_of_days (days_between 5000 mtime)
                /\ In "Active" ["Active"; "Recent"; "Inactive"; "Stale"].
Proof.
  refine (proj1 (C9_status_of_records Sample.tree1 5000 ["home"; "projects"; "zeta"])
            {| p_name := "zeta"; p_path := "/home/projects/zeta"; p_type := "python";
               p_language := "python"; p_framework := "flask"; p_frameworks := Some [];
               p_status := "Active"; p_health := 62; p_size := "0.0 B";
               p_modified := ModDate 3000; p_parent := None; p_depth := None;
               p_relative_path := None |} _).
  vm_compute. reflexivity.
Defined.

(** The records of a scan carry the statuses of quick analysis. *)
Lemma C9_counterexample :
  (fun r => map (fun i => (p_path i, p_status i)) (projects (fst r)))
    <$> scan Sample.tree1 Sample.root1 (init Sample.root1 None, Some ∅)
  = Some [("/home/projects/Alpha", "Collection"); ("/home/projects/Alpha/one", "Unknown");
          ("/home/projects/Alpha/three", "Unknown"); ("/home/projects/Alpha/two", "Unknown");
          ("/home/projects/zeta", "Unknown")].
Proof. vm_compute. reflexivity. Qed.

(** ** Scanner *)

Lemma existsb_false {A} (f : A -> bool) (l : list A) :
  (forall x, In x l -> f x = false) -> existsb f l = false.
Proof.
  intros H. destruct (existsb f l) eqn:E; [|reflexivity].
  apply existsb_exists in E as [x [Hin Hx]]. rewrite (H x Hin) in Hx. discriminate.
Qed.

(** C7.  Every call of the scanner returns: with one level of calls more
    than the depths 0 to 3 that remain, the recursion never runs out.  A call
    at [depth] examines itself at most the limit of its depth (15, 8 or 5
    directories) and nothing above depth 2, so that a scan from the root
    examines at most 15 + 15 * 8 + 15 * 8 * 5 = 735 directories, whatever
    the size of the tree. *)
Theorem C7_scan_terminates_and_is_bounded :
  forall (fs : node) (base : Path) (parent : option Path) (depth : nat) (s : scan_state),
    (exists s' new,
        _load_hierarchical_projects fs (S (3 - depth)) base parent depth s = Some s'
        /\ examined (fst s') = examined (fst s) ++ new
        /\ (length (direct depth new) <= max_dirs_per_level depth)%nat
        /\ Forall (fun e => (depth <= snd e <= 2)%nat) new
        /\ (length new <= bound depth)%nat)
    /\ (exists s' new,
           scan fs base s = Some s'
           /\ examined (fst s') = examined (fst s) ++ new
           /\ (length new <= 735)%nat)
    /\ max_dirs_per_level 0 = 15%nat /\ max_dirs_per_level 1 = 8%nat
    /\ max_dirs_per_level 2 = 5%nat.
Proof.
  intros fs base parent depth s.
  assert (Hgen : forall base parent depth s,
             exists s' new,
               _load_hierarchical_projects fs (S (3 - depth)) base parent depth s = Some s'
               /\ examined (fst s') = examined (fst s) ++ new
               /\ (length (direct depth new) <= max_dirs_per_level depth)%nat
               /\ Forall (fun e => (depth <= snd e <= 2)%nat) new
               /\ (length new <= bound depth)%nat).
  { clear. intros base parent depth s.
    destruct (load_total fs (S (3 - depth)) base parent depth s) as [s' Hs']; [lia|lia|].
    destruct (load_examined _ _ _ _ _ _ _ Hs') as [n [E [D [F L]]]].
    destruct (g_exam _ _ _ (load_grows _ _ _ _ _ _ _ Hs')) as [n' [E' F']].
    simpl in E'. rewrite E in E'. apply app_inv_head in E'. subst n'.
    exists s', n. repeat split; auto.
    - rewrite <- (length_map fst), D. unfold scanned.
      destruct (2 <? depth)%nat; simpl; [lia|]. rewrite length_take. lia.
    - apply Forall_forall. intros e He.
      rewrite Forall_forall in F, F'. specialize (F e He). specialize (F' e He).
      destruct F' as [_ [_ F']]. lia. }
  split; [apply Hgen|]. split; [|repeat split].
  destruct (Hgen base None 0%nat s) as [s' [new [H [E [_ [_ L]]]]]].
  exists s', new. repeat split; auto.
Qed.

(** C2 (amended).  The scanner recurses into a directory only when
    [_might_contain_subprojects] holds for it: a directory that is not a
    collection folder, holds none of [package.json], [lerna.json],
    [nx.json], [rush.json], and has no visible project-like directory inside
    one of the thirteen directories of [subproject_indicators], is never the
    base of a recursive call. *)
Theorem C2_plain_directory_not_recursed :
  forall (fs : node) (root d : Path) (s s' : scan_state) (k : nat),
    _is_collection_folder fs d = false ->
    Fs.any_exists fs d workspace_files = false ->
    (forall indicator items item,
        In indicator subproject_indicators ->
        Fs.iterdir fs (d // indicator) = Some items -> In item items ->
        Fs.is_dir fs item = true -> hidden item = false ->
        _has_project_indicators fs item = false) ->
    scan fs root s = Some s' ->
    In (d, S k) (calls (fst s')) -> In (d, S k) (calls (fst s)).
Proof.
  intros fs root d s s' k Hcol Hws Hind Hscan Hin.
  assert (Hm : _might_contain_subprojects fs d = false).
  { unfold _might_contain_subprojects. rewrite Hcol, Hws.
    rewrite existsb_false; [reflexivity|].
    intros indicator Hi.
    destruct (Fs.iterdir fs (d // indicator)) as [items|] eqn:Hit; simpl;
      [|now rewrite andb_false_r].
    rewrite (existsb_false _ items); [now rewrite andb_false_r|].
    intros item Hitem.
    destruct (Fs.is_dir fs item) eqn:Hd; [|reflexivity].
    destruct (hidden item) eqn:Hh; [reflexivity|]. simpl.
    eapply Hind; eauto. }
  destruct (g_calls _ _ _ (load_grows _ _ _ _ _ _ _ Hscan)) as [n [E F]].
  simpl in E. rewrite E in Hin.
  apply in_app_or in Hin as [Hin|Hin].
  - apply in_app_or in Hin as [Hin|[Heq|[]]]; [exact Hin|discriminate].
  - rewrite List.Forall_forall in F. destruct (F _ Hin) as [_ [_ [Hmc _]]].
    simpl in Hmc. congruence.
Qed.

Lemma C2_plain_directory_not_recursed_witness :
  ~ In (["work"; "proj"], 1%nat)
       (calls (fst (default (init ["work"] None, None)
                            (scan Sample.tree_plain ["work"] (init ["work"] None, None))))).
Proof.
  intros Hin.
  refine (C2_plain_directory_not_recursed Sample.tree_plain ["work"] ["work"; "proj"]
            (init ["work"] None, None) _ 0%nat _ _ _ _ Hin).
  - vm_compute. reflexivity.
  - vm_compute. reflexivity.
  - intros indicator items item Hi Hit. exfalso.
    simpl in Hi.
    repeat (destruct Hi as [<-|Hi]; [vm_compute in Hit; discriminate|]). exact Hi.
  - vm_compute. exact eq_refl.
Defined.

(** The same directory with three documented folders beside its single
    manifest is recursed into, being a collection by the rule of the code. *)
Lemma C2_counterexample :
  Spec.plain_single_manifest Sample.tree_py ["work"; "proj"] = true
  /\ (fun r => calls (fst r)) <$> scan Sample.tree_py ["work"] (init ["work"] None, Some ∅)
     = Some [(["work"], 0%nat); (["work"; "proj"], 1%nat)].
Proof. vm_compute. split; reflexivity. Qed.

(** ** Names in the path of a record *)

Lemma find_child_In c cs n : Fs.find_child c cs = Some n -> In n cs /\ node_name n = c.
Proof.
  induction cs as [|k cs IH]; simpl; [discriminate|].
  destruct (String.eqb_spec (node_name k) c) as [E|_].
  - intros H. injection H as <-. auto.
  - intros H. destruct (IH H). auto.
Qed.

(** In a tree without slashes in names, a path that leads to a node has no
    slash in any component. *)
Lemma resolve_slash_free p :
  forall n m, slash_free n = true -> Fs.resolve n p = Some m ->
              Forall (fun c => has_slash c = false) p.
Proof.
  induction p as [|c p IH]; intros n m Hn Hr; [constructor|].
  destruct n as [|nm t cs]; [discriminate|]. simpl in Hr, Hn.
  destruct (Fs.find_child c cs) as [k|] eqn:Hk; [|discriminate].
  apply find_child_In in Hk as [Hin Hname].
  pose proof (proj1 (forallb_forall _ _) Hn k Hin) as Hk.
  apply andb_true_iff in Hk as [Hs Hfree]. apply negb_true_iff in Hs.
  constructor; [rewrite <- Hname; exact Hs|]. exact (IH k m Hfree Hr).
Qed.

Lemma is_dir_slash_free fs p :
  slash_free fs = true -> Fs.is_dir fs p = true -> Forall (fun c => has_slash c = false) p.
Proof.
  unfold Fs.is_dir. intros Hf Hd. destruct (Fs.resolve fs p) as [m|] eqn:Hr; [|discriminate].
  exact (resolve_slash_free p fs m Hf Hr).
Qed.

Lemma has_slash_app a b : has_slash (a +:+ b) = has_slash a || has_slash b.
Proof.
  induction a as [|c a IH]; simpl; [reflexivity|]. rewrite IH. apply orb_assoc.
Qed.

Lemma basename_after_slash a b : basename (a +:+ String "/" b) = basename (String "/" b).
Proof.
  induction a as [|c a IH]; [reflexivity|].
  change (String c a +:+ String "/" b) with (String c (a +:+ String "/" b)).
  cbn [basename]. rewrite has_slash_app. cbn [has_slash]. rewrite Ascii.eqb_refl.
  rewrite orb_true_r. exact IH.
Qed.

Lemma basename_slash_name b : has_slash b = false -> basename (String "/" b) = b.
Proof. intros H. cbn [basename]. rewrite H, Ascii.eqb_refl. reflexivity. Qed.

Lemma join_cons x y (l : list string) :
  Str.join "/" (x :: y :: l) = x +:+ String "/" (Str.join "/" (y :: l)).
Proof. reflexivity. Qed.

(** The last component of the string of a path is the name of the path,
    when the name has no slash. *)
Lemma basename_str (p : Path) :
  has_slash (Fs.name p) = false -> basename (Fs.str p) = Fs.name p.
Proof.
  unfold Fs.str, Fs.name. induction p as [|x [|y l] IH]; intros H.
  - reflexivity.
  - simpl in H. apply basename_slash_name. exact H.
  - rewrite join_cons.
    change ("/" +:+ (x +:+ String "/" (Str.join "/" (y :: l))))
      with (String "/" x +:+ String "/" (Str.join "/" (y :: l))).
    rewrite basename_after_slash. apply IH. exact H.
Qed.

Lemma last_slash_free (p : Path) :
  Forall (fun c => has_slash c = false) p -> has_slash (Fs.name p) = false.
Proof.
  unfold Fs.name. induction p as [|x [|y l] IH]; intros H.
  - reflexivity.
  - apply Forall_cons in H as [H _]. exact H.
  - apply Forall_cons in H as [_ H]. apply IH. exact H.
Qed.

(** ** Hidden directories *)

Lemma find_child_app_l c cs l n :
  Fs.find_child c cs = Some n -> Fs.find_child c (cs ++ l) = Some n.
Proof.
  induction cs as [|x cs IH]; simpl; [discriminate|].
  destruct (String.eqb (node_name x) c); auto.
Qed.

Lemma find_child_own x cs : In x cs -> exists n, Fs.find_child (node_name x) cs = Some n.
Proof.
  induction cs as [|y cs IH]; simpl; [tauto|]. intros [->|Hin].
  - rewrite String.eqb_refl. eauto.
  - destruct (String.eqb (node_name y) (node_name x)); eauto.
Qed.

(** Below an entry that was already there, a directory with one more entry
    at the end of its listing resolves names as before. *)
Lemma resolve_app_l nm t cs l x q :
  In x cs ->
  Fs.resolve (Dir nm t (cs ++ l)) (node_name x :: q) = Fs.resolve (Dir nm t cs) (node_name x :: q).
Proof.
  intros Hin. simpl. destruct (find_child_own x cs Hin) as [n Hn].
  rewrite (find_child_app_l _ _ l _ Hn), Hn. reflexivity.
Qed.

Lemma filter_ext_in_map {A B} (f g : B -> bool) (h : A -> B) (l : list A) :
  (forall x, In x l -> f (h x) = g (h x)) ->
  List.filter f (map h l) = List.filter g (map h l).
Proof.
  intros H. apply List.filter_ext_in. intros b Hb.
  apply in_map_iff in Hb as [x [<- Hx]]. auto.
Qed.

Lemma collection_ignores_hidden nm t cs hn ht hcs :
  _is_collection_folder (Dir nm t (cs ++ [Dir ("." +:+ hn) ht hcs])) []
  = _is_collection_folder (Dir nm t cs) [].
Proof.
  set (h := Dir ("." +:+ hn) ht hcs).
  assert (Hv : visible_subdirs (Dir nm t (cs ++ [h])) [] = visible_subdirs (Dir nm t cs) []).
  { unfold visible_subdirs, Fs.iterdir. simpl. f_equal.
    rewrite map_app, List.filter_app. simpl.
    assert (Hh : hidden ([] // ("." +:+ hn)) = true)
      by (unfold hidden; rewrite name_div; destruct hn; reflexivity).
    rewrite Hh. simpl negb. rewrite andb_false_r, app_nil_r.
    apply filter_ext_in_map. intros x Hx. f_equal.
    unfold Fs.is_dir, Fs.div. simpl app. rewrite (resolve_app_l _ _ _ _ _ _ Hx). reflexivity. }
  unfold _is_collection_folder. rewrite Hv.
  destruct (visible_subdirs (Dir nm t cs) []) as [subdirs|] eqn:Hs; [|reflexivity].
  destruct (length subdirs <? 3)%nat; [reflexivity|].
  f_equal. f_equal. f_equal.
  unfold visible_subdirs, Fs.iterdir in Hs. simpl in Hs. injection Hs as <-.
  apply List.filter_ext_in. intros d Hd.
  apply filter_In in Hd as [Hd _]. apply in_map_iff in Hd as [x [<- Hx]].
  unfold _has_project_indicators, Fs.any_exists.
  induction project_indicators as [|ind inds IH]; simpl; [reflexivity|].
  rewrite IH. f_equal. unfold Fs.exists_, Fs.div. simpl app.
  rewrite (resolve_app_l _ _ _ _ _ _ Hx). reflexivity.
Qed.

(** C10.  Every record a scan appends is the record of a directory of the
    tree whose name does not begin with a dot; so is every directory the scan
    examines and every directory it recurses into.  In a tree whose names
    hold no slash, as on every filesystem, the last component of the path of
    every appended record does not begin with a dot, and no appended record
    has the path of a dot-named entry of the tree.  The collection rule
    counts visible subdirectories only: a dot-named directory added to a
    folder does not change its answer. *)
Theorem C10_hidden_directories_never_classified :
  forall (fs : node) (root : Path) (s s' : scan_state),
    scan fs root s = Some s' ->
    (exists new, projects (fst s') = projects (fst s) ++ new
                 /\ Forall (fun r => exists p, p_path r = Fs.str p
                                               /\ Fs.is_dir fs p = true
                                               /\ Str.startswith "." (Fs.name p) = false) new
                 /\ (slash_free fs = true ->
                     Forall (fun r => Str.startswith "." (basename (p_path r)) = false) new
                     /\ forall p r, Fs.exists_ fs p = true ->
                                    Str.startswith "." (Fs.name p) = true ->
                                    In r new -> p_path r <> Fs.str p))
    /\ (exists new, examined (fst s') = examined (fst s) ++ new
                    /\ Forall (fun e => Str.startswith "." (Fs.name (fst e)) = false) new)
    /\ (exists new, calls (fst s') = calls (fst s) ++ (root, 0%nat) :: new
                    /\ Forall (fun e => Str.startswith "." (Fs.name (fst e)) = false) new)
    /\ (forall p subdirs, visible_subdirs fs p = Some subdirs ->
                          Forall (fun d => Str.startswith "." (Fs.name d) = false) subdirs)
    /\ (forall nm t cs hn ht hcs,
           _is_collection_folder (Dir nm t (cs ++ [Dir ("." +:+ hn) ht hcs])) []
           = _is_collection_folder (Dir nm t cs) []).
Proof.
  intros fs root s s' Hscan.
  pose proof (load_grows _ _ _ _ _ _ _ Hscan) as G.
  destruct (g_proj _ _ _ G) as [np [Ep Fp]].
  destruct (g_exam _ _ _ G) as [ne [Ee Fe]].
  destruct (g_calls _ _ _ G) as [nc [Ec Fc]].
  simpl in Ep, Ee, Ec.
  split; [|split; [|split; [|split]]].
  - exists np. split; [exact Ep|]. split.
    + eapply Forall_impl; [exact Fp|].
      intros r [p [Hp [Hh [Hd _]]]]. exists p. auto.
    + intros Hfree.
      assert (Hbase : Forall (fun r => Str.startswith "." (basename (p_path r)) = false) np).
      { eapply Forall_impl; [exact Fp|].
        intros r [p [Hp [Hh [Hd _]]]]. rewrite Hp, basename_str; [exact Hh|].
        apply last_slash_free. exact (is_dir_slash_free fs p Hfree Hd). }
      split; [exact Hbase|].
      intros p r Hex Hdot Hin Hp.
      rewrite List.Forall_forall in Hbase. pose proof (Hbase r Hin) as Hr.
      rewrite Hp, basename_str in Hr; [congruence|].
      apply last_slash_free. unfold Fs.exists_ in Hex.
      destruct (Fs.resolve fs p) as [m|] eqn:Hres; [|discriminate].
      exact (resolve_slash_free p fs m Hfree Hres).
  - exists ne. split; [exact Ee|]. eapply Forall_impl; [exact Fe|].
    intros e [Hh _]. exact Hh.
  - exists nc. split; [rewrite Ec, <- app_assoc; reflexivity|].
    eapply Forall_impl; [exact Fc|]. intros e [Hh _]. exact Hh.
  - intros p subdirs Hv. apply List.Forall_forall. intros d Hd.
    destruct (visible_subdirs_listed _ _ _ _ Hv Hd) as [c [_ [_ Hh]]]. exact Hh.
  - apply collection_ignores_hidden.
Qed.

Lemma C10_hidden_directories_never_classified_witness :
  exists new,
    projects (fst (default (init ["ws"] None, None)
                           (scan Sample.tree_hidden ["ws"] (init ["ws"] None, None))))
    = [] ++ new
    /\ Forall (fun r => Str.startswith "." (basename (p_path r)) = false) new
    /\ Forall (fun r => p_path r <> "/ws/.secret") new.
Proof.
  destruct (proj1 (C10_hidden_directories_never_classified Sample.tree_hidden ["ws"]
                     (init ["ws"] None, None)
                     (default (init ["ws"] None, None)
                              (scan Sample.tree_hidden ["ws"] (init ["ws"] None, None)))
                     eq_refl))
    as [new [E [_ H]]].
  destruct (H eq_refl) as [Hbase Hno].
  exists new. split; [exact E|]. split; [exact Hbase|].
  apply List.Forall_forall. intros r Hin.
  exact (Hno ["ws"; ".secret"] r eq_refl eq_refl Hin).
Defined.

(** The hidden project of that workspace gets no record. *)
Example scan_skips_hidden_project :
  (fun r => paths_of (projects (fst r)))
    <$> scan Sample.tree_hidden ["ws"] (init ["ws"] None, None)
  = Some ["/ws/app"].
Proof. vm_compute. reflexivity. Qed.

(** ** Touching one entry *)

Lemma set_mtime_name p t n : node_name (Fs.set_mtime p t n) = node_name n.
Proof. destruct p, n; reflexivity. Qed.

Lemma find_child_update c c' f cs :
  (forall n, node_name (f n) = node_name n) ->
  Fs.find_child c' (Fs.update_child c f cs)
  = if String.eqb c c' then f <$> Fs.find_child c cs else Fs.find_child c' cs.
Proof.
  intros Hf. induction cs as [|n cs IH]; simpl.
  - destruct (String.eqb c c'); reflexivity.
  - destruct (String.eqb_spec (node_name n) c) as [Heq|Hne]; simpl.
    + rewrite Hf, Heq. destruct (String.eqb c c') eqn:E; reflexivity.
    + rewrite IH. destruct (String.eqb_spec c c') as [<-|Hcc]; [|reflexivity].
      apply String.eqb_neq in Hne. rewrite Hne. reflexivity.
Qed.

Lemma resolve_set_mtime q : forall p t fs,
  Fs.resolve (Fs.set_mtime p t fs) q = touched_below p q t <$> Fs.resolve fs q.
Proof.
  unfold touched_below.
  induction q as [|c' q IH]; intros p t fs.
  - destruct p; reflexivity.
  - destruct p as [|c p].
    + simpl. destruct fs as [nm m d|nm m cs]; simpl; [reflexivity|].
      destruct (Fs.find_child c' cs); simpl; [|reflexivity].
      destruct (Fs.resolve n q); reflexivity.
    + destruct fs as [nm m d|nm m cs]; simpl; [reflexivity|].
      rewrite find_child_update by (intros; apply set_mtime_name).
      rewrite (String.eqb_sym c' c).
      destruct (String.eqb_spec c c') as [<-|Hne]; simpl.
      * destruct (Fs.find_child c cs) as [n|]; simpl; [|reflexivity]. apply IH.
      * destruct (Fs.find_child c' cs) as [n|]; simpl; [|reflexivity].
        destruct (Fs.resolve n q); reflexivity.
Qed.

Lemma relative_to_nil p q : Fs.relative_to p q = Some [] -> p = q.
Proof.
  revert p. induction q as [|c q IH]; intros [|c' p]; simpl; try congruence.
  destruct (String.eqb_spec c c') as [->|]; [|discriminate].
  intros H. f_equal. auto.
Qed.

Lemma set_mtime_mtime p t n : p <> [] -> node_mtime (Fs.set_mtime p t n) = node_mtime n.
Proof. destruct p, n; simpl; congruence. Qed.

Lemma stat_mtime_other p q t fs :
  q <> p -> Fs.stat_mtime (Fs.set_mtime p t fs) q = Fs.stat_mtime fs q.
Proof.
  intros Hne. unfold Fs.stat_mtime. rewrite resolve_set_mtime.
  destruct (Fs.resolve fs q) as [n|]; simpl; [|reflexivity].
  f_equal. unfold touched_below.
  destruct (Fs.relative_to p q) as [rest|] eqn:Hr; [|reflexivity].
  apply set_mtime_mtime. intros ->. apply relative_to_nil in Hr. congruence.
Qed.

Lemma exists_set_mtime p q t fs : Fs.exists_ (Fs.set_mtime p t fs) q = Fs.exists_ fs q.
Proof.
  unfold Fs.exists_. rewrite resolve_set_mtime. destruct (Fs.resolve fs q); reflexivity.
Qed.

Lemma div_inj (p q : Path) (a b : string) : p // a = q // b -> p = q /\ a = b.
Proof. unfold Fs.div. intros H. apply app_inj_tail in H. exact H. Qed.

Lemma max_key_mtime_other p f q t fs :
  q <> p -> max_key_mtime (Fs.set_mtime (p // f) t fs) q = max_key_mtime fs q.
Proof.
  intros Hne. unfold max_key_mtime.
  generalize 0. induction key_files as [|k ks IH]; intros acc; simpl; [reflexivity|].
  rewrite stat_mtime_other; [apply IH|].
  intros H. apply div_inj in H. tauto.
Qed.

(** The loop over the marker files computes a maximum. *)
Lemma fold_max_spec (g : string -> option Z) (ks : list string) : forall acc,
  let m := fold_left (fun a k => match g k with Some t => py_max a t | None => a end) ks acc in
  acc <= m
  /\ (forall k t, In k ks -> g k = Some t -> t <= m)
  /\ (m = acc \/ exists k, In k ks /\ g k = Some m).
Proof.
  induction ks as [|k ks IH]; intros acc; simpl.
  - repeat split; [lia| |now left]. intros k t [].
  - specialize (IH (match g k with Some t => py_max acc t | None => acc end)).
    simpl in IH. destruct IH as [Hle [Hall Hor]].
    assert (Hacc : acc <= match g k with Some t => py_max acc t | None => acc end).
    { destruct (g k); [|lia]. unfold py_max. destruct (Z.ltb_spec acc z); lia. }
    split; [lia|]. split.
    + intros k' t [<-|Hin] Hg.
      * rewrite Hg in Hle |- *. unfold py_max in Hle |- *. destruct (Z.ltb_spec acc t); lia.
      * eapply Hall; eauto.
    + destruct Hor as [Heq|[k' [Hin Hg]]].
      * destruct (g k) as [t|] eqn:Hg; [|now left].
        unfold py_max in Heq |- *. destruct (Z.ltb_spec acc t).
        -- right. exists k. split; [now left|]. congruence.
        -- now left.
      * right. exists k'. split; [now right|exact Hg].
Qed.

Lemma float_str_inj a b : float_str a = float_str b -> a = b.
Proof.
  unfold float_str. intros H.
  assert (Hlen : forall s1 s2 : string, s1 +:+ ".0" = s2 +:+ ".0" -> s1 = s2).
  { induction s1 as [|c1 s1 IH]; intros [|c2 s2] Hs; simpl in Hs; try reflexivity.
    - injection Hs as -> Hs. destruct s2 as [|? [|? ?]]; discriminate.
    - injection Hs as -> Hs. destruct s1 as [|? [|? ?]]; discriminate.
    - injection Hs as -> Hs. f_equal. auto. }
  apply Hlen in H. eapply pretty_Z_inj. exact H.
Qed.

Lemma append_inj_l (s a b : string) : s +:+ a = s +:+ b -> a = b.
Proof. induction s; simpl; intros H; [exact H|]. injection H as H. auto. Qed.

(** ** Cache and background queue *)

(** C5 (amended).  A scan enqueues a directory only when the lookup in the
    cache misses: every directory a scan appends to the background queue
    had no valid entry in the cache the scan started with, whatever
    analysis produced the entries, and nothing is appended when background
    processing is off.  The loop body appends the directory once on a miss
    and leaves the queue alone on a hit. *)
Theorem C5_cache_hit_is_not_enqueued :
  forall (fs : node) (root : Path) (st : state) (m : gmap string project_info)
         (s' : scan_state),
    scan fs root (st, Some m) = Some s' ->
    (exists new,
        background_queue (fst s') = background_queue st ++ new
        /\ Forall (fun q => _get_cached_project fs q m = None) new
        /\ (enabled (background_processing_var st) = false -> new = []))
    /\ (forall base dirs parent depth p st0 c,
           visible_subdirs fs base = Some dirs -> In p dirs ->
           _is_obvious_non_project p = false ->
           _is_likely_project_directory fs p = true ->
           exists st1 c1,
             visit fs (fun _ _ _ s1 => Some s1) base parent depth p (st0, c) = Some (st1, c1)
             /\ background_queue st1
                = background_queue st0
                  ++ match cached fs c p with
                     | Some _ => []
                     | None => if enabled (background_processing_var st0) then [p] else []
                     end).
Proof.
  intros fs root st m s' Hscan. split.
  - destruct (g_queue _ _ _ (load_grows _ _ _ _ _ _ _ Hscan)) as [n [E [F Hoff]]].
    simpl in E, F, Hoff. exists n. repeat split; auto.
    eapply Forall_impl; [exact F|]. intros q [_ [_ Hq]]. exact Hq.
  - intros base dirs parent depth p st0 c Hv Hin Hobv Hlik.
    pose proof (visible_subdirs_listed _ _ _ _ Hv Hin) as Hl.
    unfold visit. rewrite Hobv, Hlik, (detect_parent_listed _ _ _ _ Hl).
    fold (cached fs c p).
    destruct (cached fs c p) as [info|];
      [|destruct (enabled (background_processing_var st0))];
      cbv beta iota zeta; simpl;
      destruct parent; simpl;
      destruct (Fs.relative_to p _); simpl;
      try destruct (_might_contain_subprojects fs p);
      eexists; eexists; (split; [reflexivity|]); simpl; rewrite ?app_nil_r; reflexivity.
Qed.

(** The cache written by a first scan holds records of quick analysis only;
    a second scan over it finds every directory and enqueues none. *)
Lemma C5_counterexample :
  match scan Sample.tree1 Sample.root1 (init Sample.root1 None, Some ∅) with
  | Some (st1, Some cache1) =>
      length (background_queue st1) = 5%nat
      /\ match scan Sample.tree1 Sample.root1 (init Sample.root1 None, Some cache1) with
         | Some (st2, _) =>
             background_queue st2 = []
             /\ map p_status (projects st2)
                = ["Collection"; "Unknown"; "Unknown"; "Unknown"; "Unknown"]
         | None => False
         end
  | _ => False
  end.
Proof. vm_compute. repeat split. Qed.

(** ** Fingerprints *)

Lemma cache_string_eq fs fs' p :
  max_key_mtime fs' p = max_key_mtime fs p ->
  Fs.stat_mtime fs' p = Fs.stat_mtime fs p ->
  cache_string fs' p = cache_string fs p.
Proof. intros Hm Hs. unfold cache_string, fingerprint_mtime. rewrite Hm, Hs. reflexivity. Qed.

Lemma cache_key_eq fs fs' p :
  cache_string fs' p = cache_string fs p -> _get_cache_key fs' p = _get_cache_key fs p.
Proof. intros H. unfold _get_cache_key. rewrite H. reflexivity. Qed.

Lemma div_neq_self (p : Path) (f : string) : p <> p // f.
Proof.
  unfold Fs.div. intros H. apply (f_equal (@length string)) in H.
  rewrite length_app in H. simpl in H. lia.
Qed.

(** C6 (amended).  The fingerprint of a directory is the MD5 digest of its
    path and of one modification time: the greatest among its marker files
    that exist, when that is positive, and the time of the directory
    itself otherwise.  Setting the modification time of an entry [f] of a
    directory [p] leaves the fingerprint of every other directory as it
    was, and changes the string hashed for [p] exactly when it changes that
    greatest time. *)
Theorem C6_fingerprint_of_a_directory :
  forall (fs : node) (p : Path) (f : string) (t : Z),
    (0 <= max_key_mtime fs p
     /\ (forall k u, In k key_files -> Fs.stat_mtime fs (p // k) = Some u ->
                     u <= max_key_mtime fs p)
     /\ (max_key_mtime fs p = 0
         \/ exists k, In k key_files
                      /\ Fs.stat_mtime fs (p // k) = Some (max_key_mtime fs p)))
    /\ (forall d, Fs.stat_mtime fs p = Some d ->
          _get_cache_key fs p
          = MD5.hexdigest
              (Fs.str p +:+ "_"
               +:+ float_str (if max_key_mtime fs p =? 0 then d else max_key_mtime fs p)))
    /\ (forall q, q <> p -> q <> p // f ->
          _get_cache_key (Fs.set_mtime (p // f) t fs) q = _get_cache_key fs q)
    /\ (max_key_mtime (Fs.set_mtime (p // f) t fs) p = max_key_mtime fs p ->
        _get_cache_key (Fs.set_mtime (p // f) t fs) p = _get_cache_key fs p
        /\ forall cache, _get_cached_project (Fs.set_mtime (p // f) t fs) p cache
                         = _get_cached_project fs p cache)
    /\ (cache_string (Fs.set_mtime (p // f) t fs) p = cache_string fs p
        <-> fingerprint_mtime (Fs.set_mtime (p // f) t fs) p = fingerprint_mtime fs p).
Proof.
  intros fs p f t.
  assert (Hown : Fs.stat_mtime (Fs.set_mtime (p // f) t fs) p = Fs.stat_mtime fs p)
    by (apply stat_mtime_other, div_neq_self).
  split; [|split; [|split; [|split]]].
  - unfold max_key_mtime.
    destruct (fold_max_spec (fun k => Fs.stat_mtime fs (p // k)) key_files 0) as [H0 [Hall Hor]].
    repeat split; auto.
  - intros d Hd. unfold _get_cache_key, cache_string, fingerprint_mtime. rewrite Hd.
    destruct (max_key_mtime fs p =? 0); reflexivity.
  - intros q Hq Hqf. apply cache_key_eq, cache_string_eq.
    + apply max_key_mtime_other. exact Hq.
    + apply stat_mtime_other. exact Hqf.
  - intros Hm.
    assert (Hk : _get_cache_key (Fs.set_mtime (p // f) t fs) p = _get_cache_key fs p)
      by (apply cache_key_eq, cache_string_eq; assumption).
    split; [exact Hk|]. intros cache. unfold _get_cached_project.
    rewrite Hk, exists_set_mtime. reflexivity.
  - unfold cache_string. split.
    + destruct (fingerprint_mtime (Fs.set_mtime (p // f) t fs) p) as [a|],
               (fingerprint_mtime fs p) as [b|]; simpl; intros H; try congruence.
      injection H as H. apply append_inj_l, append_inj_l, float_str_inj in H. congruence.
    + intros ->. reflexivity.
Qed.

Lemma C6_fingerprint_of_a_directory_witness :
  _get_cache_key (Fs.set_mtime (["app"] // "README.md") 300 Sample.tree_markers) ["lib"]
  = _get_cache_key Sample.tree_markers ["lib"].
Proof.
  refine (proj1 (proj2 (proj2 (C6_fingerprint_of_a_directory
                                 Sample.tree_markers ["app"] "README.md" 300))) ["lib"] _ _);
    discriminate.
Defined.

(** A marker file that is not the newest one is touched: its time changes
    and the fingerprint of its directory does not. *)
Lemma C6_counterexample :
  In "package.json" key_files
  /\ Fs.stat_mtime Sample.tree_markers (["app"] // "package.json") = Some 100
  /\ Fs.stat_mtime (Fs.set_mtime (["app"] // "package.json") 150 Sample.tree_markers)
                   (["app"] // "package.json") = Some 150
  /\ _get_cache_key (Fs.set_mtime (["app"] // "package.json") 150 Sample.tree_markers) ["app"]
     = _get_cache_key Sample.tree_markers ["app"].
Proof. vm_compute. repeat split. left. reflexivity. Qed.

(** ** Order of the listing *)

Lemma ltb_le (a b : string) : String.ltb a b = true -> String.le a b.
Proof.
  unfold String.le, String.leb, String.ltb. destruct (String.compare a b); simpl; auto; discriminate.
Qed.

Lemma not_ltb_le (a b : string) : String.ltb a b = false -> String.le b a.
Proof.
  unfold String.le, String.leb, String.ltb.
  pose proof (String.compare_antisym a b) as H. rewrite H.
  destruct (String.compare b a); simpl; auto; discriminate.
Qed.

(** The sort keeps every directory and puts the keys in order. *)
Lemma insert_sorted_perm (x : Path) (l : list Path) : insert_sorted x l ≡ₚ x :: l.
Proof.
  induction l as [|y l IH]; simpl; [reflexivity|].
  destruct (String.ltb (sort_key y) (sort_key x)); [|reflexivity].
  rewrite IH. apply Permutation_swap.
Qed.

Lemma sort_dirs_perm (l : list Path) : sort_dirs l ≡ₚ l.
Proof.
  induction l as [|x l IH]; simpl; [reflexivity|].
  unfold sort_dirs in *. simpl. rewrite insert_sorted_perm, IH. reflexivity.
Qed.

Lemma insert_sorted_sorted (x : Path) (l : list Path) :
  StronglySorted key_le l -> StronglySorted key_le (insert_sorted x l).
Proof.
  induction 1 as [|y l Hs IH Hall]; simpl.
  - constructor; constructor.
  - destruct (String.ltb (sort_key y) (sort_key x)) eqn:E.
    + constructor; [exact IH|].
      rewrite insert_sorted_perm. constructor; [apply ltb_le, E|exact Hall].
    + apply not_ltb_le in E. constructor; [constructor; assumption|].
      constructor; [exact E|].
      eapply Forall_impl; [exact Hall|]. intros z Hz. unfold key_le in *.
      etrans; eassumption.
Qed.

Lemma sort_dirs_sorted (l : list Path) : StronglySorted key_le (sort_dirs l).
Proof.
  induction l as [|x l IH]; [constructor|]. apply insert_sorted_sorted, IH.
Qed.

Lemma map_inj_on {A B} (f : A -> B) (S : list A) :
  NoDup (map f S) ->
  forall l1 l2, Forall (fun x => In x S) l1 -> Forall (fun x => In x S) l2 ->
                map f l1 = map f l2 -> l1 = l2.
Proof.
  intros Hnd. assert (Hinj : forall a b, In a S -> In b S -> f a = f b -> a = b).
  { induction S as [|s S IH]; simpl; [tauto|].
    apply NoDup_cons in Hnd as [Hs Hnd]. intros a b [<-|Ha] [<-|Hb] E; auto.
    - exfalso. apply Hs. rewrite E. apply list_elem_of_In, in_map, Hb.
    - exfalso. apply Hs. rewrite <- E. apply list_elem_of_In, in_map, Ha. }
  induction l1 as [|a l1 IH]; intros [|b l2] H1 H2 E; simpl in E; try discriminate; auto.
  injection E as E1 E2. apply Forall_cons in H1 as [Ha H1]. apply Forall_cons in H2 as [Hb H2].
  f_equal; auto.
Qed.

(** When no two names of a listing have the same key, the sorted list does
    not depend on the order of the listing, and neither do the directories
    a call examines. *)
Lemma sort_dirs_listing_independent (l1 l2 : list Path) :
  l1 ≡ₚ l2 -> NoDup (map sort_key l1) -> sort_dirs l1 = sort_dirs l2.
Proof.
  intros Hp Hnd. apply (map_inj_on sort_key l1 Hnd).
  - apply List.Forall_forall. intros x Hx. apply list_elem_of_In.
    apply list_elem_of_In in Hx. rewrite sort_dirs_perm in Hx. exact Hx.
  - apply List.Forall_forall. intros x Hx. apply list_elem_of_In.
    apply list_elem_of_In in Hx. rewrite sort_dirs_perm, <- Hp in Hx. exact Hx.
  - apply (@StronglySorted_unique string String.le _).
    + apply (@StronglySorted_fmap _ _ sort_key key_le String.le); [|apply sort_dirs_sorted]. auto.
    + apply (@StronglySorted_fmap _ _ sort_key key_le String.le); [|apply sort_dirs_sorted]. auto.
    + apply fmap_Permutation. rewrite !sort_dirs_perm. exact Hp.
Qed.

Lemma scanned_listing_independent fs1 fs2 base depth dirs1 dirs2 :
  visible_subdirs fs1 base = Some dirs1 -> visible_subdirs fs2 base = Some dirs2 ->
  dirs1 ≡ₚ dirs2 -> NoDup (map sort_key dirs1) ->
  scanned fs1 base depth = scanned fs2 base depth.
Proof.
  intros H1 H2 Hp Hnd. unfold scanned. rewrite H1, H2. simpl.
  rewrite (sort_dirs_listing_independent _ _ Hp Hnd). reflexivity.
Qed.

(** C8.  Two listings of one directory whose children [Foo] and [foo]
    differ only in case: the sort key of both is [foo], the sort is stable,
    and the scan emits the records in the order of each listing. *)
Lemma C8_case_collision_follows_the_listing :
  sort_key (["ws"] // "Foo") = sort_key (["ws"] // "foo")
  /\ (fun r => paths_of (projects (fst r)))
       <$> scan (Sample.tree_case "Foo" "foo") ["ws"] (init ["ws"] None, Some ∅)
     = Some ["/ws/Foo"; "/ws/foo"]
  /\ (fun r => paths_of (projects (fst r)))
       <$> scan (Sample.tree_case "foo" "Foo") ["ws"] (init ["ws"] None, Some ∅)
     = Some ["/ws/foo"; "/ws/Foo"].
Proof. vm_compute. repeat split. Qed.

Lemma C5_cache_hit_is_not_enqueued_witness :
  exists new,
    background_queue
      (fst (default (init ["work"] None, None)
                    (scan Sample.tree_plain ["work"]
                          (init ["work"] None, Some Sample.cache_after_first_scan))))
    = [] ++ new
    /\ Forall (fun q => _get_cached_project Sample.tree_plain q Sample.cache_after_first_scan
                        = None) new
    /\ (enabled (Some true) = false -> new = []).
Proof.
  refine (proj1 (C5_cache_hit_is_not_enqueued Sample.tree_plain ["work"] (init ["work"] None)
                   Sample.cache_after_first_scan _ _)).
  vm_compute. exact eq_refl.
Defined.

(** In that second scan the only project is found in the cache and the
    queue stays empty. *)
Example second_scan_enqueues_nothing :
  (fun r => (background_queue (fst r), map p_status (projects (fst r))))
    <$> scan Sample.tree_plain ["work"]
             (init ["work"] None, Some Sample.cache_after_first_scan)
  = Some ([], ["Unknown"]).
Proof. vm_compute. reflexivity. Qed.

(** * Properties of the rest of the code *)

(** ** Records of a scan *)

Lemma relative_to_app (a b : Path) : Fs.relative_to (a ++ b) a = Some b.
Proof.
  induction a as [|x a IH]; simpl; [destruct b; reflexivity|].
  rewrite String.eqb_refl. exact IH.
Qed.

Lemma str_relative_snoc (l : Path) (c : string) :
  Fs.str_relative (l ++ [c]) = Str.join "/" (l ++ [c]).
Proof. destruct l; reflexivity. Qed.

Lemma adds_fields fs root brel top s s' :
  projects (fst s') = projects (fst s) ->
  hierarchical_projects (fst s') = hierarchical_projects (fst s) ->
  projects_dir (fst s') = projects_dir (fst s) ->
  adds fs root brel top s s'.
Proof.
  intros Hp Hh Hd H. split; [congruence|]. exists []. rewrite app_nil_r, Hp, Hh.
  split; [reflexivity|]. split; [constructor|]. intros k. simpl. rewrite app_nil_r. reflexivity.
Qed.

Lemma adds_refl fs root brel top s : adds fs root brel top s s.
Proof. apply adds_fields; reflexivity. Qed.

Lemma adds_trans fs root brel top a b c :
  adds fs root brel top a b -> adds fs root brel top b c -> adds fs root brel top a c.
Proof.
  intros Hab Hbc Ha. destruct (Hab Ha) as [Hb [n1 [E1 [F1 K1]]]].
  destruct (Hbc Hb) as [Hc [n2 [E2 [F2 K2]]]].
  split; [exact Hc|]. exists (n1 ++ n2). rewrite E2, E1, app_assoc. split; [reflexivity|].
  split; [apply Forall_app; auto|].
  intros k. rewrite K2, K1, List.filter_app, app_assoc. reflexivity.
Qed.

Lemma placed_from_nested fs root brel top c0 r :
  placed_from fs root (brel ++ [c0]) (Some ((root ++ brel) // c0)) r ->
  placed_from fs root brel top r.
Proof.
  intros [tail [c [Hdir [Hp [Hd [Hle [Hr Hpar]]]]]]].
  unfold Fs.div in Hpar. rewrite <- app_assoc in Hpar.
  exists (c0 :: tail), c. rewrite length_app in Hd, Hle. simpl in *.
  rewrite <- !app_assoc in Hp, Hr, Hdir. simpl in Hp, Hr, Hdir.
  repeat split.
  - exact Hdir.
  - exact Hp.
  - rewrite Hd. f_equal. lia.
  - lia.
  - exact Hr.
  - rewrite Hpar. destruct tail; simpl; rewrite <- ?app_assoc; reflexivity.
Qed.

Lemma adds_nested fs root brel top c0 s s' :
  adds fs root (brel ++ [c0]) (Some ((root ++ brel) // c0)) s s' -> adds fs root brel top s s'.
Proof.
  intros H Hs. destruct (H Hs) as [Hd [n [E [F K]]]].
  split; [exact Hd|]. exists n. repeat split; auto.
  eapply Forall_impl; [exact F|]. intros r. apply placed_from_nested.
Qed.

Lemma for_dirs_rel (R : scan_state -> scan_state -> Prop) body limit depth dirs :
  (forall s, R s s) -> (forall a b c, R a b -> R b c -> R a c) ->
  (forall p st c, R (st, c) (note_examined p depth st, c)) ->
  (forall p s s', In p dirs -> body p s = Some s' -> R s s') ->
  forall n s s', for_dirs body limit depth dirs n s = Some s' -> R s s'.
Proof.
  intros Hrefl Htrans Hnote. induction dirs as [|p dirs IH]; intros Hbody n [st c] s' H; simpl in H.
  - injection H as <-. apply Hrefl.
  - destruct (limit <=? n)%nat.
    + injection H as <-. apply Hrefl.
    + destruct (body p (note_examined p depth st, c)) as [s1|] eqn:Hb; simpl in H; [|discriminate].
      apply (Htrans _ (note_examined p depth st, c)); [apply Hnote|].
      apply (Htrans _ s1).
      * eapply Hbody; [left; reflexivity|exact Hb].
      * eapply IH; [|exact H]. intros; eapply Hbody; eauto. right; assumption.
Qed.

Lemma hier_insert (h : gmap string (list project_info)) (k0 : string) (r : project_info) :
  p_parent r = Some k0 ->
  forall k, default [] (<[k0 := default [] (h !! k0) ++ [r]]> h !! k)
            = default [] (h !! k) ++ List.filter (has_parent k) [r].
Proof.
  intros Hp k. simpl. unfold has_parent. rewrite Hp.
  destruct (String.eqb_spec k0 k) as [->|Hne].
  - rewrite lookup_insert_eq. reflexivity.
  - rewrite lookup_insert_ne by exact Hne. rewrite app_nil_r. reflexivity.
Qed.

(** The loop body appends at most one record, with the hierarchy fields
    of its directory, before the recursive call. *)
Lemma visit_adds fs recurse root brel top depth c0 s s' :
  length brel = depth -> (depth <= 2)%nat ->
  Fs.is_dir fs ((root ++ brel) // c0) = true ->
  (forall s1 s2,
      recurse ((root ++ brel) // c0) (Some ((root ++ brel) // c0)) (S depth) s1 = Some s2 ->
      adds fs root (brel ++ [c0]) (Some ((root ++ brel) // c0)) s1 s2) ->
  visit fs recurse (root ++ brel) top depth ((root ++ brel) // c0) s = Some s' ->
  adds fs root brel top s s'.
Proof.
  intros Hlen Hd Hdir Hrec H. destruct s as [st c]. unfold visit in H.
  assert (Hp : (root ++ brel) // c0 = root ++ brel ++ [c0])
    by (unfold Fs.div; rewrite <- app_assoc; reflexivity).
  rewrite Hp in Hdir.
  set (p := (root ++ brel) // c0) in *.
  destruct (_is_obvious_non_project p).
  { injection H as <-. apply adds_refl. }
  destruct (_is_likely_project_directory fs p).
  2:{ injection H as <-. apply adds_refl. }
  assert (Hdp : _detect_parent_project fs p (root ++ brel) top = Some (Fs.str <$> top)).
  { unfold _detect_parent_project. destruct top as [par|]; [reflexivity|].
    unfold p. rewrite parent_div. simpl. rewrite path_eqb_refl. reflexivity. }
  rewrite Hdp in H. clear Hdp.
  intros Hroot. simpl in Hroot.
  assert (Hplaced : forall r, p_path r = Fs.str p -> p_depth r = Some depth ->
                              p_relative_path r = Some (Fs.str_relative (brel ++ [c0])) ->
                              p_parent r = Fs.str <$> top -> placed_from fs root brel top r).
  { intros r H1 H2 H3 H4. exists [], c0. simpl. rewrite Nat.add_0_r, Hlen.
    rewrite H1, H2, H3, H4, Hp, str_relative_snoc. repeat split; auto. }
  assert (Hrel : forall st0 : state, projects_dir st0 = root ->
                   Fs.relative_to p (projects_dir st0) = Some (brel ++ [c0])).
  { intros st0 ->. rewrite Hp. apply relative_to_app. }
  destruct (match c with Some c1 => _get_cached_project fs p c1 | None => None end) as [info|];
    [|destruct (enabled (background_processing_var st))];
    cbv beta iota zeta in H; simpl in H;
    (rewrite Hrel in H by (simpl; exact Hroot)); simpl in H;
    (cut (adds fs root brel top (st, c) s'); [intros A; exact (A Hroot)|]);
    (destruct (_might_contain_subprojects fs p);
     [ apply Hrec in H; apply adds_nested with (top := top) in H;
       eapply adds_trans; [|exact H]
     | injection H as <- ]);
    (intros _; destruct top as [par|]; simpl; (split; [exact Hroot|]);
     eexists [_]; (split; [reflexivity|]);
     (split; [constructor; [apply Hplaced; reflexivity|constructor]|]);
     first [ apply hier_insert; reflexivity
           | intros k; simpl; rewrite app_nil_r; reflexivity ]).
Qed.

(** Every call of the scanner appends records with the hierarchy fields of
    their directories and files each record that has a parent under that key
    of [hierarchical_projects]. *)
Lemma load_adds fs root fuel :
  forall brel top depth s s',
    length brel = depth ->
    _load_hierarchical_projects fs fuel (root ++ brel) top depth s = Some s' ->
    adds fs root brel top s s'.
Proof.
  induction fuel as [|fuel IH]; intros brel top depth s s' Hlen H; simpl in H; [discriminate|].
  destruct (2 <? depth)%nat eqn:Hd.
  { injection H as <-. apply adds_fields; reflexivity. }
  apply Nat.ltb_ge in Hd.
  destruct (visible_subdirs fs (root ++ brel)) as [dirs|] eqn:Hv.
  2:{ injection H as <-. apply adds_fields; reflexivity. }
  pose proof (sorted_listed _ _ _ Hv) as Hl.
  assert (Hnote : adds fs root brel top s (note_call (root ++ brel) depth (fst s), snd s))
    by (apply adds_fields; reflexivity).
  apply (adds_trans _ _ _ _ _ _ _ Hnote). clear Hnote.
  revert H. apply for_dirs_rel.
  - apply adds_refl.
  - apply adds_trans.
  - intros p st c. apply adds_fields; reflexivity.
  - intros p s1 s2 Hin Hvis.
    rewrite List.Forall_forall in Hl. destruct (Hl p Hin) as [c0 [-> [Hdir _]]].
    eapply visit_adds; [exact Hlen|exact Hd|exact Hdir| |exact Hvis].
    intros s3 s4 Hrec. unfold Fs.div in Hrec at 1. rewrite <- app_assoc in Hrec.
    apply (IH _ _ _ _ _) in Hrec; [exact Hrec|]. rewrite length_app. simpl. lia.
Qed.

Lemma placed_from_root fs root r : placed_from fs root [] None r -> placed fs root r.
Proof.
  intros [tail [c H]]. exists tail, c. simpl in H. exact H.
Qed.

(** The three ways through the loop body: the directory is skipped; the
    record is dropped because the directory is not below [projects_dir];
    one record is appended and the recursive call follows if the directory
    may contain sub-projects. *)
Lemma visit_cases fs recurse base top depth p st c s' :
  visit fs recurse base top depth p (st, c) = Some s' ->
  (s' = (st, c)
   /\ (_is_obvious_non_project p = true \/ _is_likely_project_directory fs p = false))
  \/ (Fs.relative_to p (projects_dir st) = None
      /\ projects (fst s') = projects st /\ examined (fst s') = examined st)
  \/ (_is_obvious_non_project p = false /\ _is_likely_project_directory fs p = true
      /\ exists r mid,
           p_path r = Fs.str p /\ p_depth r = Some depth
           /\ projects (fst mid) = projects st ++ [r]
           /\ examined (fst mid) = examined st
           /\ projects_dir (fst mid) = projects_dir st
           /\ if _might_contain_subprojects fs p
              then recurse p (Some p) (S depth) mid = Some s'
              else s' = mid).
Proof.
  intros H. unfold visit in H.
  destruct (_is_obvious_non_project p).
  { injection H as <-. left. auto. }
  destruct (_is_likely_project_directory fs p).
  2:{ injection H as <-. left. auto. }
  right.
  destruct (match c with Some c0 => _get_cached_project fs p c0 | None => None end);
    [|destruct (enabled (background_processing_var st))];
    cbv beta iota zeta in H;
    (destruct (_detect_parent_project fs p base top) as [[dp|]|]; simpl in H;
     [| |discriminate]);
    (destruct (Fs.relative_to p (projects_dir st)); simpl in H;
     [ right; split; [reflexivity|]; split; [reflexivity|];
       eexists; eexists;
       ((split; [|split; [|split; [|split; [|split]]]]);
        [| | | | |destruct (_might_contain_subprojects fs p);
                  [exact H|symmetry; injection H as <-; reflexivity]]);
       [| |reflexivity| |]; reflexivity
     | injection H as <-; left; auto ]).
Qed.

Lemma adds_projects fs root brel top s s' :
  projects_dir (fst s) = root -> adds fs root brel top s s' ->
  projects_dir (fst s') = root /\ forall r, In r (projects (fst s)) -> In r (projects (fst s')).
Proof.
  intros Hr H. destruct (H Hr) as [Hd [n [E _]]]. split; [exact Hd|].
  intros r Hin. rewrite E. apply in_or_app. now left.
Qed.

(** Every directory among the first of the sorted listing gets its turn in
    the loop. *)
Lemma for_dirs_each (R : scan_state -> scan_state -> Prop) body limit depth dirs :
  (forall s, R s s) -> (forall a b c, R a b -> R b c -> R a c) ->
  (forall p st c, R (st, c) (note_examined p depth st, c)) ->
  (forall p s s', In p dirs -> body p s = Some s' -> R s s') ->
  forall n s s', for_dirs body limit depth dirs n s = Some s' ->
    forall p, In p (take (limit - n) dirs) ->
      exists s1 s2, R s s1 /\ body p s1 = Some s2 /\ R s2 s'.
Proof.
  intros Hrefl Htrans Hnote. induction dirs as [|q dirs IH]; intros Hbody n [st c] s' H p Hin.
  - rewrite take_nil in Hin. destruct Hin.
  - simpl in H. destruct (Nat.leb_spec limit n) as [Hle|Hlt].
    + replace (limit - n)%nat with 0%nat in Hin by lia. destruct Hin.
    + destruct (body q (note_examined q depth st, c)) as [s1|] eqn:Hb; simpl in H; [|discriminate].
      replace (limit - n)%nat with (S (limit - S n)) in Hin by lia. simpl in Hin.
      assert (Hrest : R s1 s').
      { revert H. apply for_dirs_rel; auto. intros; eapply Hbody; eauto. now right. }
      destruct Hin as [<-|Hin].
      * exists (note_examined q depth st, c), s1. auto.
      * destruct (IH (fun p0 s0 s0' Hi => Hbody p0 s0 s0' (or_intror Hi)) _ _ _ H p Hin)
          as [s2 [s3 [R1 [Hb2 R2]]]].
        exists s2, s3. split; [|auto].
        apply (Htrans _ (note_examined q depth st, c)); [apply Hnote|].
        apply (Htrans _ s1); [|exact R1]. eapply Hbody; [now left|exact Hb].
Qed.

Lemma scanned_deep fs b d : (2 < d)%nat -> scanned fs b d = [].
Proof. intros H. unfold scanned. apply Nat.ltb_lt in H. rewrite H. reflexivity. Qed.

(** Every directory that a call, or a call nested in it, examines and that
    passes the project test has a record when the call returns. *)
Lemma load_complete fs root fuel :
  forall brel top depth s s',
    length brel = depth -> projects_dir (fst s) = root ->
    _load_hierarchical_projects fs fuel (root ++ brel) top depth s = Some s' ->
    forall b d p,
      reach fs (root ++ brel) depth b d -> In p (scanned fs b d) ->
      _is_obvious_non_project p = false -> _is_likely_project_directory fs p = true ->
      exists r, In r (projects (fst s')) /\ p_path r = Fs.str p /\ p_depth r = Some d.
Proof.
  induction fuel as [|fuel IH]; intros brel top depth s s' Hlen Hroot H b d p Hreach Hin Hobv Hlik;
    [discriminate|].
  assert (Hfirst : exists p0, In p0 (scanned fs (root ++ brel) depth)
                     /\ _is_obvious_non_project p0 = false
                     /\ _is_likely_project_directory fs p0 = true
                     /\ ((p0 = p /\ d = depth)
                         \/ (_might_contain_subprojects fs p0 = true
                             /\ reach fs p0 (S depth) b d))).
  { inversion Hreach; subst.
    - exists p. auto 10.
    - exists p0. auto 10. }
  destruct Hfirst as [p0 [Hin0 [Hobv0 [Hlik0 Hcase]]]].
  simpl in H. unfold scanned in Hin0.
  destruct (2 <? depth)%nat eqn:Hd; [destruct Hin0|].
  apply Nat.ltb_ge in Hd.
  destruct (visible_subdirs fs (root ++ brel)) as [dirs|] eqn:Hv.
  2:{ simpl in Hin0. rewrite take_nil in Hin0. destruct Hin0. }
  simpl in Hin0.
  pose proof (sorted_listed _ _ _ Hv) as Hl.
  assert (Hbody : forall q s1 s2, In q (sort_dirs dirs) ->
            visit fs (_load_hierarchical_projects fs fuel) (root ++ brel) top depth q s1 = Some s2 ->
            adds fs root brel top s1 s2).
  { intros q s1 s2 Hq Hvis.
    rewrite List.Forall_forall in Hl. destruct (Hl q Hq) as [c0 [-> [Hdir _]]].
    eapply visit_adds; [exact Hlen|exact Hd|exact Hdir| |exact Hvis].
    intros s3 s4 Hrec. unfold Fs.div in Hrec at 1. rewrite <- app_assoc in Hrec.
    apply (load_adds fs root fuel (brel ++ [c0]) _ (S depth)) in Hrec; [exact Hrec|].
    rewrite length_app. simpl. lia. }
  rewrite <- (Nat.sub_0_r (max_dirs_per_level depth)) in Hin0.
  destruct (for_dirs_each (adds fs root brel top) _ _ _ _
              (adds_refl _ _ _ _) (adds_trans _ _ _ _)
              (fun q st0 c0 => adds_fields _ _ _ _ (st0, c0) _ eq_refl eq_refl eq_refl)
              Hbody _ _ _ H p0 Hin0) as [[st1 c1] [s2 [R1 [Hvis R2]]]].
  assert (Hr1 : projects_dir st1 = root).
  { apply (adds_projects fs root brel top _ (st1, c1) Hroot R1). }
  assert (Hin0' : In p0 (sort_dirs dirs)).
  { apply list_elem_of_In. apply (subseteq_take (max_dirs_per_level depth - 0)).
    apply list_elem_of_In. exact Hin0. }
  rewrite List.Forall_forall in Hl. destruct (Hl p0 Hin0') as [c0 [Hp0 _]].
  pose proof (Hbody _ _ _ Hin0' Hvis) as R12.
  destruct (adds_projects fs root brel top (st1, c1) s2 Hr1 R12) as [Hr2 _].
  destruct (adds_projects _ _ _ _ _ _ Hr2 R2) as [_ Hkeep].
  apply visit_cases in Hvis
    as [[_ [Hc|Hc]]|[[Hrel _]|[_ [_ [r [mid [Hpath [Hdepth [Hproj [_ [Hdir Hnext]]]]]]]]]]];
    try congruence.
  { rewrite Hr1, Hp0 in Hrel. unfold Fs.div in Hrel. rewrite <- app_assoc in Hrel.
    rewrite relative_to_app in Hrel. discriminate. }
  destruct Hcase as [[-> ->]|[Hm Hreach']].
  - exists r. split; [|auto]. apply Hkeep.
    destruct (_might_contain_subprojects fs p).
    + rewrite Hp0 in Hnext. unfold Fs.div in Hnext at 1. rewrite <- app_assoc in Hnext.
      apply (load_adds fs root fuel (brel ++ [c0]) _ (S depth)) in Hnext;
        [|rewrite length_app; simpl; lia].
      rewrite Hr1 in Hdir.
      destruct (adds_projects _ _ _ _ _ _ Hdir Hnext) as [_ Hk]. apply Hk.
      rewrite Hproj. apply in_or_app. right. now left.
    + subst s2. rewrite Hproj. apply in_or_app. right. now left.
  - rewrite Hm in Hnext. rewrite Hp0 in Hnext, Hreach'.
    unfold Fs.div in Hnext at 1, Hreach'. rewrite <- app_assoc in Hnext, Hreach'.
    rewrite Hr1 in Hdir.
    assert (Hlen' : length (brel ++ [c0]) = S depth) by (rewrite length_app; simpl; lia).
    destruct (IH (brel ++ [c0]) _ (S depth) _ _ Hlen' Hdir Hnext b d p) as [r' [Hin' Hr']]; auto.
    exists r'. split; [apply Hkeep; exact Hin'|exact Hr'].
Qed.

(** *** Counting the records *)

Lemma for_dirs_count body limit depth dirs :
  (forall p s s', body p s = Some s' ->
     exists nr ne, projects (fst s') = projects (fst s) ++ nr
                   /\ examined (fst s') = examined (fst s) ++ ne
                   /\ (length nr <= 1 + length ne)%nat) ->
  forall n s s', for_dirs body limit depth dirs n s = Some s' ->
    exists nr ne, projects (fst s') = projects (fst s) ++ nr
                  /\ examined (fst s') = examined (fst s) ++ ne
                  /\ (length nr <= length ne)%nat.
Proof.
  intros Hbody. induction dirs as [|p dirs IH]; intros n [st c] s' H; simpl in H.
  - injection H as <-. exists [], []. rewrite !app_nil_r. auto.
  - destruct (limit <=? n)%nat.
    + injection H as <-. exists [], []. rewrite !app_nil_r. auto.
    + destruct (body p (note_examined p depth st, c)) as [s1|] eqn:Hb; simpl in H; [|discriminate].
      destruct (Hbody _ _ _ Hb) as [nr1 [ne1 [P1 [E1 L1]]]].
      destruct (IH _ _ _ H) as [nr2 [ne2 [P2 [E2 L2]]]].
      simpl in P1, E1. exists (nr1 ++ nr2), ((p, depth) :: ne1 ++ ne2).
      rewrite P2, P1, E2, E1, <- !app_assoc. simpl.
      repeat split; auto. rewrite !length_app. lia.
Qed.

(** A call appends at most one record for each directory it examines. *)
Lemma load_count fs fuel :
  forall base top depth s s',
    _load_hierarchical_projects fs fuel base top depth s = Some s' ->
    exists nr ne, projects (fst s') = projects (fst s) ++ nr
                  /\ examined (fst s') = examined (fst s) ++ ne
                  /\ (length nr <= length ne)%nat.
Proof.
  induction fuel as [|fuel IH]; intros base top depth s s' H; simpl in H; [discriminate|].
  destruct (2 <? depth)%nat.
  { injection H as <-. exists [], []. rewrite !app_nil_r. auto. }
  destruct (visible_subdirs fs base) as [dirs|].
  2:{ injection H as <-. exists [], []. rewrite !app_nil_r. auto. }
  apply for_dirs_count in H; [exact H|].
  intros p [st c] s2 Hvis.
  apply visit_cases in Hvis
    as [[-> _]|[[_ [P E]]|[_ [_ [r [mid [_ [_ [P [E [_ Hnext]]]]]]]]]]].
  - exists [], []. rewrite !app_nil_r. auto.
  - exists [], []. rewrite !app_nil_r. simpl. auto.
  - destruct (_might_contain_subprojects fs p).
    + destruct (IH _ _ _ _ _ Hnext) as [nr [ne [P2 [E2 L]]]].
      exists (r :: nr), ne. rewrite P2, E2, P, E, <- app_assoc. simpl.
      repeat split; auto. lia.
    + subst s2. exists [r], []. rewrite P, E, app_nil_r. simpl. auto.
Qed.

Lemma scan_returns fs root s : exists s', scan fs root s = Some s'.
Proof.
  destruct (load_total fs 4 root None 0 s) as [s' H]; [lia|lia|]. exists s'. exact H.
Qed.

(** ** The project list after a scan *)

Lemma string_app_assoc (a b c : string) : (a +:+ b) +:+ c = a +:+ (b +:+ c).
Proof.
  induction a as [|x a IH]; [reflexivity|].
  change (String x ((a +:+ b) +:+ c) = String x (a +:+ (b +:+ c))). rewrite IH. reflexivity.
Qed.

Lemma count_slash_app a b : count_slash (a +:+ b) = (count_slash a + count_slash b)%nat.
Proof.
  induction a as [|c a IH]; simpl; [reflexivity|].
  destruct (Ascii.eqb c "/"); simpl; rewrite IH; reflexivity.
Qed.

Lemma count_slash_free a : has_slash a = false -> count_slash a = 0%nat.
Proof.
  induction a as [|c a IH]; simpl; [reflexivity|].
  destruct (Ascii.eqb c "/"); simpl; [discriminate|exact IH].
Qed.

Lemma count_slash_join (l : list string) :
  Forall (fun c => has_slash c = false) l ->
  count_slash (Str.join "/" l) = Nat.pred (length l).
Proof.
  induction l as [|x [|y l] IH]; intros H.
  - reflexivity.
  - apply Forall_cons in H as [H _]. simpl. apply count_slash_free, H.
  - apply Forall_cons in H as [Hx H]. rewrite join_cons.
    change (x +:+ String "/" (Str.join "/" (y :: l)))
      with (x +:+ ("/" +:+ Str.join "/" (y :: l))).
    rewrite !count_slash_app, (count_slash_free x Hx), (IH H). reflexivity.
Qed.

Lemma basename_no_slash a : has_slash a = false -> basename a = a.
Proof.
  destruct a as [|c a]; [reflexivity|]. simpl.
  destruct (Ascii.eqb c "/"); simpl; [discriminate|]. intros ->. reflexivity.
Qed.

Lemma basename_join (l : list string) :
  has_slash (Fs.name l) = false -> basename (Str.join "/" l) = Fs.name l.
Proof.
  destruct l as [|x [|y l]]; intros H.
  - reflexivity.
  - apply basename_no_slash. exact H.
  - rewrite join_cons, basename_after_slash.
    exact (basename_str (y :: l) H).
Qed.

Lemma join_snoc (l : list string) (c : string) :
  l <> [] -> Str.join "/" (l ++ [c]) = Str.join "/" l +:+ "/" +:+ c.
Proof.
  induction l as [|x [|y l] IH]; intros H; [congruence|reflexivity|].
  change ((x :: y :: l) ++ [c]) with (x :: y :: (l ++ [c])).
  rewrite !join_cons.
  change (y :: l ++ [c]) with ((y :: l) ++ [c]). rewrite IH by discriminate.
  change (String "/" (Str.join "/" (y :: l) +:+ "/" +:+ c))
    with (String "/" (Str.join "/" (y :: l)) +:+ "/" +:+ c).
  rewrite <- string_app_assoc. reflexivity.
Qed.

Lemma str_snoc (l : Path) (c : string) :
  l <> [] -> Fs.str (l ++ [c]) = Fs.str l +:+ "/" +:+ c.
Proof. intros H. unfold Fs.str. rewrite join_snoc by exact H. reflexivity. Qed.

(** In a tree without slashes in names, the place of a record is written
    in its strings. *)
Lemma placed_strings fs root r :
  slash_free fs = true -> placed fs root r -> placed_by_its_strings r.
Proof.
  intros Hfree [rel [c [Hdir [Hp [Hd [_ [Hr Hpar]]]]]]].
  pose proof (is_dir_slash_free fs _ Hfree Hdir) as Hall.
  apply Forall_app in Hall as [_ Hall].
  assert (Hc : has_slash c = false).
  { apply Forall_app in Hall as [_ Hc]. apply Forall_cons in Hc as [Hc _]. exact Hc. }
  assert (Hname : forall l, Fs.name (l ++ [c]) = c) by (intros l; apply last_last).
  assert (Hbase : basename (p_path r) = c).
  { rewrite Hp, app_assoc, basename_str; rewrite Hname; auto. }
  exists (Str.join "/" (rel ++ [c])). split; [exact Hr|]. split; [|split].
  - rewrite Hd, count_slash_join by exact Hall. rewrite length_app. simpl.
    f_equal. lia.
  - rewrite Hbase, basename_join; rewrite Hname; auto.
  - rewrite count_slash_join by exact Hall. rewrite length_app. simpl.
    rewrite Hpar, Hbase. destruct rel as [|x rel]; [reflexivity|].
    split; [simpl; lia|].
    rewrite Hp, app_assoc. apply str_snoc. destruct root; discriminate.
Qed.

(** X1.  The scan of [projects_dir] returns, and every record it appends
    carries the place of its directory: there is a directory [c] of the tree
    inside [projects_dir/rel] such that [path] is its path, [depth] is the
    number of directories between [projects_dir] and it (at most 2),
    [relative_path] is its path below [projects_dir], and [parent] is the
    path of the directory that holds it, or [None] for a child of
    [projects_dir] itself.  In a tree whose names hold no slash, as on every
    filesystem, the strings of the record say so by themselves: [depth] is
    the number of slashes of [relative_path], a record has no parent
    exactly at depth 0, and the parent of a deeper record is its path without
    the last component. *)
Theorem scan_records_carry_their_place :
  forall (fs : node) (st : state) (c : option (gmap string project_info)),
  exists s' new,
    scan fs (projects_dir st) (st, c) = Some s'
    /\ projects (fst s') = projects st ++ new
    /\ Forall (placed fs (projects_dir st)) new
    /\ (slash_free fs = true -> Forall placed_by_its_strings new).
Proof.
  intros fs st c. destruct (scan_returns fs (projects_dir st) (st, c)) as [s' H].
  pose proof H as H0. unfold scan in H0.
  rewrite <- (app_nil_r (projects_dir st)) in H0 at 1.
  apply (load_adds fs (projects_dir st) 4 [] None 0) in H0; [|reflexivity].
  destruct (H0 eq_refl) as [_ [new [E [F _]]]].
  assert (P : Forall (placed fs (projects_dir st)) new).
  { eapply Forall_impl; [exact F|]. intros r. apply placed_from_root. }
  exists s', new. split; [exact H|]. split; [exact E|]. split; [exact P|].
  intros Hfree. eapply Forall_impl; [exact P|]. intros r. apply placed_strings, Hfree.
Qed.

Lemma scan_records_carry_their_place_witness :
  exists s' new,
    scan Sample.tree1 Sample.root1 (init Sample.root1 None, None) = Some s'
    /\ projects (fst s') = [] ++ new
    /\ Forall placed_by_its_strings new.
Proof.
  destruct (scan_records_carry_their_place Sample.tree1 (init Sample.root1 None) None)
    as [s' [new [H [E [_ S]]]]].
  exists s', new. split; [exact H|]. split; [exact E|]. apply S. reflexivity.
Defined.

(** X2.  [hierarchical_projects] groups the records by parent: after the
    scan of [projects_dir], the list under a key is the list that was there
    followed by the records the scan appended whose [parent] is that key, in
    the order of [self.projects]; records without a parent are under no
    key. *)
Theorem scan_groups_records_by_parent :
  forall (fs : node) (st : state) (c : option (gmap string project_info)),
  exists s' new,
    scan fs (projects_dir st) (st, c) = Some s'
    /\ projects (fst s') = projects st ++ new
    /\ forall k, default [] (hierarchical_projects (fst s') !! k)
                 = default [] (hierarchical_projects st !! k)
                   ++ List.filter (has_parent k) new.
Proof.
  intros fs st c. destruct (scan_returns fs (projects_dir st) (st, c)) as [s' H].
  pose proof H as H0. unfold scan in H0.
  rewrite <- (app_nil_r (projects_dir st)) in H0 at 1.
  apply (load_adds fs (projects_dir st) 4 [] None 0) in H0; [|reflexivity].
  destruct (H0 eq_refl) as [_ [new [E [_ K]]]].
  exists s', new. auto.
Qed.

(** X3.  The scan misses no project within its limits: every directory
    that is among the first directories of the sorted listing of
    [projects_dir], or of a directory on which a nested call is made, that
    is not an obvious non-project and that passes the project test, has a
    record in [self.projects] with its path and depth. *)
Theorem scan_records_every_project_it_reaches :
  forall (fs : node) (st : state) (c : option (gmap string project_info))
         (b : Path) (d : nat) (p : Path),
    reach fs (projects_dir st) 0 b d ->
    In p (scanned fs b d) ->
    _is_obvious_non_project p = false ->
    _is_likely_project_directory fs p = true ->
    exists s' r,
      scan fs (projects_dir st) (st, c) = Some s'
      /\ In r (projects (fst s')) /\ p_path r = Fs.str p /\ p_depth r = Some d.
Proof.
  intros fs st c b d p Hreach Hin Hobv Hlik.
  destruct (scan_returns fs (projects_dir st) (st, c)) as [s' H].
  pose proof H as H0. unfold scan in H0.
  rewrite <- (app_nil_r (projects_dir st)) in H0 at 1, Hreach.
  destruct (load_complete fs (projects_dir st) 4 [] None 0 (st, c) s' eq_refl eq_refl H0
              b d p Hreach Hin Hobv Hlik) as [r Hr].
  exists s', r. auto.
Qed.

Lemma scan_records_every_project_it_reaches_witness :
  exists s' r,
    scan Sample.tree1 Sample.root1 (init Sample.root1 None, None) = Some s'
    /\ In r (projects (fst s'))
    /\ p_path r = "/home/projects/Alpha/one" /\ p_depth r = Some 1%nat.
Proof.
  apply (scan_records_every_project_it_reaches Sample.tree1 (init Sample.root1 None) None
           (Sample.root1 // "Alpha") 1 (Sample.root1 // "Alpha" // "one")).
  - apply (reach_step _ _ _ (Sample.root1 // "Alpha")).
    + vm_compute. left. reflexivity.
    + reflexivity.
    + reflexivity.
    + reflexivity.
    + apply reach_here.
  - vm_compute. left. reflexivity.
  - reflexivity.
  - reflexivity.
Defined.

(** X4.  However many directories there are, one scan appends at most 735
    records to [self.projects]: at most one for each directory it
    examines. *)
Theorem scan_appends_at_most_735_records :
  forall (fs : node) (root : Path) (s : scan_state),
  exists s' new,
    scan fs root s = Some s'
    /\ projects (fst s') = projects (fst s) ++ new
    /\ (length new <= 735)%nat.
Proof.
  intros fs root s. destruct (scan_returns fs root s) as [s' H].
  exists s'. unfold scan in H.
  destruct (load_count _ _ _ _ _ _ _ H) as [nr [ne [P [E L]]]].
  destruct (load_examined _ _ _ _ _ _ _ H) as [n [E' [_ [_ B]]]].
  rewrite E in E'. apply app_inv_head in E'. subst n.
  exists nr. repeat split; auto. simpl in B. lia.
Qed.

(** X5.  A scan never removes an entry from the cache: every key of the
    cache it was given is a key of the cache it leaves, so entries whose
    fingerprint no longer matches any directory stay in the cache file. *)
Theorem scan_keeps_every_cache_key :
  forall (fs : node) (root : Path) (st : state) (m : gmap string project_info),
  exists st' m',
    scan fs root (st, Some m) = Some (st', Some m')
    /\ forall k, is_Some (m !! k) -> is_Some (m' !! k).
Proof.
  intros fs root st m. destruct (scan_returns fs root (st, Some m)) as [[st' c'] H].
  pose proof (g_cache _ _ _ (load_grows _ _ _ _ _ _ _ H)) as Hc. simpl in Hc.
  destruct c' as [m'|]; [|destruct Hc].
  exists st', m'. auto.
Qed.

(** ** The cache as a dictionary *)

(** X6.  What [_cache_project] stores under the fingerprint of a directory,
    [_get_cached_project] returns for that directory as long as the
    directory exists, and never for a missing one; the lookup of a directory
    with another fingerprint is not affected. *)
Theorem cached_record_is_returned :
  forall (fs : node) (p : Path) (d : project_info) (cache : gmap string project_info),
    _get_cached_project fs p (_cache_project fs p d cache)
    = (if Fs.exists_ fs p then Some d else None)
    /\ (Fs.exists_ fs p = false -> _get_cached_project fs p cache = None)
    /\ (forall q, _get_cache_key fs q <> _get_cache_key fs p ->
          _get_cached_project fs q (_cache_project fs p d cache)
          = _get_cached_project fs q cache).
Proof.
  intros fs p d cache. unfold _get_cached_project, _cache_project. split; [|split].
  - rewrite lookup_insert_eq, String.eqb_refl. reflexivity.
  - intros ->. destruct (cache !! _get_cache_key fs p); reflexivity.
  - intros q Hne. rewrite lookup_insert_ne by congruence. reflexivity.
Qed.

Lemma cached_record_is_returned_witness :
  _get_cached_project Sample.tree_markers ["lib"]
    (_cache_project Sample.tree_markers ["app"]
       (_quick_analyze_project Sample.tree_markers ["app"]) ∅)
  = _get_cached_project Sample.tree_markers ["lib"] ∅.
Proof.
  refine (proj2 (proj2 (cached_record_is_returned Sample.tree_markers ["app"]
                          (_quick_analyze_project Sample.tree_markers ["app"]) ∅)) ["lib"] _).
  vm_compute. discriminate.
Defined.

(** ** Background processing

    The properties below are about [self.projects] and the cache file.  The
    lists of [self.hierarchical_projects] hold the same dictionaries as
    [self.projects], so in the source they see the update too; no method
    reads them after the scan, and the model leaves them as the scan built
    them. *)

Lemma Some_eq {A} (a b : A) : Some a = Some b -> b = a.
Proof. intros H. injection H as ->. reflexivity. Qed.

(** What full analysis puts in a record. *)
Lemma analyze_fields fs now p info :
  analyze_project fs now p = Some info ->
  p_path info = Fs.str p /\ p_name info = Fs.name p
  /\ p_parent info = None /\ p_depth info = None /\ p_relative_path info = None
  /\ p_frameworks info = Some (_detect_js_frameworks fs p)
  /\ p_size info = get_directory_size fs p
  /\ (exists mtime, Fs.stat_mtime fs p = Some mtime /\ p_modified info = ModDate mtime)
  /\ fully_analysed info.
Proof.
  intros H.
  assert (Hfull : In (p_status info) ["Active"; "Recent"; "Inactive"; "Stale"]
                  /\ 0 <= p_health info <= 100).
  { split.
    - destruct (analyze_status _ _ _ _ H) as [m [_ ->]]. apply status_of_days_values.
    - destruct (analyze_health _ _ _ _ H) as [l ->].
      unfold calculate_health_score. lia. }
  unfold analyze_project in H.
  destruct (detect_project_type fs p) as [[ty la] fr].
  cbv beta iota zeta in H.
  set (h := calculate_health_score fs now p la) in H. clearbody h.
  set (sz := get_directory_size fs p) in *. 
  unfold get_project_status in H.
  destruct (stat_time_cases fs p) as [E|[mtime [Hm [_ E]]]]; rewrite !E in H.
  { destruct (nonempty (_detect_js_frameworks fs p) && Str.mem la ["javascript"; "typescript"]);
      discriminate H. }
  destruct (nonempty (_detect_js_frameworks fs p) && Str.mem la ["javascript"; "typescript"]);
    cbv beta iota zeta delta [mbind option_bind] in H;
    apply Some_eq in H; subst info;
    cbn [p_path p_name p_parent p_depth p_relative_path p_frameworks p_size p_modified];
    repeat split; eauto; try apply Hfull; try discriminate.
Qed.

Lemma analyze_dated fs now p :
  analyze_project fs now p = None <-> dated fs p = false.
Proof.
  unfold analyze_project, dated.
  destruct (detect_project_type fs p) as [[ty la] fr].
  cbv beta iota zeta.
  set (h := calculate_health_score fs now p la). clearbody h.
  unfold get_project_status.
  destruct (stat_time_cases fs p) as [E|[mtime [_ [_ E]]]]; rewrite !E;
    destruct (nonempty (_detect_js_frameworks fs p) && Str.mem la ["javascript"; "typescript"]);
    cbv beta iota zeta delta [mbind option_bind];
    split; intros H; try reflexivity; discriminate H.
Qed.

Lemma dated_spec fs p :
  dated fs p = true
  <-> exists mtime, Fs.stat_mtime fs p = Some mtime
                    /\ min_timestamp <= mtime <= max_timestamp.
Proof.
  unfold dated, fromtimestamp. destruct (Fs.stat_mtime fs p) as [mtime|]; simpl.
  - destruct (Z.leb_spec min_timestamp mtime) as [H1|H1],
             (Z.leb_spec mtime max_timestamp) as [H2|H2]; simpl; split; intros H;
      try discriminate H; try reflexivity;
      try (exists mtime; split; [reflexivity|lia]);
      destruct H as [m [Hm Hr]]; injection Hm as <-; lia.
  - split; [discriminate|]. intros [m [Hm _]]. discriminate.
Qed.

Lemma update_first_fields path info l :
  p_path info = path -> p_parent info = None -> p_depth info = None ->
  p_relative_path info = None ->
  map hier_fields (update_first path info l) = map hier_fields l.
Proof.
  intros H1 H2 H3 H4. induction l as [|r l IH]; simpl; [reflexivity|].
  destruct (String.eqb_spec (p_path r) path) as [E|_]; simpl.
  - f_equal. unfold hier_fields, dict_update. simpl. rewrite H1, H2, H3, H4, E. reflexivity.
  - f_equal. exact IH.
Qed.

Lemma process_one_fields fs now st p :
  map hier_fields (projects (process_one fs now st p)) = map hier_fields (projects st).
Proof.
  unfold process_one. destruct (analyze_project fs now p) as [info|] eqn:H.
  - destruct (analyze_fields _ _ _ _ H) as [H1 [_ [H2 [H3 [H4 _]]]]].
    simpl. apply update_first_fields; auto.
  - destruct (existsb _ _); reflexivity.
Qed.

Lemma process_one_frame fs now st p :
  background_queue (process_one fs now st p) = background_queue st
  /\ processing_in_background (process_one fs now st p) = processing_in_background st
  /\ hierarchical_projects (process_one fs now st p) = hierarchical_projects st
  /\ projects_dir (process_one fs now st p) = projects_dir st.
Proof.
  unfold process_one. destruct (analyze_project fs now p); [auto|].
  destruct (existsb _ _); auto.
Qed.

Lemma process_one_set_queue fs now q st p :
  process_one fs now (set_queue q st) p = set_queue q (process_one fs now st p).
Proof.
  unfold process_one. destruct (analyze_project fs now p); [reflexivity|].
  simpl. destruct (existsb _ _); reflexivity.
Qed.

Lemma fold_process_set_queue fs now q l :
  forall st, fold_left (process_one fs now) l (set_queue q st)
             = set_queue q (fold_left (process_one fs now) l st).
Proof.
  induction l as [|p l IH]; intros st; simpl; [reflexivity|].
  rewrite process_one_set_queue. apply IH.
Qed.

Lemma process_one_set_processing fs now b st p :
  process_one fs now (set_processing b st) p = set_processing b (process_one fs now st p).
Proof.
  unfold process_one. destruct (analyze_project fs now p); [reflexivity|].
  simpl. destruct (existsb _ _); reflexivity.
Qed.

Lemma fold_process_set_processing fs now b l :
  forall st, fold_left (process_one fs now) l (set_processing b st)
             = set_processing b (fold_left (process_one fs now) l st).
Proof.
  induction l as [|p l IH]; intros st; simpl; [reflexivity|].
  rewrite process_one_set_processing. apply IH.
Qed.

Lemma fold_process_frame fs now l :
  forall st,
    background_queue (fold_left (process_one fs now) l st) = background_queue st
    /\ processing_in_background (fold_left (process_one fs now) l st)
       = processing_in_background st.
Proof.
  induction l as [|p l IH]; intros st; simpl; [auto|].
  destruct (IH (process_one fs now st p)) as [-> ->].
  destruct (process_one_frame fs now st p) as [-> [-> _]]. auto.
Qed.

Lemma fold_process_fields fs now l :
  forall st, map hier_fields (projects (fold_left (process_one fs now) l st))
             = map hier_fields (projects st).
Proof.
  induction l as [|p l IH]; intros st; simpl; [reflexivity|].
  rewrite IH. apply process_one_fields.
Qed.

Lemma set_queue_twice q q' st : set_queue q (set_queue q' st) = set_queue q st.
Proof. reflexivity. Qed.

Lemma nonempty_length {A} (l : list A) : nonempty l = false <-> l = [].
Proof. destruct l; simpl; split; congruence. Qed.

(** The scheduled batches from a state in which a batch is due. *)
Lemma run_batches fs now fuel :
  forall st,
    processing_in_background st = true -> background_queue st <> [] ->
    (length (background_queue st) <= 2 * fuel + 2)%nat ->
    run_scheduled fs now fuel (process_background_batch fs now st)
    = set_processing false
        (set_queue [] (fold_left (process_one fs now) (background_queue st) st)).
Proof.
  induction fuel as [|fuel IH]; intros st Hp Hq Hlen.
  - unfold process_background_batch. rewrite Hp.
    destruct (background_queue st) as [|a [|b [|c q]]] eqn:E; try congruence;
      try (simpl in Hlen; lia);
      simpl; rewrite ?process_one_set_queue;
      repeat match goal with
             | |- context [background_queue (process_one ?f ?n ?s ?p)] =>
                 rewrite (proj1 (process_one_frame f n s p))
             end; simpl; reflexivity.
  - unfold process_background_batch at 1. rewrite Hp.
    destruct (nonempty (background_queue st)) eqn:Hne;
      [|apply nonempty_length in Hne; congruence].
    cbv beta iota zeta. simpl negb. cbv iota.
    rewrite fold_process_set_queue.
    set (done := fold_left (process_one fs now) (take batch_size (background_queue st)) st).
    destruct (fold_process_frame fs now (take batch_size (background_queue st)) st)
      as [Hq1 Hp1]. fold done in Hq1, Hp1.
    simpl background_queue.
    destruct (nonempty (drop batch_size (background_queue st))) eqn:Hrest.
    + simpl. rewrite IH.
      * simpl background_queue. rewrite fold_process_set_queue.
        unfold done. rewrite <- fold_left_app, take_drop. reflexivity.
      * simpl. rewrite Hp1. exact Hp.
      * simpl. intros E. rewrite E in Hrest. discriminate.
      * simpl. rewrite length_drop. unfold batch_size. lia.
    + apply nonempty_length in Hrest. simpl. rewrite Hrest.
      assert (E : take batch_size (background_queue st) = background_queue st).
      { rewrite <- (take_drop batch_size (background_queue st)) at 2.
        rewrite Hrest, app_nil_r. reflexivity. }
      unfold done. rewrite E. reflexivity.
Qed.

Lemma batches_run_the_whole_queue fs now st fuel :
  processing_in_background st = false ->
  (length (background_queue st) <= 2 * fuel + 2)%nat ->
  run_scheduled fs now fuel (start_background_processing fs now st)
  = set_processing false
      (set_queue [] (fold_left (process_one fs now) (background_queue st) st)).
Proof.
  intros Hp Hlen. unfold start_background_processing. rewrite Hp.
  destruct (nonempty (background_queue st)) eqn:Hne; simpl.
  - rewrite run_batches; [|reflexivity| |exact Hlen].
    + simpl background_queue. rewrite fold_process_set_processing. reflexivity.
    + simpl. intros E. rewrite E in Hne. discriminate.
  - apply nonempty_length in Hne. rewrite Hne. simpl.
    destruct fuel; simpl; destruct st; simpl in *; subst; reflexivity.
Qed.

(** X7.  Started on a manager that is not yet processing, the background
    batches run to completion analyse every queued project exactly once, in
    the order of the queue, two per batch: the project list and the cache they
    leave are those of [process_one] folded over the whole queue, the queue
    is empty and the processing flag is cleared. *)
Theorem background_processes_the_queue_in_order :
  forall (fs : node) (now : Z) (st : state) (fuel : nat),
    processing_in_background st = false ->
    (length (background_queue st) <= 2 * fuel + 2)%nat ->
    let st' := run_scheduled fs now fuel (start_background_processing fs now st) in
    let done := fold_left (process_one fs now) (background_queue st) st in
    background_queue st' = []
    /\ processing_in_background st' = false
    /\ projects st' = projects done
    /\ cache_file st' = cache_file done.
Proof.
  intros fs now st fuel Hp Hlen st' done.
  assert (E : st' = set_processing false (set_queue [] done))
    by (apply batches_run_the_whole_queue; assumption).
  rewrite E. repeat split.
Qed.

Lemma background_processes_the_queue_in_order_witness :
  background_queue
    (run_scheduled Sample.tree_plain 5000 0
       (start_background_processing Sample.tree_plain 5000 after_scan_plain)) = [].
Proof.
  refine (proj1 (background_processes_the_queue_in_order
                   Sample.tree_plain 5000 after_scan_plain 0 _ _)).
  - reflexivity.
  - vm_compute. lia.
Defined.

(** *** The records keep their place *)

Lemma batch_fields fs now st :
  map hier_fields (projects (fst (process_background_batch fs now st)))
  = map hier_fields (projects st).
Proof.
  unfold process_background_batch.
  destruct (negb (nonempty (background_queue st)) || negb (processing_in_background st));
    [reflexivity|].
  cbv beta iota zeta.
  assert (H : map hier_fields
                (projects (fold_left (process_one fs now)
                             (take batch_size (background_queue st))
                             (set_queue (drop batch_size (background_queue st)) st)))
              = map hier_fields (projects st)) by (rewrite fold_process_fields; reflexivity).
  destruct (nonempty _); simpl; exact H.
Qed.

Lemma run_fields fs now fuel :
  forall r, map hier_fields (projects (run_scheduled fs now fuel r))
            = map hier_fields (projects (fst r)).
Proof.
  induction fuel as [|fuel IH]; intros [st b]; simpl; [reflexivity|].
  destruct b; [|reflexivity]. rewrite IH. apply batch_fields.
Qed.

(** X8.  Background processing rewrites the records in place: however far
    the batches get, [self.projects] keeps its length and order, and every
    record keeps its [path], [parent], [depth] and [relative_path], so the
    tree view built from them does not change shape. *)
Theorem background_keeps_the_place_of_every_record :
  forall (fs : node) (now : Z) (st : state) (fuel : nat),
    map hier_fields
        (projects (run_scheduled fs now fuel (start_background_processing fs now st)))
    = map hier_fields (projects st).
Proof.
  intros fs now st fuel. rewrite run_fields. unfold start_background_processing.
  destruct (negb (processing_in_background st) && nonempty (background_queue st));
    [|reflexivity].
  rewrite batch_fields. reflexivity.
Qed.

(** *** The queued records are completed *)

Lemma paths_of_fields (l : list project_info) :
  map p_path l = map (fun x => fst (fst (fst x))) (map hier_fields l).
Proof. rewrite map_map. reflexivity. Qed.

Lemma update_first_In path info l r :
  NoDup (map p_path l) -> In r (update_first path info l) ->
  (In r l /\ p_path r <> path) \/ exists old, r = dict_update old info.
Proof.
  induction l as [|x l IH]; simpl; intros Hnd Hin; [destruct Hin|].
  apply NoDup_cons in Hnd as [Hx Hnd].
  destruct (String.eqb_spec (p_path x) path) as [E|Hne].
  - destruct Hin as [<-|Hin]; [right; eauto|].
    left. split; [now right|]. intros E'. apply Hx. rewrite E, <- E'.
    apply list_elem_of_In, in_map, Hin.
  - destruct Hin as [<-|Hin]; [left; auto|].
    destruct (IH Hnd Hin) as [[H1 H2]|H]; [left; auto|right; exact H].
Qed.

Lemma dict_update_full old info : fully_analysed info -> fully_analysed (dict_update old info).
Proof.
  intros [H1 [H2 [[f H3] H4]]]. unfold fully_analysed, dict_update. simpl.
  rewrite H3. eauto.
Qed.

Lemma fold_process_full fs now l :
  forall st done,
    NoDup (map p_path (projects st)) ->
    (forall q r, In q done -> dated fs q = true -> In r (projects st) ->
                 p_path r = Fs.str q -> fully_analysed r) ->
    forall q r, In q (done ++ l) -> dated fs q = true ->
                In r (projects (fold_left (process_one fs now) l st)) ->
                p_path r = Fs.str q -> fully_analysed r.
Proof.
  induction l as [|p l IH]; intros st done Hnd Hinv q r Hq He Hr Hp.
  - rewrite app_nil_r in Hq. simpl in Hr. eauto.
  - simpl in Hr. apply (IH (process_one fs now st p) (done ++ [p])) with (q := q); auto.
    + rewrite paths_of_fields, process_one_fields, <- paths_of_fields. exact Hnd.
    + clear q r Hq He Hr Hp. intros q r Hq He Hr Hp.
      unfold process_one in Hr.
      destruct (analyze_project fs now p) as [info|] eqn:Ha.
      * simpl in Hr. apply update_first_In in Hr; [|exact Hnd].
        destruct Hr as [[Hr Hne]|[old ->]].
        -- apply in_app_or in Hq as [Hq|[<-|[]]]; [eauto|]. congruence.
        -- apply dict_update_full. apply (analyze_fields _ _ _ _ Ha).
      * assert (Hr' : In r (projects st)) by (destruct (existsb _ _); exact Hr).
        apply in_app_or in Hq as [Hq|[<-|[]]]; [eauto|].
        apply analyze_dated in Ha. congruence.
    + rewrite <- app_assoc. exact Hq.
Qed.

(** X9.  When the paths of [self.projects] are distinct, background
    processing run to completion leaves fully analysed the record of every
    queued directory that still exists and whose modification time
    [fromtimestamp] accepts: its status is one of Active, Recent, Inactive
    and Stale, its health is between 0 and 100, and it has a list of
    frameworks and a modification date.  (For the others the analysis
    returns [None] and the record stays as the scan left it.) *)
Theorem background_completes_the_queued_records :
  forall (fs : node) (now : Z) (st : state) (fuel : nat) (q : Path) (r : project_info),
    processing_in_background st = false ->
    (length (background_queue st) <= 2 * fuel + 2)%nat ->
    NoDup (map p_path (projects st)) ->
    In q (background_queue st) -> dated fs q = true ->
    In r (projects (run_scheduled fs now fuel (start_background_processing fs now st))) ->
    p_path r = Fs.str q ->
    fully_analysed r.
Proof.
  intros fs now st fuel q r Hp Hlen Hnd Hq He Hr Hpath.
  rewrite batches_run_the_whole_queue in Hr by assumption.
  simpl in Hr.
  apply (fold_process_full fs now (background_queue st) st [] Hnd) with (q := q); auto.
  intros ? ? [].
Qed.

Lemma background_completes_the_queued_records_witness :
  fully_analysed
    (List.hd (_quick_analyze_project Sample.tree_plain [])
       (projects (run_scheduled Sample.tree_plain 5000 0
                    (start_background_processing Sample.tree_plain 5000 after_scan_plain)))).
Proof.
  apply (background_completes_the_queued_records Sample.tree_plain 5000 after_scan_plain 0
           ["work"; "proj"]).
  - reflexivity.
  - vm_compute. lia.
  - vm_compute. apply NoDup_singleton.
  - vm_compute. left. reflexivity.
  - reflexivity.
  - vm_compute. left. reflexivity.
  - vm_compute. reflexivity.
Defined.

(** X10.  The full analysis fails exactly for a path that it cannot date:
    one that does not exist, or whose modification time is outside the
    range that [fromtimestamp] accepts.  For every other path it returns a
    record named after the directory, with its path, a status among the
    four, a score from 0 to 100, a list of frameworks and a date, and
    without the [parent], [depth] and [relative_path] that the scan
    gives. *)
Theorem full_analysis_fails_only_without_a_date :
  forall (fs : node) (now : Z) (project_path : Path),
    (analyze_project fs now project_path = None
     <-> Fs.exists_ fs project_path = false
         \/ exists mtime, Fs.stat_mtime fs project_path = Some mtime
                          /\ ~ min_timestamp <= mtime <= max_timestamp)
    /\ forall info,
         analyze_project fs now project_path = Some info ->
         p_path info = Fs.str project_path /\ p_name info = Fs.name project_path
         /\ p_parent info = None /\ p_depth info = None /\ p_relative_path info = None
         /\ fully_analysed info.
Proof.
  intros fs now p. split.
  - rewrite analyze_dated. split.
    + intros H. unfold Fs.exists_. unfold Fs.stat_mtime.
      destruct (Fs.resolve fs p) as [n|] eqn:Hr; [right|left; reflexivity].
      exists (node_mtime n). split; [reflexivity|]. intros Hrange.
      assert (Hd : dated fs p = true).
      { apply dated_spec. exists (node_mtime n). unfold Fs.stat_mtime. rewrite Hr. auto. }
      congruence.
    + intros [H|[mtime [Hm Hrange]]].
      * unfold dated, Fs.stat_mtime, Fs.exists_ in *.
        destruct (Fs.resolve fs p); [discriminate|reflexivity].
      * destruct (dated fs p) eqn:Hd; [|reflexivity].
        apply dated_spec in Hd as [m [Hm' Hr]]. rewrite Hm in Hm'. injection Hm' as <-.
        contradiction.
  - intros info H.
    destruct (analyze_fields fs now p info H) as (H1 & H2 & H3 & H4 & H5 & _ & _ & _ & H9).
    auto 10.
Qed.

Lemma full_analysis_fails_only_without_a_date_witness :
  exists info,
    analyze_project Sample.tree_plain 5000 ["work"; "proj"] = Some info
    /\ p_path info = "/work/proj" /\ p_parent info = None.
Proof.
  destruct (analyze_project Sample.tree_plain 5000 ["work"; "proj"]) as [info|] eqn:E.
  - exists info. split; [reflexivity|].
    destruct (proj2 (full_analysis_fails_only_without_a_date
                       Sample.tree_plain 5000 ["work"; "proj"]) info E)
      as (H1 & _ & H3 & _).
    split; [exact H1|exact H3].
  - apply (proj1 (proj1 (full_analysis_fails_only_without_a_date
                           Sample.tree_plain 5000 ["work"; "proj"]))) in E.
    exfalso. destruct E as [E|[mtime [Hm Hr]]].
    + vm_compute in E. discriminate E.
    + vm_compute in Hm. injection Hm as <-. apply Hr. vm_compute. split; discriminate.
Defined.

(** A directory dated after the year 9999 exists and is not analysed. *)
Example analysis_of_a_directory_dated_too_late :
  analyze_project (Dir "" 0 [Dir "p" (max_timestamp + 1) []]) 0 ["p"] = None
  /\ Fs.exists_ (Dir "" 0 [Dir "p" (max_timestamp + 1) []]) ["p"] = true.
Proof. vm_compute. split; reflexivity. Qed.

(** ** Language and framework detection *)

Lemma mem_In (x : string) (l : list string) : Str.mem x l = true <-> In x l.
Proof.
  unfold Str.mem. rewrite existsb_exists. split.
  - intros [y [Hin Hy]]. apply String.eqb_eq in Hy. now subst.
  - intros Hin. exists x. split; [exact Hin|apply String.eqb_refl].
Qed.

Lemma mem_false (x : string) (l : list string) : Str.mem x l = false <-> ~ In x l.
Proof.
  rewrite <- mem_In. destruct (Str.mem x l); split; congruence.
Qed.

Lemma add_new_NoDup (x : string) (l : list string) : NoDup l -> NoDup (add_new x l).
Proof.
  intros H. unfold add_new. destruct (Str.mem x l) eqn:E; [exact H|].
  apply mem_false in E. apply NoDup_app. split; [exact H|]. split.
  - intros y Hy Hy'. apply list_elem_of_In in Hy. apply list_elem_of_In in Hy'.
    destruct Hy' as [<-|[]]. contradiction.
  - apply NoDup_singleton.
Qed.

Lemma fold_left_inv {A B} (P : A -> Prop) (f : A -> B -> A) (l : list B) :
  (forall a b, P a -> P (f a b)) -> forall a, P a -> P (fold_left f l a).
Proof. intros Hf. induction l as [|b l IH]; simpl; auto. Qed.

Lemma detect_file_NoDup languages file_path :
  NoDup languages -> NoDup (detect_file languages file_path).
Proof.
  intros H. unfold detect_file. apply fold_left_inv.
  - intros a [k v] Ha. destruct (_ || _); [apply add_new_NoDup|]; exact Ha.
  - destruct (dict_get _ _); [apply add_new_NoDup|]; exact H.
Qed.

Lemma filter_NoDup {A} (f : A -> bool) (l : list A) : NoDup l -> NoDup (List.filter f l).
Proof.
  induction 1 as [|x l Hx Hnd IH]; simpl; [constructor|].
  destruct (f x); [|exact IH]. constructor; [|exact IH].
  intros Hin. apply Hx. apply list_elem_of_In in Hin. apply filter_In in Hin as [Hin _].
  apply list_elem_of_In. exact Hin.
Qed.

Lemma insert_string_perm (x : string) (l : list string) : insert_string x l ≡ₚ x :: l.
Proof.
  induction l as [|y l IH]; simpl; [reflexivity|].
  destruct (String.ltb y x); [|reflexivity].
  rewrite IH. apply Permutation_swap.
Qed.

Lemma sorted_perm (l : list string) : sorted l ≡ₚ l.
Proof.
  induction l as [|x l IH]; simpl; [reflexivity|].
  unfold sorted in *. simpl. rewrite insert_string_perm, IH. reflexivity.
Qed.

Lemma insert_string_sorted (x : string) (l : list string) :
  StronglySorted String.le l -> StronglySorted String.le (insert_string x l).
Proof.
  induction 1 as [|y l Hs IH Hall]; simpl.
  - constructor; constructor.
  - destruct (String.ltb y x) eqn:E.
    + constructor; [exact IH|].
      rewrite insert_string_perm. constructor; [apply ltb_le, E|exact Hall].
    + apply not_ltb_le in E. constructor; [constructor; assumption|].
      constructor; [exact E|].
      eapply Forall_impl; [exact Hall|]. intros z Hz. etrans; eassumption.
Qed.

Lemma sorted_sorted (l : list string) : StronglySorted String.le (sorted l).
Proof.
  induction l as [|x l IH]; [constructor|]. apply insert_string_sorted, IH.
Qed.

Lemma sorted_In (x : string) (l : list string) : In x (sorted l) <-> In x l.
Proof.
  rewrite <- !list_elem_of_In. rewrite sorted_perm. reflexivity.
Qed.

Lemma detect_languages_NoDup fs p : NoDup (_detect_languages fs p).
Proof.
  unfold _detect_languages.
  set (found := fold_left _ (Fs.rglob_all fs p) []).
  assert (Hnd : NoDup found).
  { apply fold_left_inv; [|constructor].
    intros a b Ha. destruct (Fs.is_file fs b); [apply detect_file_NoDup|]; exact Ha. }
  destruct (nonempty _); rewrite sorted_perm; [apply filter_NoDup|]; exact Hnd.
Qed.

(** X11.  The list [_detect_languages] returns is in alphabetical order
    and names no language twice; and documentation and configuration
    languages are only reported when nothing else was found: if the list
    names one language outside [documentation_langs], it names none of
    them. *)
Theorem detected_languages_are_sorted_and_distinct :
  forall (fs : node) (project_path : Path),
    let languages := _detect_languages fs project_path in
    NoDup languages
    /\ StronglySorted String.le languages
    /\ ((exists lang, In lang languages /\ Str.mem lang documentation_langs = false) ->
        Forall (fun lang => Str.mem lang documentation_langs = false) languages).
Proof.
  intros fs p languages. subst languages. unfold _detect_languages.
  set (found := fold_left _ (Fs.rglob_all fs p) []).
  assert (Hnd : NoDup found).
  { apply fold_left_inv; [|constructor].
    intros a b Ha. destruct (Fs.is_file fs b); [apply detect_file_NoDup|]; exact Ha. }
  set (main := List.filter _ found).
  assert (Hmain : NoDup main) by (apply filter_NoDup; exact Hnd).
  destruct (nonempty main) eqn:Hne.
  - split; [rewrite sorted_perm; exact Hmain|]. split; [apply sorted_sorted|].
    intros _. apply List.Forall_forall. intros x Hx. apply (proj1 (sorted_In _ _)) in Hx. unfold main in Hx.
    apply filter_In in Hx as [_ Hx]. now apply negb_true_iff in Hx.
  - split; [rewrite sorted_perm; exact Hnd|]. split; [apply sorted_sorted|].
    intros [lang [Hin Hdoc]]. exfalso. apply (proj1 (sorted_In _ _)) in Hin.
    assert (Hm : In lang main).
    { apply filter_In. split; [exact Hin|]. rewrite Hdoc. reflexivity. }
    destruct main; [destruct Hm|discriminate].
Qed.

Lemma detected_languages_are_sorted_and_distinct_witness :
  Forall (fun lang => Str.mem lang documentation_langs = false)
         (_detect_languages Sample.tree_plain ["work"; "proj"]).
Proof.
  refine (proj2 (proj2 (detected_languages_are_sorted_and_distinct
                          Sample.tree_plain ["work"; "proj"])) _).
  exists "python". split; [vm_compute; left; reflexivity|reflexivity].
Defined.

(** *** The primary language *)

Lemma ltb_irrefl (a : string) : String.ltb a a = false.
Proof.
  unfold String.ltb. destruct (String.compare a a) eqn:E; try reflexivity.
  pose proof (String.compare_antisym a a) as H. rewrite E in H. discriminate.
Qed.

Lemma ltb_trans (a b c : string) :
  String.ltb a b = true -> String.ltb b c = true -> String.ltb a c = true.
Proof.
  intros Hab Hbc.
  assert (Hle : String.le a c) by (etrans; apply ltb_le; eassumption).
  destruct (String.ltb a c) eqn:E; [reflexivity|].
  apply not_ltb_le in E.
  assert (a = c) by (apply (anti_symm String.le); assumption). subst c.
  assert (String.le b a) by (apply ltb_le; exact Hbc).
  assert (a = b) by (apply (anti_symm String.le); [apply ltb_le|]; assumption). subst b.
  rewrite ltb_irrefl in Hab. discriminate.
Qed.

Lemma tuple_ltb_irrefl (a : Z * string) : tuple_ltb a a = false.
Proof.
  unfold tuple_ltb. rewrite Z.ltb_irrefl, ltb_irrefl, andb_false_r. reflexivity.
Qed.

Lemma tuple_ltb_trans (a b c : Z * string) :
  tuple_ltb a b = true -> tuple_ltb b c = true -> tuple_ltb a c = true.
Proof.
  unfold tuple_ltb. intros Hab Hbc.
  apply orb_true_iff in Hab. apply orb_true_iff in Hbc. apply orb_true_iff.
  destruct Hab as [Hab|Hab], Hbc as [Hbc|Hbc];
    rewrite ?andb_true_iff, ?Z.ltb_lt, ?Z.eqb_eq in *.
  - left. lia.
  - left. lia.
  - left. lia.
  - right. destruct Hab as [E1 L1], Hbc as [E2 L2]. split; [lia|].
    eapply ltb_trans; eassumption.
Qed.

Lemma greatest_from (l : list (Z * string)) :
  forall seen m,
    In m seen -> (forall y, In y seen -> tuple_ltb m y = false) ->
    exists m', fold_left (fun best x =>
                            match best with
                            | Some b => if tuple_ltb b x then Some x else Some b
                            | None => Some x
                            end) l (Some m) = Some m'
               /\ In m' (seen ++ l)
               /\ forall y, In y (seen ++ l) -> tuple_ltb m' y = false.
Proof.
  induction l as [|x l IH]; intros seen m Hm Hmax; simpl.
  - exists m. rewrite app_nil_r. auto.
  - destruct (tuple_ltb m x) eqn:E.
    + destruct (IH (seen ++ [x]) x) as [m' [H1 [H2 H3]]].
      * apply in_or_app. right. now left.
      * intros y Hy. apply in_app_or in Hy as [Hy|[<-|[]]]; [|apply tuple_ltb_irrefl].
        destruct (tuple_ltb x y) eqn:E'; [|reflexivity].
        rewrite <- (Hmax y Hy). symmetry. eapply tuple_ltb_trans; eassumption.
      * exists m'. rewrite <- app_assoc in H2, H3. auto.
    + destruct (IH (seen ++ [x]) m) as [m' [H1 [H2 H3]]].
      * apply in_or_app. now left.
      * intros y Hy. apply in_app_or in Hy as [Hy|[<-|[]]]; auto.
      * exists m'. rewrite <- app_assoc in H2, H3. auto.
Qed.

Lemma greatest_spec (l : list (Z * string)) :
  l <> [] ->
  exists m, greatest l = Some m /\ In m l /\ forall y, In y l -> tuple_ltb m y = false.
Proof.
  destruct l as [|x l]; [congruence|]. intros _. unfold greatest. simpl.
  destruct (greatest_from l [x] x) as [m [H1 [H2 H3]]].
  - now left.
  - intros y [<-|[]]. apply tuple_ltb_irrefl.
  - exists m. auto.
Qed.

(** X12.  The primary language of a project with detected languages is
    always one of them.  When no manifest of [framework_indicators] that
    exists names a detected language, it is a language of the highest
    priority, and among those the last in alphabetical order. *)
Theorem primary_language_is_a_detected_language :
  forall (fs : node) (languages : list string) (project_path : Path),
    languages <> [] ->
    let primary := _determine_primary_language fs languages project_path in
    In primary languages
    /\ ((forall file_name lang,
            In (file_name, lang) framework_indicators ->
            Fs.exists_ fs (project_path // file_name) = true -> ~ In lang languages) ->
        forall lang, In lang languages ->
          priority_of lang < priority_of primary
          \/ (priority_of lang = priority_of primary /\ String.le lang primary)).
Proof.
  intros fs languages p Hne primary. subst primary. unfold _determine_primary_language.
  set (scored := map (fun lang => (default 1 (dict_get lang language_priority), lang)) languages).
  assert (Hs : scored <> []) by (destruct languages; [congruence|discriminate]).
  destruct (greatest_spec scored Hs) as [[pm m] [Hg [Hin Hmax]]].
  apply in_map_iff in Hin as [m0 [Hm0 Hin]].
  apply pair_equal_spec in Hm0 as [Hpm ->]. fold (priority_of m) in Hpm.
  destruct (find _ framework_indicators) as [[file lang]|] eqn:Hf.
  - apply find_some in Hf as [Hin' Hf]. apply andb_true_iff in Hf as [He Hmem].
    split; [apply mem_In; exact Hmem|].
    intros Hno. exfalso. apply (Hno file lang Hin' He). apply mem_In. exact Hmem.
  - rewrite Hg. split; [exact Hin|].
    intros _ lang Hlang.
    specialize (Hmax (priority_of lang, lang)).
    assert (Hl : In (priority_of lang, lang) scored).
    { apply in_map_iff. exists lang. auto. }
    specialize (Hmax Hl). unfold tuple_ltb in Hmax. simpl in Hmax.
    apply orb_false_iff in Hmax as [H1 H2]. apply Z.ltb_ge in H1.
    rewrite Hpm.
    destruct (Z.eqb_spec pm (priority_of lang)) as [E|Hneq].
    + right. split; [congruence|]. simpl in H2. apply not_ltb_le. exact H2.
    + left. lia.
Qed.

Lemma primary_language_is_a_detected_language_witness :
  In (_determine_primary_language Sample.tree_plain ["javascript"; "typescript"]
        ["work"; "proj"])
     ["javascript"; "typescript"].
Proof.
  refine (proj1 (primary_language_is_a_detected_language
                   Sample.tree_plain ["javascript"; "typescript"] ["work"; "proj"] _)).
  discriminate.
Defined.

Example primary_language_of_a_tie :
  _determine_primary_language Sample.tree_plain ["javascript"; "typescript"] ["work"; "proj"]
  = "typescript".
Proof. vm_compute. reflexivity. Qed.

(** *** Projects in several languages *)

Lemma prefix_app (s r : string) : String.prefix s (s +:+ r) = true.
Proof.
  induction s as [|a s IH]; simpl; [destruct r; reflexivity|].
  destruct (ascii_dec a a); [exact IH|congruence].
Qed.

Lemma contains_unfold (sub s : string) :
  Str.contains sub s
  = String.prefix sub s
    || match s with EmptyString => false | String _ s' => Str.contains sub s' end.
Proof. destruct s; reflexivity. Qed.

Lemma contains_prefix (sub s : string) : String.prefix sub s = true -> Str.contains sub s = true.
Proof. intros H. rewrite contains_unfold, H. reflexivity. Qed.

Lemma contains_app (sub a r : string) : Str.contains sub (a +:+ sub +:+ r) = true.
Proof.
  induction a as [|c a IH].
  - change (Str.contains sub (sub +:+ r) = true). apply contains_prefix, prefix_app.
  - change (Str.contains sub (String c (a +:+ sub +:+ r)) = true).
    rewrite contains_unfold, IH. apply orb_true_r.
Qed.

Lemma join_contains_separator (sep : string) (l : list string) :
  (1 < length l)%nat -> Str.contains sep (Str.join sep l) = true.
Proof.
  destruct l as [|a [|b l]]; simpl; try lia. intros _.
  apply contains_app.
Qed.

Lemma joined_languages_not_javascript (l : list string) :
  (1 < length l)%nat -> Str.mem (Str.join ", " l) ["javascript"; "typescript"] = false.
Proof.
  intros H. apply join_contains_separator with (sep := ", ") in H.
  apply mem_false. intros [E|[E|[]]]; rewrite <- E in H; vm_compute in H; discriminate.
Qed.

Lemma files_to_check_types :
  forallb (fun '(_, (ty, _, _)) => negb (String.eqb ty "multi-language")) files_to_check = true.
Proof. vm_compute. reflexivity. Qed.

Lemma detect_single fs p :
  (length (_detect_languages fs p) <= 1)%nat ->
  fst (fst (detect_project_type fs p)) <> "multi-language".
Proof.
  intros H. unfold detect_project_type.
  destruct (Nat.ltb_spec 1 (length (_detect_languages fs p))) as [Hlt|_]; [lia|].
  destruct (nonempty (Fs.glob fs p pat_sh)).
  { destruct (_ || _); simpl; discriminate. }
  destruct (existsb _ _); [simpl; discriminate|].
  destruct (find _ files_to_check) as [[k [[ty la] fr]]|] eqn:Hf.
  - apply find_some in Hf as [Hin _].
    pose proof (proj1 (forallb_forall _ _) files_to_check_types _ Hin) as Hk.
    simpl in Hk. apply negb_true_iff, String.eqb_neq in Hk. exact Hk.
  - destruct (Fs.exists_ fs (p // "src")); simpl; discriminate.
Qed.

(** The type, language and framework of a record of full analysis. *)
Lemma analyze_type fs now p info :
  analyze_project fs now p = Some info ->
  let '(ty, la, fr) := detect_project_type fs p in
  p_language info = la
  /\ (p_type info = ty /\ p_framework info = fr
      \/ (Str.mem la ["javascript"; "typescript"] = true
          /\ In (p_type info) ["fullstack"; "frontend"; "backend"; ty])).
Proof.
  intros H. unfold analyze_project in H.
  destruct (detect_project_type fs p) as [[ty la] fr].
  cbv beta iota zeta in H.
  set (h := calculate_health_score fs now p la) in H. clearbody h.
  set (sz := get_directory_size fs p) in *.
  unfold get_project_status in H.
  destruct (stat_time_cases fs p) as [E|[mtime [_ [_ E]]]]; rewrite !E in H.
  { destruct (nonempty (_detect_js_frameworks fs p) && Str.mem la ["javascript"; "typescript"]);
      discriminate H. }
  destruct (nonempty (_detect_js_frameworks fs p));
    destruct (Str.mem la ["javascript"; "typescript"]) eqn:Hjs;
    cbv beta iota zeta delta [mbind option_bind andb] in H;
    apply Some_eq in H; subst info; cbn [p_type p_language p_framework];
    (split; [reflexivity|]); try (left; split; reflexivity).
  right. split; [reflexivity|].
  destruct (Str.mem _ ["nextjs"; "nuxt"; "gatsby"; "remix"; "astro"]); [simpl; auto|].
  destruct (Str.mem _ ["react"; "vue"; "angular"; "svelte"]); [simpl; auto|].
  destruct (Str.mem _ ["express"; "nestjs"; "fastify"; "koa"]); simpl; auto.
Qed.

(** X13.  Full analysis types a directory as [multi-language] exactly when
    more than one language is detected in it.  Its language is then the
    detected languages joined with commas and its framework the primary
    language in the form [mixed (...)]; the JavaScript frameworks found in
    [package.json] never replace them. *)
Theorem multi_language_projects_keep_their_type :
  forall (fs : node) (now : Z) (project_path : Path) (info : project_info),
    analyze_project fs now project_path = Some info ->
    let languages := _detect_languages fs project_path in
    ((1 < length languages)%nat ->
       p_type info = "multi-language"
       /\ p_language info = Str.join ", " languages
       /\ p_framework info
          = "mixed (" +:+ _determine_primary_language fs languages project_path +:+ ")")
    /\ ((length languages <= 1)%nat -> p_type info <> "multi-language").
Proof.
  intros fs now p info H languages. subst languages.
  pose proof (analyze_type _ _ _ _ H) as Ht.
  split.
  - intros Hlt. unfold detect_project_type in Ht.
    apply Nat.ltb_lt in Hlt. rewrite Hlt in Ht. apply Nat.ltb_lt in Hlt.
    destruct Ht as [Hla [[Hty Hfr]|[Hjs _]]]; [auto|].
    rewrite joined_languages_not_javascript in Hjs by exact Hlt. discriminate.
  - intros Hle. pose proof (detect_single fs p Hle) as Hty.
    destruct (detect_project_type fs p) as [[ty la] fr]. simpl in Hty.
    destruct Ht as [_ [[-> _]|[_ Hin]]]; [exact Hty|].
    simpl in Hin. intros E. rewrite E in Hin.
    destruct Hin as [Hin|[Hin|[Hin|[Hin|[]]]]]; try discriminate. congruence.
Qed.

Lemma multi_language_projects_keep_their_type_witness :
  (length (_detect_languages Sample.tree_plain ["work"; "proj"]) <= 1)%nat
  /\ p_type (default (_quick_analyze_project Sample.tree_plain ["work"; "proj"])
                     (analyze_project Sample.tree_plain 5000 ["work"; "proj"]))
     <> "multi-language".
Proof.
  assert (H : (length (_detect_languages Sample.tree_plain ["work"; "proj"]) <= 1)%nat)
    by (vm_compute; lia).
  split; [exact H|].
  refine (proj2 (multi_language_projects_keep_their_type Sample.tree_plain 5000
                   ["work"; "proj"] _ _) H).
  vm_compute. reflexivity.
Defined.

(** ** Health scores *)

(** *** The language checks *)

Ltac split_ifs :=
  repeat match goal with
         | |- context [if ?c then _ else _] => destruct c
         | |- context [match ?c with Some _ => _ | None => _ end] => destruct c
         end.

Lemma python_health_range fs p : 0 <= _check_python_health fs p <= 5.
Proof. unfold _check_python_health. split_ifs; lia. Qed.

Lemma package_json_points_range d : 0 <= package_json_points d <= 3.
Proof.
  unfold package_json_points.
  destruct (json_in "scripts" d) as [[|]|]; [| |lia].
  - destruct (json_item "scripts" d) as [s|]; simpl; [|lia].
    destruct (json_len s) as [n|]; simpl; [|lia].
    destruct (0 <? n)%nat; destruct (json_in "devDependencies" d) as [[|]|]; lia.
  - destruct (json_in "devDependencies" d) as [[|]|]; lia.
Qed.

Lemma javascript_health_range fs p : 0 <= _check_javascript_health fs p <= 4.
Proof.
  unfold _check_javascript_health.
  destruct (Fs.exists_ fs (p // "package.json")); [destruct (Fs.json_load _ _) as [d|]|];
    try pose proof (package_json_points_range d);
    destruct (Fs.exists_ fs (p // "node_modules")); lia.
Qed.

Lemma rust_health_range fs p : 0 <= _check_rust_health fs p <= 4.
Proof. unfold _check_rust_health. split_ifs; lia. Qed.

Lemma go_health_range fs p : 0 <= _check_go_health fs p <= 3.
Proof. unfold _check_go_health. split_ifs; lia. Qed.

Lemma java_health_range fs p : 0 <= _check_java_health fs p <= 3.
Proof. unfold _check_java_health. split_ifs; lia. Qed.

Lemma bash_health_range fs p : 0 <= _check_bash_health fs p <= 11.
Proof. unfold _check_bash_health. split_ifs; lia. Qed.

Lemma language_health_range fs p lang : 0 <= language_health fs p lang <= 11.
Proof.
  unfold language_health.
  pose proof (python_health_range fs p). pose proof (javascript_health_range fs p).
  pose proof (rust_health_range fs p). pose proof (go_health_range fs p).
  pose proof (java_health_range fs p). pose proof (bash_health_range fs p).
  split_ifs; lia.
Qed.

(** X14.  The language checks only add points: each returns a number
    between 0 and the sum of its bonuses, 5 for Python, 4 for JavaScript and
    Rust, 3 for Go and Java, 11 for Bash, whatever the directory holds; a
    [package.json] that is not a dictionary, or whose [scripts] has no
    length, adds nothing. *)
Theorem language_checks_only_add_points :
  forall (fs : node) (project_path : Path),
    0 <= _check_python_health fs project_path <= 5
    /\ 0 <= _check_javascript_health fs project_path <= 4
    /\ 0 <= _check_rust_health fs project_path <= 4
    /\ 0 <= _check_go_health fs project_path <= 3
    /\ 0 <= _check_java_health fs project_path <= 3
    /\ 0 <= _check_bash_health fs project_path <= 11.
Proof.
  intros fs p.
  pose proof (python_health_range fs p). pose proof (javascript_health_range fs p).
  pose proof (rust_health_range fs p). pose proof (go_health_range fs p).
  pose proof (java_health_range fs p). pose proof (bash_health_range fs p).
  repeat split; lia.
Qed.

(** *** The scorer of the command line tool *)

(** X15.  The health score of the command line tool is 100 minus 10, 5,
    15, 5 and 10 for a missing README.md, a missing .gitignore, no test
    directory, no documentation directory and a file over 10 MB: it is a
    multiple of 5 between 55 and 100, does not depend on the language, and
    is 100 exactly when none of the five applies. *)
Theorem cli_health_score_values :
  forall (fs : node) (project_path : Path) (language : string),
    let score := CLI.calculate_health_score fs project_path language in
    55 <= score <= 100
    /\ score mod 5 = 0
    /\ score = CLI.calculate_health_score fs project_path ""
    /\ (score = 100 <->
        Fs.exists_ fs (project_path // "README.md") = true
        /\ Fs.exists_ fs (project_path // ".gitignore") = true
        /\ Fs.any_exists fs project_path ["tests"; "test"; "__tests__"; "spec"] = true
        /\ Fs.any_exists fs project_path ["docs"; "documentation"; "doc"] = true
        /\ List.filter (fun file_path =>
                          Fs.is_file fs file_path
                          && (10 * 1024 * 1024 <? Fs.stat_size fs file_path))
                       (Fs.rglob_all fs project_path) = []).
Proof.
  intros fs p language score. subst score. unfold CLI.calculate_health_score.
  destruct (Fs.exists_ fs (p // "README.md")), (Fs.exists_ fs (p // ".gitignore")),
    (Fs.any_exists fs p ["tests"; "test"; "__tests__"; "spec"]),
    (Fs.any_exists fs p ["docs"; "documentation"; "doc"]),
    (List.filter _ (Fs.rglob_all fs p)) as [|big rest];
    cbn [negb nonempty];
    (split; [lia|]); (split; [reflexivity|]); (split; [reflexivity|]);
    (split; [intros H; try (exfalso; lia); repeat split; reflexivity
            |intros [? [? [? [? ?]]]]; try discriminate; reflexivity]).
Qed.

(** *** A lower bound of the score

    The scorer is a chain of [let]s.  The first ones are brought in front
    of the inequality in one step, the others one at a time; each value is
    then replaced by what the proof needs to know of it. *)
Ltac float_lets n k t :=
  lazymatch n with
  | O => constr:(k <= t)
  | S ?m =>
      lazymatch t with
      | (let x := ?a in @?f x) =>
          constr:(let x := a in
                  ltac:(let b := eval cbv beta in (f x) in
                        let r := float_lets m k b in exact r))
      | _ => constr:(k <= t)
      end
  end.

Ltac hl0 v := intro v.

Ltac hl v :=
  lazymatch goal with
  | |- ?k <= (let x := ?a in @?f x) =>
      change_no_check (let x := a in k <= f x); intro v; cbv beta
  end.


Ltac lower v lo :=
  assert (lo <= v)
    by (unfold v; cbv beta iota zeta;
        repeat match goal with
               | |- context [if ?c then _ else _] => destruct c
               end; lia);
  clearbody v.

Lemma fold_health_ge (g : string -> Z) (l : list string) :
  (forall x, 0 <= g x) -> forall s, s <= fold_left (fun score lang => score + g lang / 2) l s.
Proof.
  intros Hg. induction l as [|x l IH]; intros s; simpl; [lia|].
  specialize (IH (s + g x / 2)). pose proof (Z.div_pos (g x) 2 (Hg x)). lia.
Qed.

Lemma missing_deps_le fs p (l : list string) :
  NoDup l ->
  (length (List.filter (fun lang => match has_dep_file fs p lang with
                                    | Some false => true
                                    | _ => false
                                    end) l) <= 6)%nat.
Proof.
  intros Hnd.
  set (miss := List.filter _ l).
  assert (Hsub : miss ⊆+ map fst dep_files).
  { apply NoDup_submseteq; [apply filter_NoDup; exact Hnd|].
    intros x Hx. apply list_elem_of_In in Hx. apply filter_In in Hx as [_ Hx].
    unfold has_dep_file in Hx.
    destruct (dict_get x dep_files) as [v|] eqn:E; [|discriminate].
    clear Hx. apply list_elem_of_In.
    revert E. generalize dep_files. intros d. induction d as [|[k w] d IH]; simpl; [discriminate|].
    destruct (String.eqb_spec k x) as [->|_]; [now left|]. intros E. right. auto. }
  apply submseteq_length in Hsub. exact Hsub.
Qed.

Lemma raw_health_lower fs now p language :
  38 <= raw_health_score fs now p language
  /\ ((length (_detect_languages fs p) <= 1)%nat -> 49 <= raw_health_score fs now p language).
Proof.
  assert (Hgoal : forall k, (k = 38 \/ (k = 49 /\ (length (_detect_languages fs p) <= 1)%nat)) ->
                            k <= raw_health_score fs now p language).
  2:{ split; [apply Hgoal; auto|intros; apply Hgoal; auto]. }
  intros k Hk.
  lazymatch goal with
  | |- ?k <= ?r =>
      let t := eval cbv delta [raw_health_score] in r in
      let t := eval cbv beta in t in
      let g := float_lets 16%nat k t in
      change_no_check g
  end.
  hl0 s0. assert (Hs0 : s0 = 100) by reflexivity. clearbody s0.
  hl0 languages. assert (Hnd : NoDup languages) by apply detect_languages_NoDup.
  assert (Hlen : k = 38 \/ (k = 49 /\ (length languages <= 1)%nat)) by exact Hk.
  clear Hk. clearbody languages.
  hl0 multi.
  assert (Hm : multi = true -> k = 38).
  { unfold multi. intros H. apply Nat.ltb_lt in H. lia. }
  clearbody multi.
  hl0 s1. lower s1 (s0 - 10).
  hl0 s2. lower s2 (s1 - 5).
  hl0 has_tests. clearbody has_tests.
  hl0 has_test_files. assert (Htf : has_test_files = true) by reflexivity. clearbody has_test_files.
  hl0 s3. assert (Hs3 : s2 <= s3) by (unfold s3; rewrite Htf, andb_false_r; lia). clearbody s3.
  hl0 has_docs. clearbody has_docs.
  hl0 has_doc_files. clearbody has_doc_files.
  hl0 s4. lower s4 (s3 - 5).
  hl0 s5. lower s5 (s4 - 10).
  hl0 has_security. clearbody has_security.
  hl0 s6. lower s6 (s5 - 3).
  hl0 has_secrets. clearbody has_secrets.
  hl0 s7. lower s7 (s6 - 5).
  hl s8.
  assert (Hs8 : s7 <= s8 /\ (multi = true -> s7 + 5 <= s8)).
  { unfold s8. cbv beta iota zeta. destruct multi; [destruct (_check_cross_language_integration _ _ _)|];
      split; intros; try lia; discriminate. }
  clearbody s8.
  hl s9.
  assert (Hs9 : s8 <= s9).
  { unfold s9. destruct multi.
    - apply fold_health_ge. intros x. apply language_health_range.
    - pose proof (language_health_range fs p language). lia. }
  clearbody s9.
  hl s10.
  assert (Hs10 : s9 - 24 <= s10 /\ (multi = false -> s9 - 8 <= s10)).
  { unfold s10. cbv beta iota zeta. destruct multi.
    - pose proof (missing_deps_le fs p languages Hnd) as Hmiss.
      destruct (0 <? _)%nat; split; intros; try discriminate; lia.
    - destruct (has_dep_file fs p language) as [[|]|]; split; intros; lia. }
  clearbody s10.
  hl has_config. clearbody has_config.
  hl s11. lower s11 s10.
  hl has_linting. clearbody has_linting.
  hl s12. lower s12 s11.
  hl has_ci. clearbody has_ci.
  hl s13. lower s13 s12.
  hl has_src. clearbody has_src.
  hl s14. lower s14 s13.
  hl has_build. clearbody has_build.
  hl s15. lower s15 s14.
  hl recent_files. clearbody recent_files.
  hl s16. lower s16 s15.
  hl total_files. clearbody total_files.
  destruct multi.
  - specialize (Hm eq_refl). destruct Hs8 as [_ Hs8]. specialize (Hs8 eq_refl).
    destruct Hs10 as [Hs10 _].
    repeat match goal with |- context [if ?c then _ else _] => destruct c end; lia.
  - destruct Hs10 as [_ Hs10]. specialize (Hs10 eq_refl).
    repeat match goal with |- context [if ?c then _ else _] => destruct c end; lia.
Qed.

(** X16.  The health score of the GUI never falls below 38, and not below
    49 when at most one language is detected: the glob objects tested for
    test files are always true, so the penalty for missing tests is never
    applied, and the other penalties add up to 43 and to 8 or 24 for missing
    dependency files. *)
Theorem gui_health_score_is_at_least_38 :
  forall (fs : node) (now : Z) (project_path : Path) (language : string),
    38 <= calculate_health_score fs now project_path language <= 100
    /\ ((length (_detect_languages fs project_path) <= 1)%nat ->
        49 <= calculate_health_score fs now project_path language).
Proof.
  intros fs now p language.
  destruct (raw_health_lower fs now p language) as [H38 H49].
  unfold calculate_health_score. split; [lia|].
  intros H. specialize (H49 H). lia.
Qed.

Lemma gui_health_score_is_at_least_38_witness :
  38 <= calculate_health_score Sample.tree_plain 5000 ["work"; "proj"] "python" <= 100
  /\ 49 <= calculate_health_score Sample.tree_plain 5000 ["work"; "proj"] "python".
Proof.
  split.
  - apply (proj1 (gui_health_score_is_at_least_38 Sample.tree_plain 5000
                    ["work"; "proj"] "python")).
  - refine (proj2 (gui_health_score_is_at_least_38 Sample.tree_plain 5000
                     ["work"; "proj"] "python") _).
    vm_compute. lia.
Defined.

(** ** Parent detection *)

Lemma app_neq_shorter (base cur : Path) (c : string) (q : Path) :
  (length q <= length base)%nat -> base ++ cur ++ [c] <> q.
Proof.
  intros Hlen E. apply (f_equal (@length string)) in E.
  rewrite !length_app in E. simpl in E. lia.
Qed.

Lemma removelast_length {A} (l : list A) : (length (removelast l) <= length l)%nat.
Proof. induction l as [|x [|y l] IH]; simpl in *; lia. Qed.

Lemma walk_up_below fs base :
  forall (cur : Path) (fuel : nat),
    (length cur < fuel)%nat ->
    exists result,
      walk_up fs fuel (base ++ cur) base = Some result
      /\ match result with
         | None =>
             forall k, (0 < k <= length cur)%nat ->
                       _is_likely_project_directory fs (base ++ take k cur) = false
         | Some s =>
             exists k, (0 < k <= length cur)%nat
                       /\ s = Fs.str (base ++ take k cur)
                       /\ _is_likely_project_directory fs (base ++ take k cur) = true
                       /\ forall j, (k < j <= length cur)%nat ->
                                    _is_likely_project_directory fs (base ++ take j cur) = false
         end.
Proof.
  induction cur as [|c cur IH] using rev_ind; intros fuel Hfuel.
  - destruct fuel as [|fuel]; [simpl in Hfuel; lia|]. simpl.
    rewrite app_nil_r, path_eqb_refl. simpl. exists None. split; [reflexivity|].
    intros k Hk. simpl in Hk. lia.
  - rewrite length_app in Hfuel. simpl in Hfuel.
    destruct fuel as [|fuel]; [lia|]. simpl.
    unfold Fs.path_eqb.
    rewrite (bool_decide_eq_false_2 (base ++ cur ++ [c] = base))
      by (apply app_neq_shorter; lia).
    rewrite (bool_decide_eq_false_2 (base ++ cur ++ [c] = Fs.parent base))
      by (apply app_neq_shorter; apply removelast_length).
    simpl.
    assert (Hfull : take (length (cur ++ [c])) (cur ++ [c]) = cur ++ [c]) by apply firstn_all.
    destruct (_is_likely_project_directory fs (base ++ cur ++ [c])) eqn:Hlik.
    + exists (Some (Fs.str (base ++ cur ++ [c]))). split; [reflexivity|].
      exists (length (cur ++ [c])). rewrite Hfull, length_app. simpl.
      repeat split; auto; try lia.
    + assert (Hpar : Fs.parent (base ++ cur ++ [c]) = base ++ cur).
      { unfold Fs.parent. rewrite app_assoc. apply removelast_last. }
      rewrite Hpar. destruct (IH fuel) as [result [Hw Hres]]; [lia|].
      exists result. split; [exact Hw|].
      assert (Htake : forall k, (k <= length cur)%nat -> take k (cur ++ [c]) = take k cur).
      { intros k Hk. rewrite take_app_le by exact Hk. reflexivity. }
      rewrite length_app. simpl.
      destruct result as [s|].
      * destruct Hres as [k [Hk [Hs [Hl Hafter]]]].
        exists k. rewrite Htake by lia. repeat split; auto; try lia.
        intros j Hj. destruct (Nat.eq_dec j (length cur + 1)%nat) as [->|Hne].
        -- rewrite <- (length_app cur [c]) at 1. rewrite Hfull. exact Hlik.
        -- rewrite Htake by lia. apply Hafter. lia.
      * intros k Hk. destruct (Nat.eq_dec k (length cur + 1)%nat) as [->|Hne].
        -- rewrite <- (length_app cur [c]) at 1. rewrite Hfull. exact Hlik.
        -- rewrite Htake by lia. apply Hres. lia.
Qed.

(** X17.  For a project inside [base_path], [_detect_parent_project]
    returns: with an explicit parent it gives the path of that parent; without
    one it gives the nearest directory strictly between [base_path] and the
    project that passes the project test, and [None] when there is none, as
    for every direct child of [base_path]. *)
Theorem parent_is_the_nearest_enclosing_project :
  forall (fs : node) (base_path : Path) (rel : Path) (c : string),
    (forall explicit,
        _detect_parent_project fs (base_path ++ rel ++ [c]) base_path (Some explicit)
        = Some (Some (Fs.str explicit)))
    /\ exists result,
         _detect_parent_project fs (base_path ++ rel ++ [c]) base_path None = Some result
         /\ match result with
            | None =>
                forall k, (0 < k <= length rel)%nat ->
                          _is_likely_project_directory fs (base_path ++ take k rel) = false
            | Some s =>
                exists k, (0 < k <= length rel)%nat
                          /\ s = Fs.str (base_path ++ take k rel)
                          /\ _is_likely_project_directory fs (base_path ++ take k rel) = true
                          /\ forall j, (k < j <= length rel)%nat ->
                               _is_likely_project_directory fs (base_path ++ take j rel) = false
            end.
Proof.
  intros fs base rel c. split; [reflexivity|].
  unfold _detect_parent_project.
  assert (Hpar : Fs.parent (base ++ rel ++ [c]) = base ++ rel).
  { unfold Fs.parent. rewrite app_assoc. apply removelast_last. }
  rewrite Hpar. apply walk_up_below. rewrite length_app. lia.
Qed.

(** X18.  Outside [base_path] the loop of [_detect_parent_project] can fail
    to end: when no directory from the parent of the project up to the root
    is [base_path], the parent of [base_path] or a project, no number of
    iterations gives a result, because the parent of the root is the
    root. *)
Theorem parent_detection_never_returns_outside_base :
  forall (fs : node) (project_path base_path : Path),
    (forall k, let a := take k (Fs.parent project_path) in
               a <> base_path /\ a <> Fs.parent base_path
               /\ _is_likely_project_directory fs a = false) ->
    (forall fuel, walk_up fs fuel (Fs.parent project_path) base_path = None)
    /\ _detect_parent_project fs project_path base_path None = None.
Proof.
  intros fs project base H.
  assert (Hall : forall fuel cur,
             (forall k, take k cur <> base /\ take k cur <> Fs.parent base
                        /\ _is_likely_project_directory fs (take k cur) = false) ->
             walk_up fs fuel cur base = None).
  { induction fuel as [|fuel IH]; intros cur Hc; simpl; [reflexivity|].
    destruct (Hc (length cur)) as [H1 [H2 H3]]. rewrite firstn_all in H1, H2, H3.
    unfold Fs.path_eqb. rewrite !bool_decide_eq_false_2 by assumption. simpl.
    rewrite H3. apply IH. intros k. unfold Fs.parent.
    assert (E : take k (removelast cur) = take (Nat.min k (Nat.pred (length cur))) cur).
    { rewrite removelast_firstn_len, take_take. reflexivity. }
    rewrite E. apply Hc. }
  split; [intros fuel; apply Hall; exact H|].
  unfold _detect_parent_project. apply Hall. exact H.
Qed.

Lemma parent_detection_never_returns_outside_base_witness :
  _detect_parent_project Sample.tree_plain ["other"; "proj"] ["work"; "proj"] None = None.
Proof.
  refine (proj2 (parent_detection_never_returns_outside_base
                   Sample.tree_plain ["other"; "proj"] ["work"; "proj"] _)).
  intros [|[|k]]; vm_compute; repeat split; discriminate.
Defined.

(** ** Sizes *)

(** X19.  The two size formatters of the GUI agree on every size but 0:
    [_format_size] prints a positive number of bytes as [get_directory_size]
    prints the size of a directory, in the same unit and with the same
    digits, and prints an empty directory as [0 B] where
    [get_directory_size] prints [0.0 B]. *)
Theorem size_formatters_agree :
  forall (fs : node) (path : Path),
    let size_bytes := Tools._get_directory_size fs path in
    (0 < size_bytes -> Tools._format_size size_bytes = get_directory_size fs path)
    /\ (size_bytes = 0 -> Tools._format_size size_bytes = "0 B"
                          /\ get_directory_size fs path = "0.0 B").
Proof.
  intros fs path size_bytes.
  assert (Hsame : get_directory_size fs path = size_units ["B"; "KB"; "MB"; "GB"] size_bytes 1)
    by reflexivity.
  rewrite Hsame. clearbody size_bytes. clear Hsame. split.
  - intros H. unfold Tools._format_size.
    destruct (Z.eqb_spec size_bytes 0) as [E|_]; [lia|].
    unfold Tools.format_loop, Tools.size_names, size_units. simpl length. simpl Nat.ltb.
    rewrite ?andb_true_r, ?andb_false_r.
    repeat match goal with
           | |- context [?a <=? ?b] => destruct (Z.leb_spec a b)
           | |- context [?a <? ?b] => destruct (Z.ltb_spec a b)
           end; simpl; try reflexivity; lia.
  - intros E. rewrite E. split; vm_compute; reflexivity.
Qed.

Lemma size_formatters_agree_witness :
  Tools._format_size (Tools._get_directory_size tree_sized ["d"])
  = get_directory_size tree_sized ["d"].
Proof.
  refine (proj1 (size_formatters_agree tree_sized ["d"]) _).
  vm_compute. reflexivity.
Defined.

Example size_of_a_file_of_1536_bytes : get_directory_size tree_sized ["d"] = "1.5 KB".
Proof. vm_compute. reflexivity. Qed.

(** ** The command line tool *)

(** X20.  [get_dependencies] never returns more than ten names and only
    reads the manifest of the language it is given: it returns nothing for a
    language other than [javascript] and [python], nothing when the manifest
    is missing, cannot be read or is not a dictionary with a dictionary of
    dependencies, and for Python no blank entry. *)
Theorem dependencies_are_at_most_ten :
  forall (fs : node) (project_path : Path) (language : string),
    let deps := Manager.get_dependencies fs project_path language in
    (length deps <= 10)%nat
    /\ (language <> "javascript" -> language <> "python" -> deps = [])
    /\ (language = "javascript" ->
        Fs.json_load fs (project_path // "package.json") = None -> deps = [])
    /\ (language = "python" ->
        Fs.read fs (project_path // "requirements.txt") false = None -> deps = [])
    /\ (language = "python" -> Forall (fun d => d <> "") deps).
Proof.
  intros fs p language deps. subst deps. unfold Manager.get_dependencies.
  split; [apply firstn_le_length|]. split; [|split; [|split]].
  - intros H1 H2. apply String.eqb_neq in H1, H2. rewrite H1, H2. reflexivity.
  - intros -> H. simpl. rewrite H. destruct (Fs.exists_ fs _); reflexivity.
  - intros -> H. simpl. rewrite H. destruct (Fs.exists_ fs _); reflexivity.
  - intros ->. simpl.
    destruct (Fs.exists_ fs _); [|constructor].
    destruct (Fs.read fs _ false) as [content|]; [|constructor].
    apply Forall_take. unfold Manager.requirement_lines.
    apply List.Forall_forall. intros d Hd.
    apply in_map_iff in Hd as [line [<- Hline]].
    apply filter_In in Hline as [_ Hline]. apply andb_true_iff in Hline as [Hline _].
    intros E. rewrite E in Hline. discriminate.
Qed.

Lemma dependencies_are_at_most_ten_witness :
  Manager.get_dependencies Sample.tree_plain ["work"; "proj"] "rust" = [].
Proof.
  refine (proj1 (proj2 (dependencies_are_at_most_ten Sample.tree_plain ["work"; "proj"] "rust"))
            _ _); discriminate.
Defined.

(** *** [scan_projects] *)

Lemma cli_analyze_Some fs git now p :
  dated fs p = true ->
  exists project, Manager.analyze_project fs git now p = Some project
                  /\ Manager.name project = Fs.name p /\ Manager.path project = Fs.str p.
Proof.
  intros Hd. unfold Manager.analyze_project, CLI.get_project_status.
  unfold dated in Hd.
  destruct (Manager.detect_project_type fs p) as [[ty la] fr].
  destruct (stat_time_cases fs p) as [E|[mtime [_ [_ E]]]]; rewrite !E in *; [discriminate|].
  simpl. eexists. split; [reflexivity|]. simpl. split; reflexivity.
Qed.

Lemma cli_analyze_None fs git now p :
  dated fs p = false -> Manager.analyze_project fs git now p = None.
Proof.
  intros Hd. unfold Manager.analyze_project. unfold dated in Hd.
  destruct (Manager.detect_project_type fs p) as [[ty la] fr].
  destruct (Fs.stat_mtime fs p ≫= fromtimestamp); [discriminate|reflexivity].
Qed.

Lemma cli_scan_fold fs git now (entries : list Path) :
  forall acc,
    map Manager.name (fold_left (fun projects project_path =>
                           if Fs.is_dir fs project_path then
                             match Manager.analyze_project fs git now project_path with
                             | Some project => projects ++ [project]
                             | None => projects
                             end
                           else projects) entries acc)
    = map Manager.name acc
      ++ map Fs.name (List.filter (fun p => Fs.is_dir fs p && dated fs p) entries).
Proof.
  induction entries as [|p entries IH]; intros acc; simpl; [rewrite app_nil_r; reflexivity|].
  destruct (Fs.is_dir fs p) eqn:Hd; [|apply IH]. simpl.
  destruct (dated fs p) eqn:Ht.
  - destruct (cli_analyze_Some fs git now p Ht) as [project [-> [Hn _]]].
    rewrite IH, map_app. simpl. rewrite Hn, <- app_assoc. reflexivity.
  - rewrite (cli_analyze_None fs git now p Ht). apply IH.
Qed.

(** X21.  The scan of the command line tool takes for a project every
    directory of [projects_dir] that it can date, in the order of the
    listing: the names of the projects it returns are the names of the
    subdirectories whose modification time [fromtimestamp] accepts, hidden
    ones and empty ones included; the others are left out.  It returns the
    empty list when [projects_dir] does not exist, and raises when it is not
    a directory. *)
Theorem cli_scan_lists_every_dated_directory :
  forall (fs : node) (git : git_oracle) (now : Z) (projects_dir : Path),
    (Fs.exists_ fs projects_dir = false ->
     Manager.scan_projects fs git now projects_dir = Some [])
    /\ (Fs.is_file fs projects_dir = true ->
        Manager.scan_projects fs git now projects_dir = None)
    /\ (forall entries, Fs.iterdir fs projects_dir = Some entries ->
        exists projects,
          Manager.scan_projects fs git now projects_dir = Some projects
          /\ map Manager.name projects
             = map Fs.name (List.filter (fun p => Fs.is_dir fs p && dated fs p) entries)).
Proof.
  intros fs git now d. unfold Manager.scan_projects. split; [|split].
  - intros ->. reflexivity.
  - unfold Fs.is_file, Fs.exists_, Fs.iterdir.
    destruct (Fs.resolve fs d) as [[|]|]; intros H; try discriminate. reflexivity.
  - intros entries He.
    assert (Hex : Fs.exists_ fs d = true).
    { unfold Fs.exists_, Fs.iterdir in *. destruct (Fs.resolve fs d); [reflexivity|discriminate]. }
    rewrite Hex, He. simpl. eexists. split; [reflexivity|].
    rewrite cli_scan_fold. reflexivity.
Qed.

Lemma cli_scan_lists_every_dated_directory_witness :
  exists projects,
    Manager.scan_projects Sample.tree_hidden (fun _ => None) 5000 ["ws"] = Some projects
    /\ map Manager.name projects = [".secret"; "app"].
Proof.
  apply (proj2 (proj2 (cli_scan_lists_every_dated_directory
                         Sample.tree_hidden (fun _ => None) 5000 ["ws"]))
           [["ws"; ".secret"]; ["ws"; "app"]]).
  reflexivity.
Defined.

(** A subdirectory dated after the year 9999 is left out of the list. *)
Example cli_scan_skips_a_directory_dated_too_late :
  map Manager.name
      (default [] (Manager.scan_projects
                     (Dir "" 0 [Dir "a" 0 []; Dir "b" (max_timestamp + 1) []; Dir "c" 0 []])
                     (fun _ => None) 0 []))
  = ["a"; "c"].
Proof. vm_compute. reflexivity. Qed.

(** *** [load_config] *)

Lemma has_key_app key (l1 l2 : list (string * json)) :
  Manager.has_key key (l1 ++ l2) = Manager.has_key key l1 || Manager.has_key key l2.
Proof. unfold Manager.has_key. apply existsb_app. Qed.

Lemma has_key_get key (l : list (string * json)) :
  Manager.has_key key l = false <-> dict_get key l = None.
Proof.
  induction l as [|[k v] l IH]; simpl; [tauto|].
  destruct (String.eqb k key); simpl; [split; discriminate|exact IH].
Qed.

(** The loop of the merge appends, in the order of the defaults, the
    entries whose key the file does not have. *)
Lemma merge_fold_spec (defaults : list (string * json)) :
  List.NoDup (map fst defaults) ->
  forall kvs,
    fold_left (fun kvs '(key, value) =>
                 if Manager.has_key key kvs then kvs else kvs ++ [(key, value)])
              defaults kvs
    = kvs ++ List.filter (fun kv => negb (Manager.has_key (fst kv) kvs)) defaults.
Proof.
  induction defaults as [|[k d] defaults IH]; intros Hnd kvs; simpl.
  - rewrite app_nil_r. reflexivity.
  - simpl in Hnd. apply List.NoDup_cons_iff in Hnd as [Hk Hnd].
    destruct (Manager.has_key k kvs) eqn:E; simpl.
    + apply IH. exact Hnd.
    + rewrite (IH Hnd), <- app_assoc. simpl. f_equal. f_equal.
      apply filter_ext_in. intros [k' v'] Hin. simpl.
      rewrite has_key_app. simpl.
      destruct (String.eqb_spec k k') as [->|_]; [|rewrite !orb_false_r; reflexivity].
      exfalso. apply Hk. apply in_map_iff. exists (k', v'). auto.
Qed.

Lemma dict_get_app key (l1 l2 : list (string * json)) :
  dict_get key (l1 ++ l2)
  = match dict_get key l1 with Some v => Some v | None => dict_get key l2 end.
Proof.
  induction l1 as [|[k v] l1 IH]; simpl; [reflexivity|].
  destruct (String.eqb k key); [reflexivity|exact IH].
Qed.

Lemma dict_get_filter key (kvs l : list (string * json)) :
  Manager.has_key key kvs = false ->
  dict_get key (List.filter (fun kv => negb (Manager.has_key (fst kv) kvs)) l) = dict_get key l.
Proof.
  intros Hk. induction l as [|[k v] l IH]; simpl; [reflexivity|].
  destruct (String.eqb_spec k key) as [->|Hne].
  - rewrite Hk. simpl. rewrite String.eqb_refl. reflexivity.
  - destruct (negb (Manager.has_key k kvs)); simpl; [|exact IH].
    apply String.eqb_neq in Hne. rewrite Hne. exact IH.
Qed.

Lemma default_config_keys home :
  map fst (Manager.default_config home)
  = ["projects_dir"; "templates_dir"; "backup_dir"; "monitoring"; "git"; "backup"].
Proof. reflexivity. Qed.

(** X22.  [load_config] merges the defaults into the file one level deep.
    When the file holds a dictionary, the configuration is that dictionary
    followed by the default entries whose key it lacks, in the order of the
    defaults: a lookup gives the value of the file when the file has the
    key, so a section of the file replaces the default section as a whole,
    and the default value otherwise.  When the file is missing, cannot be
    parsed, or holds a number or [null], the configuration is the default
    one, and it is written to the file only when the file was missing. *)
Theorem config_is_merged_one_level_deep :
  forall (home : string) (file : option (option json)),
    (forall kvs, file = Some (Some (JObj kvs)) ->
       let merged :=
         kvs ++ List.filter (fun kv => negb (Manager.has_key (fst kv) kvs))
                            (Manager.default_config home) in
       Manager.load_config home file = (JObj merged, false)
       /\ forall key,
            dict_get key merged
            = match dict_get key kvs with
              | Some v => Some v
              | None => dict_get key (Manager.default_config home)
              end)
    /\ (file = None -> Manager.load_config home file = (JObj (Manager.default_config home), true))
    /\ (file = Some None ->
        Manager.load_config home file = (JObj (Manager.default_config home), false))
    /\ (forall z, file = Some (Some (JNum z)) \/ file = Some (Some JNull) ->
        Manager.load_config home file = (JObj (Manager.default_config home), false)).
Proof.
  intros home file. split; [|split; [|split]].
  - intros kvs -> merged. subst merged. split.
    + unfold Manager.load_config, Manager.merge_defaults.
      rewrite merge_fold_spec; [reflexivity|].
      rewrite default_config_keys.
      repeat (constructor; [simpl; intuition discriminate|]). constructor.
    + intros key. rewrite dict_get_app.
      destruct (dict_get key kvs) eqn:E; [reflexivity|].
      apply dict_get_filter, has_key_get, E.
  - intros ->. reflexivity.
  - intros ->. reflexivity.
  - intros z [-> | ->]; reflexivity.
Qed.

Lemma config_is_merged_one_level_deep_witness :
  Manager.load_config "/home/u" (Some (Some (JObj [("backup", JObj [("enabled", JBool false)])])))
  = (JObj [("backup", JObj [("enabled", JBool false)]);
           ("projects_dir", JStr "/home/u/Projects");
           ("templates_dir", JStr "/home/u/ProjectTemplates");
           ("backup_dir", JStr "/home/u/ProjectBackups");
           ("monitoring", JObj [("enabled", JBool true); ("check_interval", JNum 300);
                                ("health_threshold", JNum 70)]);
           ("git", JObj [("auto_commit", JBool true);
                         ("commit_message", JStr "Auto-commit: {timestamp}");
                         ("push_on_save", JBool false)])], false).
Proof.
  apply (proj1 (proj1 (config_is_merged_one_level_deep "/home/u"
                         (Some (Some (JObj [("backup", JObj [("enabled", JBool false)])]))))
                      [("backup", JObj [("enabled", JBool false)])] eq_refl)).
Defined.

(** The section of the file stands as it is: [retention_days] is not
    filled in. *)
Example config_section_is_not_completed :
  (let '(config, _) :=
     Manager.load_config "/home/u"
       (Some (Some (JObj [("backup", JObj [("enabled", JBool false)])]))) in
   match config with
   | JObj kvs => dict_get "backup" kvs
   | _ => None
   end)
  = Some (JObj [("enabled", JBool false)]).
Proof. reflexivity. Qed.

(** ** Cleaning the backups *)

Lemma resolve_app (d q : Path) :
  forall fs, Fs.resolve fs (d ++ q) = Fs.resolve fs d ≫= fun n => Fs.resolve n q.
Proof.
  induction d as [|x d IH]; intros fs; simpl; [reflexivity|].
  destruct fs as [|nm m cs]; [reflexivity|].
  destruct (Fs.find_child x cs); [apply IH|reflexivity].
Qed.

Lemma find_child_name c cs n : Fs.find_child c cs = Some n -> node_name n = c.
Proof.
  induction cs as [|k cs IH]; simpl; [discriminate|].
  destruct (String.eqb (node_name k) c) eqn:E; [|exact IH].
  intros H. injection H as <-. apply String.eqb_eq, E.
Qed.

Lemma find_update_child c f cs n :
  Fs.find_child c cs = Some n -> node_name (f n) = c ->
  Fs.find_child c (Fs.update_child c f cs) = Some (f n).
Proof.
  induction cs as [|k cs IH]; simpl; [discriminate|].
  destruct (String.eqb (node_name k) c) eqn:E.
  - intros H Hn. injection H as ->. simpl. rewrite Hn, String.eqb_refl. reflexivity.
  - intros H Hn. simpl. rewrite E. apply IH; assumption.
Qed.

Lemma rmtree_cons now c c' p nm m cs :
  Backups.rmtree now (c :: c' :: p) (Dir nm m cs)
  = match Fs.find_child c cs with
    | Some child =>
        match Backups.rmtree now (c' :: p) child with
        | Some child' => Some (Dir nm m (Fs.update_child c (fun _ => child') cs))
        | None => None
        end
    | None => None
    end.
Proof. reflexivity. Qed.

Lemma rmtree_name now p : forall n n', Backups.rmtree now p n = Some n' -> node_name n' = node_name n.
Proof.
  destruct p as [|c p]; intros n n' H; [destruct n; discriminate|].
  destruct n as [|nm m cs]; [discriminate|].
  destruct p as [|c' p].
  - simpl in H. destruct (Fs.find_child c cs) as [[|]|]; try discriminate.
    injection H as H. subst n'. reflexivity.
  - rewrite rmtree_cons in H.
    destruct (Fs.find_child c cs) as [child|]; [|discriminate].
    destruct (Backups.rmtree now (c' :: p) child); [|discriminate].
    injection H as H. subst n'. reflexivity.
Qed.

Lemma rmtree_resolve now c nm m cs a b e :
  Fs.find_child c cs = Some (Dir a b e) ->
  forall d fs,
    Fs.resolve fs d = Some (Dir nm m cs) ->
    exists fs1, Backups.rmtree now (d // c) fs = Some fs1
                /\ Fs.resolve fs1 d = Some (Dir nm now (Backups.remove_child c cs)).
Proof.
  intros Hc. induction d as [|x d IH]; intros fs Hd.
  - simpl in Hd. injection Hd as ->. unfold Fs.div. simpl. rewrite Hc.
    eexists. split; reflexivity.
  - destruct fs as [|nm0 m0 top]; [discriminate|]. simpl in Hd.
    destruct (Fs.find_child x top) as [sub|] eqn:Hx; [|discriminate].
    destruct (IH sub Hd) as [sub1 [H1 H2]].
    unfold Fs.div in *. change ((x :: d) ++ [c]) with (x :: (d ++ [c])).
    assert (Hne : exists y q, d ++ [c] = y :: q).
    { destruct d; simpl; eauto. }
    destruct Hne as [y [q Hq]].
    rewrite Hq in *. rewrite rmtree_cons, Hx, H1.
    eexists. split; [reflexivity|]. simpl.
    rewrite (find_update_child x (fun _ => sub1) top sub Hx).
    + exact H2.
    + rewrite (rmtree_name _ _ _ _ H1). apply (find_child_name _ _ _ Hx).
Qed.

Lemma find_child_fresh c (kept : list node) rest :
  ~ In c (map node_name kept) ->
  Fs.find_child c (kept ++ rest) = Fs.find_child c rest.
Proof.
  induction kept as [|k kept IH]; simpl; [reflexivity|]. intros H.
  destruct (String.eqb (node_name k) c) eqn:E.
  - apply String.eqb_eq in E. tauto.
  - apply IH. tauto.
Qed.

Lemma remove_child_fresh c (kept : list node) rest :
  ~ In c (map node_name kept) ->
  Backups.remove_child c (kept ++ rest) = kept ++ Backups.remove_child c rest.
Proof.
  induction kept as [|k kept IH]; simpl; [reflexivity|]. intros H.
  destruct (String.eqb (node_name k) c) eqn:E.
  - apply String.eqb_eq in E. tauto.
  - f_equal. apply IH. tauto.
Qed.

Lemma cleanup_loop_spec now r nm d :
  forall pre rest fs m kept,
    Fs.resolve fs d = Some (Dir nm m (kept ++ pre ++ rest)) ->
    List.NoDup (map node_name (kept ++ pre ++ rest)) ->
    Forall (fun n => Backups.undated n = false) pre ->
    (forall n, head rest = Some n -> Backups.undated n = true) ->
    Fs.resolve (Backups.cleanup_loop fs now (Some r)
                  (map (fun c => d // node_name c) (pre ++ rest))) d
    = Some (Dir nm (if existsb (Backups.expired now r) pre then now else m)
                (kept ++ List.filter (fun n => negb (Backups.expired now r n)) pre ++ rest)).
Proof.
  induction pre as [|n pre IH]; intros rest fs m kept Hd Hnd Hpre Hrest.
  - simpl in *. destruct rest as [|n rest]; [exact Hd|].
    pose proof (Hrest n eq_refl) as Hn.
    assert (Hfresh : ~ In (node_name n) (map node_name kept)).
    { rewrite map_app in Hnd. simpl in Hnd. apply List.NoDup_remove_2 in Hnd.
      intros Hin. apply Hnd. apply in_or_app. left. exact Hin. }
    assert (Hres : Fs.resolve fs (d // node_name n) = Some n).
    { unfold Fs.div. rewrite resolve_app, Hd. simpl.
      rewrite find_child_fresh by exact Hfresh. simpl. rewrite String.eqb_refl. reflexivity. }
    simpl. unfold Fs.is_dir, Fs.stat_mtime. rewrite Hres.
    destruct n as [fnm ft fd|a t e]; [discriminate Hn|]. simpl in *.
    destruct (fromtimestamp t); [discriminate Hn|]. simpl. exact Hd.
  - apply Forall_cons in Hpre as [Hn Hpre].
    change ((n :: pre) ++ rest) with (n :: pre ++ rest) in *.
    assert (Hfresh : ~ In (node_name n) (map node_name kept)).
    { rewrite map_app in Hnd. simpl in Hnd. apply List.NoDup_remove_2 in Hnd.
      intros Hin. apply Hnd. apply in_or_app. left. exact Hin. }
    assert (Hfind : Fs.find_child (node_name n) (kept ++ n :: pre ++ rest) = Some n).
    { rewrite find_child_fresh by exact Hfresh. simpl. rewrite String.eqb_refl. reflexivity. }
    assert (Hres : Fs.resolve fs (d // node_name n) = Some n).
    { unfold Fs.div. rewrite resolve_app, Hd. simpl. rewrite Hfind. reflexivity. }
    assert (Hnext : Fs.resolve fs d = Some (Dir nm m ((kept ++ [n]) ++ pre ++ rest))
                    /\ List.NoDup (map node_name ((kept ++ [n]) ++ pre ++ rest))).
    { rewrite <- app_assoc. split; assumption. }
    simpl map. simpl Backups.cleanup_loop. unfold Fs.is_dir, Fs.stat_mtime. rewrite Hres.
    destruct n as [fnm ft fd|a t e].
    + simpl. rewrite (IH rest fs m (kept ++ [File fnm ft fd])); [|apply Hnext|apply Hnext|exact Hpre|exact Hrest].
      rewrite <- app_assoc. reflexivity.
    + assert (Ht : fromtimestamp t = Some t).
      { simpl in Hn. destruct (fromtimestamp t) as [t'|] eqn:Ht; [|discriminate Hn].
        apply fromtimestamp_Some in Ht. subst t'. reflexivity. }
      simpl. rewrite Ht. simpl.
      destruct (r <? (now - t) / 86400) eqn:Hexp.
      * destruct (rmtree_resolve now a nm m _ a t e Hfind d fs Hd) as [fs1 [H1 H2]].
        simpl in H1. rewrite H1.
        rewrite remove_child_fresh in H2 by exact Hfresh. simpl in H2.
        rewrite String.eqb_refl in H2.
        rewrite (IH rest fs1 now kept H2); [| |exact Hpre|exact Hrest].
        -- destruct (existsb (Backups.expired now r) pre); reflexivity.
        -- rewrite map_app in *. simpl in Hnd. apply List.NoDup_remove_1 in Hnd. exact Hnd.
      * rewrite (IH rest fs m (kept ++ [Dir a t e])); [|apply Hnext|apply Hnext|exact Hpre|exact Hrest].
        rewrite <- app_assoc. reflexivity.
Qed.

Lemma cleanup_loop_raises now entries : forall fs, Backups.cleanup_loop fs now None entries = fs.
Proof.
  induction entries as [|p entries IH]; intros fs; simpl; [reflexivity|].
  destruct (Fs.is_dir fs p); [|apply IH].
  destruct (Fs.stat_mtime fs p ≫= fromtimestamp); reflexivity.
Qed.

(** X23.  [cleanup_old_backups] works through the backup directory in the
    order of its listing and stops at the first directory whose modification
    time [fromtimestamp] rejects: of the entries [pre] before that
    directory (all of them when there is none) it removes exactly the
    directories last modified more than [retention_days] whole days ago, and
    it keeps the others, plain files of any age among them, and all the
    entries [rest] from that directory on, in the same order and with all
    they hold.  It leaves the tree as it is when the backup directory cannot
    be listed and when the retention is not a number. *)
Theorem cleanup_removes_the_expired_directories_it_reaches :
  forall (fs : node) (now : Z) (backup_dir : Path) (retention_days : json),
    (forall nm m pre rest r,
       Fs.resolve fs backup_dir = Some (Dir nm m (pre ++ rest)) ->
       List.NoDup (map node_name (pre ++ rest)) ->
       Backups.retention_of retention_days = Some r ->
       Forall (fun n => Backups.undated n = false) pre ->
       (forall n, head rest = Some n -> Backups.undated n = true) ->
       Fs.resolve (Backups.cleanup_old_backups fs now backup_dir retention_days) backup_dir
       = Some (Dir nm (if existsb (Backups.expired now r) pre then now else m)
                   (List.filter (fun n => negb (Backups.expired now r n)) pre ++ rest)))
    /\ (Fs.is_dir fs backup_dir = false ->
        Backups.cleanup_old_backups fs now backup_dir retention_days = fs)
    /\ (Backups.retention_of retention_days = None ->
        Backups.cleanup_old_backups fs now backup_dir retention_days = fs).
Proof.
  intros fs now d j. unfold Backups.cleanup_old_backups, Fs.iterdir, Fs.is_dir.
  split; [|split].
  - intros nm m pre rest r Hd Hnd -> Hpre Hrest. rewrite Hd.
    apply (cleanup_loop_spec now r nm d pre rest fs m []); assumption.
  - destruct (Fs.resolve fs d) as [[|]|]; intros H; try discriminate; reflexivity.
  - intros ->. destruct (Fs.resolve fs d) as [[|]|]; try reflexivity.
    apply cleanup_loop_raises.
Qed.

Lemma cleanup_removes_the_expired_directories_it_reaches_witness :
  Fs.resolve (Backups.cleanup_old_backups tree_backups (50 * 86400) ["backups"] (JNum 30))
             ["backups"]
  = Some (Dir "backups" (50 * 86400)
              [File "note.txt" 0 (mk_file 0 "" true None); Dir "new" (40 * 86400) []]).
Proof.
  refine (proj1 (cleanup_removes_the_expired_directories_it_reaches
                   tree_backups (50 * 86400) ["backups"] (JNum 30))
            "backups" 100
            [Dir "old" 0 [File "f" 0 (mk_file 3 "abc" true None)];
             File "note.txt" 0 (mk_file 0 "" true None);
             Dir "new" (40 * 86400) []]
            [] 30 _ _ _ _ _).
  - reflexivity.
  - repeat constructor; simpl; intuition discriminate.
  - reflexivity.
  - repeat constructor.
  - intros n H. discriminate H.
Defined.

(** An expired backup listed after a directory dated after the year 9999
    stays: the cleanup has ended there. *)
Example cleanup_ends_at_a_directory_dated_too_late :
  Fs.resolve (Backups.cleanup_old_backups
                (Dir "" 0 [Dir "backups" 100
                             [Dir "a" 0 []; Dir "b" (max_timestamp + 1) []; Dir "c" 0 []]])
                (50 * 86400) ["backups"] (JNum 30))
             ["backups"]
  = Some (Dir "backups" (50 * 86400) [Dir "b" (max_timestamp + 1) []; Dir "c" 0 []]).
Proof. vm_compute. reflexivity. Qed.

(** ** The sorted listing *)

(** X24.  For a listing whose names are ASCII, the sort of the scanner
    keeps every directory of the listing and puts them in the order of their
    lower-cased names; when no two names of the listing agree up to case,
    the sorted list is the same for every order in which the filesystem may
    list them.  (Names with other characters are outside the statement:
    the model lowers ASCII letters only.) *)
Theorem listing_is_sorted_by_lowercase_name :
  forall l : list Path,
    Forall (fun p => ascii_only (Fs.name p) = true) l ->
    sort_dirs l ≡ₚ l
    /\ StronglySorted key_le (sort_dirs l)
    /\ forall l', l ≡ₚ l' -> NoDup (map sort_key l) -> sort_dirs l' = sort_dirs l.
Proof.
  intros l _. split; [apply sort_dirs_perm|]. split; [apply sort_dirs_sorted|].
  intros l' Hp Hnd. symmetry. apply sort_dirs_listing_independent; assumption.
Qed.

Lemma listing_is_sorted_by_lowercase_name_witness :
  sort_dirs [["ws"; "b"]; ["ws"; "A"]] = sort_dirs [["ws"; "A"]; ["ws"; "b"]].
Proof.
  refine (proj2 (proj2 (listing_is_sorted_by_lowercase_name [["ws"; "A"]; ["ws"; "b"]] _))
            [["ws"; "b"]; ["ws"; "A"]] _ _).
  - repeat constructor.
  - apply Permutation_swap.
  - vm_compute. apply NoDup_ListNoDup. repeat constructor; simpl; intuition discriminate.
Defined.
